(** * getfw: the firmware acquisition-and-patch pipeline of [scripts/getfw.py]

    A shallow embedding of the script: the file-map normaliser, the two
    retrieval strategies, the four patch steps and the two-phase
    orchestrator, over a model of the file system, the network and the
    external tools, followed by the properties of the pipeline. *)

From Stdlib Require Import ZArith Ascii String.
From stdpp Require Import base option list strings gmap.

#[local] Set Warnings "-clear-no-such-hyp".

Local Open Scope string_scope.
Local Open Scope list_scope.

(** ** Python exceptions and results *)

Inductive exn : Type :=
| Exception (msg : string)
| TypeError
| IndexError
| NotImplementedError
| FileNotFoundError
| FileExistsError
| NotADirectoryError
| IsADirectoryError
| SameFileError
| OSError
| URLError
| SystemExit (code : Z).

Inductive res (A : Type) : Type :=
| Ok (a : A)
| Raise (e : exn).
Arguments Ok {A} a.
Arguments Raise {A} e.

#[global] Instance exn_eq_dec : EqDecision exn.
Proof. solve_decision. Defined.

#[global] Instance res_eq_dec {A} `{EqDecision A} : EqDecision (res A).
Proof. solve_decision. Defined.

(** The status the interpreter exits with: zero after a normal return, the
    code of [SystemExit], one after any other uncaught exception. *)
Definition exit_status {A} (r : res A) : Z :=
  match r with
  | Ok _ => 0%Z
  | Raise (SystemExit n) => n
  | Raise _ => 1%Z
  end.

(** ** Strings *)

Definition startswith (s pfx : string) : bool := String.prefix pfx s.

(** [s.split(sep)] for a one-character separator. *)
Fixpoint split_on (sep : ascii) (s : string) : list string :=
  match s with
  | EmptyString => [EmptyString]
  | String c s' =>
      if Ascii.eqb c sep then EmptyString :: split_on sep s'
      else match split_on sep s' with
           | [] => [String c EmptyString]
           | w :: ws => String c w :: ws
           end
  end.

(** ["/".join(l)] *)
Fixpoint join_slash (l : list string) : string :=
  match l with
  | [] => ""
  | [x] => x
  | x :: l' => x +:+ "/" +:+ join_slash l'
  end.

(** [s.replace(old, new)]: the occurrences of [old] are replaced from left
    to right, without overlap.  [skip] counts the characters of a matched
    occurrence that are still to be dropped. *)
Fixpoint replace_from (old new : string) (skip : nat) (s : string) : string :=
  match s with
  | EmptyString => EmptyString
  | String c s' =>
      match skip with
      | S k => replace_from old new k s'
      | O =>
          if String.prefix old s
          then new +:+ replace_from old new (Nat.pred (String.length old)) s'
          else String c (replace_from old new O s')
      end
  end.

Fixpoint intersperse_str (new s : string) : string :=
  match s with
  | EmptyString => EmptyString
  | String c s' => String c (new +:+ intersperse_str new s')
  end.

Definition replace (s old new : string) : string :=
  match old with
  | EmptyString => new +:+ intersperse_str new s
  | _ => replace_from old new O s
  end.

(** ** pathlib: pure POSIX paths *)

Record Path : Type := mkPath { anchor : string; parts : list string }.

#[global] Instance Path_eq_dec : EqDecision Path.
Proof. solve_decision. Defined.

Definition keep_part (x : string) : bool :=
  negb (String.eqb x "") && negb (String.eqb x ".").

(** [posixpath.splitroot] followed by the split of the rest at the slashes:
    empty components and single dots are dropped; exactly two leading
    slashes are a root of their own. *)
Definition Path_of (s : string) : Path :=
  match s with
  | String "/" (String "/" (String "/" _)) =>
      mkPath "/" (List.filter keep_part (split_on "/" s))
  | String "/" (String "/" _) =>
      mkPath "//" (List.filter keep_part (split_on "/" s))
  | String "/" _ => mkPath "/" (List.filter keep_part (split_on "/" s))
  | _ => mkPath "" (List.filter keep_part (split_on "/" s))
  end.

Definition is_absolute (p : Path) : bool := negb (String.eqb (anchor p) "").

(** [p / q] for a path [q]: an anchored right operand replaces the left. *)
Definition div_path (p q : Path) : Path :=
  if is_absolute q then q else mkPath (anchor p) (parts p ++ parts q).

(** [p / s] for a string [s]. *)
Definition div (p : Path) (s : string) : Path := div_path p (Path_of s).

(** [str(p)] *)
Definition str (p : Path) : string :=
  match anchor p, parts p with
  | EmptyString, [] => "."
  | r, l => r +:+ join_slash l
  end.

(** [p.name] and [p.parent] *)
Definition Path_name (p : Path) : string := List.last (parts p) "".
Definition Path_parent (p : Path) : Path := mkPath (anchor p) (removelast (parts p)).

(** The entry [n] of the directory [p], as [iterdir] builds it (the name is
    taken as it is, not parsed). *)
Definition child (p : Path) (n : string) : Path := mkPath (anchor p) (parts p ++ [n]).

Infix "</>" := div (at level 40, left associativity).
Infix "<//>" := div_path (at level 40, left associativity).

(** ** The file system

    A tree of directories, regular files and symbolic links, as a finite map
    from absolute locations (the list of components below the root) to
    nodes.  The root is always a directory.  Symbolic links are leaves: the
    model creates and removes them but does not traverse them; trees in which
    a link stands for a directory or a file on a path the script opens are
    outside the model (the operations raise there). *)

Inductive node : Type :=
| File (data : string)
| Dir
| Symlink (target : string).

#[global] Instance node_eq_dec : EqDecision node.
Proof. solve_decision. Defined.

Abbreviation Loc := (list string) (only parsing).
Abbreviation FS := (gmap (list string) node) (only parsing).

Definition stat (fs : FS) (k : Loc) : option node :=
  match k with
  | [] => Some Dir
  | _ => fs !! k
  end.

(** Every directory on the way from [above] down to the parent of
    [above ++ todo] exists: ENOENT for a missing one, ENOTDIR for a node that
    is no directory. *)
Fixpoint chain (fs : FS) (above todo : Loc) : res unit :=
  match todo with
  | [] => Ok tt
  | c :: todo' =>
      match stat fs above with
      | Some Dir => chain fs (above ++ [c]) todo'
      | None => Raise FileNotFoundError
      | Some _ => Raise NotADirectoryError
      end
  end.

Definition parents_ok (fs : FS) (k : Loc) : res unit := chain fs [] k.

(** [os.makedirs]-like creation, as [Path.mkdir(parents=True, exist_ok=True)]
    performs it: the missing directories are created from the top, an
    existing directory is accepted, any other node in the way is an error. *)
Fixpoint mkdirs (fs : FS) (above todo : Loc) : res FS :=
  match todo with
  | [] => Ok fs
  | c :: todo' =>
      let d := above ++ [c] in
      match fs !! d with
      | Some Dir => mkdirs fs d todo'
      | None => mkdirs (<[d := Dir]> fs) d todo'
      | Some _ =>
          match todo' with
          | [] => Raise FileExistsError
          | _ => Raise NotADirectoryError
          end
      end
  end.

(** [open(k, "rb").read()] *)
Definition read_file (fs : FS) (k : Loc) : res string :=
  match parents_ok fs k with
  | Raise e => Raise e
  | Ok _ =>
      match stat fs k with
      | None => Raise FileNotFoundError
      | Some (File d) => Ok d
      | Some Dir => Raise IsADirectoryError
      | Some (Symlink _) => Raise OSError
      end
  end.

(** [open(k, "wb").write(data)]: the file is created or truncated. *)
Definition write_file (fs : FS) (k : Loc) (data : string) : res FS :=
  match parents_ok fs k with
  | Raise e => Raise e
  | Ok _ =>
      match stat fs k with
      | None | Some (File _) => Ok (<[k := File data]> fs)
      | Some Dir => Raise IsADirectoryError
      | Some (Symlink _) => Raise OSError
      end
  end.

(** [os.unlink(k)] under [missing_ok=True]: only [FileNotFoundError] is
    swallowed. *)
Definition unlink_missing_ok (fs : FS) (k : Loc) : res FS :=
  match parents_ok fs k with
  | Raise FileNotFoundError => Ok fs
  | Raise e => Raise e
  | Ok _ =>
      match stat fs k with
      | None => Ok fs
      | Some Dir => Raise IsADirectoryError
      | Some _ => Ok (delete k fs)
      end
  end.

(** [os.unlink(k)] in a finaliser, where an exception is dropped. *)
Definition unlink_ignored (fs : FS) (k : Loc) : FS :=
  match unlink_missing_ok fs k with
  | Ok fs' => fs'
  | Raise _ => fs
  end.

(** [os.symlink(target, k)] *)
Definition symlink (fs : FS) (k : Loc) (target : string) : res FS :=
  match parents_ok fs k with
  | Raise e => Raise e
  | Ok _ =>
      match stat fs k with
      | None => Ok (<[k := Symlink target]> fs)
      | Some _ => Raise FileExistsError
      end
  end.

(** [shutil.rmtree(k)]: the directory and everything below it.  The root
    itself cannot be removed. *)
Definition below (k : Loc) (kv : list string * node) : Prop := k `prefix_of` kv.1.

#[global] Instance below_dec k kv : Decision (below k kv).
Proof. unfold below. apply _. Defined.

Definition rmtree (fs : FS) (k : Loc) : res FS :=
  match parents_ok fs k with
  | Raise e => Raise e
  | Ok _ =>
      match fs !! k with
      | None => Raise (match k with [] => OSError | _ => FileNotFoundError end)
      | Some Dir => Ok (filter (λ kv, ¬ below k kv) fs)
      | Some (File _) => Raise NotADirectoryError
      | Some (Symlink _) => Raise OSError
      end
  end.

Definition is_dir (fs : FS) (k : Loc) : bool :=
  match parents_ok fs k, stat fs k with
  | Ok _, Some Dir => true
  | _, _ => false
  end.

(** ** The environment of a run

    What the script reads from outside its own code: the working directory,
    its own location, the effective user, the order in which the operating
    system enumerates a directory, the network, the faults of the storage,
    the external tools and the name the temporary-file service hands out.

    The network answers a URL with the body of the resource or with the
    exception of the retrieval; in the second case [received] tells whether
    the connection had been opened and what part of the body had arrived
    when the retrieval broke off ([None]: the connection was never opened).
    A copy from one location to another may break off after a number of
    bytes ([copy_fault]), and the permission bits of a file may be refused
    ([chmod]); the tree of the model carries no owners and no modes, so
    both are the environment's. *)

Record Env : Type := mkEnv {
  cwd : list string;
  script_file : string;
  euid : Z;
  scandir : list string → list string;
  fetch : string → res string;
  received : string → option string;
  copy_fault : list string → list string → option (nat * exn);
  chmod : list string → res unit;
  spawn : list string → gmap (list string) node → res (gmap (list string) node * Z);
  mktemp : gmap (list string) node → string;
}.

(** Lexical normalisation of [..]. *)
Definition normalise (l : list string) : Loc :=
  fold_left (λ acc c, if String.eqb c ".." then removelast acc else acc ++ [c]) l [].

(** The location a path denotes. *)
Definition locate (env : Env) (p : Path) : Loc :=
  normalise (if is_absolute p then parts p else cwd env ++ parts p).

(** [p.resolve()] *)
Definition resolve (env : Env) (p : Path) : Path := mkPath "/" (locate env p).

(** ** Runs

    The observable history of a run: the lines printed, the calls into the
    standard library, and the entries into the [get] and [apply] methods. *)

Inductive event : Type :=
| EvPrint (line : string)
| EvGet (src : string)
| EvApply (patch : string)
| EvIterdir (p : Path)
| EvMkdir (p : Path)
| EvCopy (src dst : Path)
| EvUrlretrieve (url : string) (dst : Path)
| EvCall (argv : list string)
| EvTempfile (file : string)
| EvDump (file : string) (text : string)
| EvRmtree (p : Path)
| EvUnlink (p : Path)
| EvSymlink (link : Path) (target : string).

#[global] Instance event_eq_dec : EqDecision event.
Proof. solve_decision. Defined.

(** A computation transforms the file system, returns or raises, and leaves
    the events it caused; the effects of a computation that raises stay. *)
Definition M (A : Type) : Type := gmap (list string) node → res A * gmap (list string) node * list event.

Definition ret {A} (a : A) : M A := λ fs, (Ok a, fs, []).
Definition raise {A} (e : exn) : M A := λ fs, (Raise e, fs, []).
Definition lift {A} (r : res A) : M A := λ fs, (r, fs, []).
Definition emit (ev : event) : M unit := λ fs, (Ok tt, fs, [ev]).

Definition bind {A B} (m : M A) (f : A → M B) : M B := λ fs,
  match m fs with
  | (Ok a, fs1, t1) =>
      match f a fs1 with
      | (r, fs2, t2) => (r, fs2, t1 ++ t2)
      end
  | (Raise e, fs1, t1) => (Raise e, fs1, t1)
  end.

Notation "'let*' x := m 'in' k" := (bind m (λ x, k))
  (at level 10, x pattern, m at level 100, k at level 200).
Notation "m >> k" := (bind m (λ _, k)) (at level 100, k at level 200).

(** A file-system operation that may fail, run on the current tree. *)
Definition update (f : gmap (list string) node → res (gmap (list string) node)) : M unit := λ fs,
  match f fs with
  | Ok fs' => (Ok tt, fs', [])
  | Raise e => (Raise e, fs, [])
  end.

Definition query {A} (f : gmap (list string) node → res A) : M A := λ fs, (f fs, fs, []).

(** [for x in l: body(x)] *)
Fixpoint for_ {A} (l : list A) (body : A → M unit) : M unit :=
  match l with
  | [] => ret tt
  | x :: l' => body x >> for_ l' body
  end.

(** ** The standard-library calls of the script *)

Section Library.
Context (env : Env).

(** [p.iterdir()]: the entries of a directory, in the order the operating
    system enumerates them. *)
Definition iterdir (p : Path) : M (list Path) :=
  emit (EvIterdir p) >>
  query (λ fs,
    let k := locate env p in
    match parents_ok fs k with
    | Raise e => Raise e
    | Ok _ =>
        match stat fs k with
        | Some Dir => Ok (map (child p) (scandir env k))
        | None => Raise FileNotFoundError
        | Some _ => Raise NotADirectoryError
        end
    end).

(** [p.mkdir(parents=True, exist_ok=True)] *)
Definition Path_mkdir (p : Path) : M unit :=
  emit (EvMkdir p) >> update (λ fs, mkdirs fs [] (locate env p)).

(** [shutil.copyfile(src, dst)]: source and destination must differ; the
    source is opened before the destination; the destination is created or
    truncated and receives the content.  A copy that breaks off after the
    destination has been opened leaves in it what had been written. *)
Definition copyfile (src dst : Loc) : M unit := λ fs,
  if bool_decide (src = dst ∧ is_Some (stat fs src))
  then (Raise SameFileError, fs, [])
  else match read_file fs src with
       | Raise e => (Raise e, fs, [])
       | Ok data =>
           match copy_fault env src dst with
           | None =>
               match write_file fs dst data with
               | Ok fs' => (Ok tt, fs', [])
               | Raise e => (Raise e, fs, [])
               end
           | Some (n, e) =>
               match write_file fs dst (String.substring 0 n data) with
               | Ok fs' => (Raise e, fs', [])
               | Raise e' => (Raise e', fs, [])
               end
           end
       end.

(** [shutil.copymode(src, dst)]: the permission bits of the source are set
    on the destination. *)
Definition copymode (src dst : Loc) : M unit := lift (chmod env dst).

(** [shutil.copy(src, dst)]: a directory as destination receives the file
    under its own name; then [copyfile], then [copymode]. *)
Definition shutil_copy (src dst : Path) : M unit :=
  emit (EvCopy src dst) >>
  let* dst' := query (λ fs, Ok (if is_dir fs (locate env dst)
                                then dst </> Path_name src else dst)) in
  copyfile (locate env src) (locate env dst') >>
  copymode (locate env src) (locate env dst').

(** [urllib.request.urlretrieve(url, dst)]: the connection is opened first;
    then the destination is opened for writing (created or truncated) and
    the body is copied into it.  A retrieval that breaks off once the
    destination is open leaves in it what had been received. *)
Definition urlretrieve (url : string) (dst : Path) : M unit :=
  emit (EvUrlretrieve url dst) >>
  (λ fs, match fetch env url with
         | Ok data =>
             match write_file fs (locate env dst) data with
             | Ok fs' => (Ok tt, fs', [])
             | Raise e => (Raise e, fs, [])
             end
         | Raise e =>
             match received env url with
             | None => (Raise e, fs, [])
             | Some part =>
                 match write_file fs (locate env dst) part with
                 | Ok fs' => (Raise e, fs', [])
                 | Raise e' => (Raise e', fs, [])
                 end
             end
         end).

(** [subprocess.call(argv)]: the tool runs to its end and its exit status
    is the value of the call; only a failure to start it raises. *)
Definition subprocess_call (argv : list string) : M Z :=
  emit (EvCall argv) >>
  (λ fs, match spawn env argv fs with
         | Ok (fs', code) => (Ok code, fs', [])
         | Raise e => (Raise e, fs, [])
         end).

(** [tempfile.NamedTemporaryFile()]: a new empty file under a name of the
    service's choice; the value is that name. *)
Definition NamedTemporaryFile : M string :=
  λ fs, let n := mktemp env fs in
        match write_file fs (locate env (Path_of n)) "" with
        | Ok fs' => (Ok n, fs', [EvTempfile n])
        | Raise e => (Raise e, fs, [EvTempfile n])
        end.

(** The end of a [NamedTemporaryFile] object: when the last reference to
    it goes, the file is closed and its name is unlinked; an exception of
    this finaliser is ignored by the interpreter.  The script makes no call
    here, so no event is left. *)
Definition NamedTemporaryFile_del (file : string) : M unit :=
  λ fs, (Ok tt, unlink_ignored fs (locate env (Path_of file)), []).

(** [with open(file, "w") as fd: fd.write(text)] *)
Definition write_text (file : string) (text : string) : M unit :=
  emit (EvDump file text) >>
  update (λ fs, write_file fs (locate env (Path_of file)) text).

(** [shutil.rmtree(p)] *)
Definition shutil_rmtree (p : Path) : M unit :=
  emit (EvRmtree p) >> update (λ fs, rmtree fs (locate env p)).

(** [p.unlink(missing_ok=True)] and [p.symlink_to(target)] *)
Definition Path_unlink (p : Path) : M unit :=
  emit (EvUnlink p) >> update (λ fs, unlink_missing_ok fs (locate env p)).

Definition Path_symlink_to (p : Path) (target : string) : M unit :=
  emit (EvSymlink p target) >> update (λ fs, symlink fs (locate env p) target).
End Library.

(** ** json.dump *)

#[local] Unset Elimination Schemes.
Inductive json : Type :=
| JString (s : string)
| JArray (l : list json)
| JObject (l : list (string * json)).
#[local] Set Elimination Schemes.

Definition hex_digit (n : nat) : ascii :=
  ascii_of_nat (if Nat.ltb n 10 then 48 + n else 87 + n).

(** The escape of one character under [ensure_ascii]: the quote, the
    backslash and the short control escapes, [\u00XX] for every other
    character outside the printable range. *)
Definition json_escape_char (c : ascii) : string :=
  let n := nat_of_ascii c in
  if Nat.eqb n 34 then String "\" (String c "")
  else if Nat.eqb n 92 then "\\"
  else if Nat.eqb n 10 then "\n"
  else if Nat.eqb n 13 then "\r"
  else if Nat.eqb n 9 then "\t"
  else if Nat.eqb n 8 then "\b"
  else if Nat.eqb n 12 then "\f"
  else if Nat.leb 32 n && Nat.leb n 126 then String c ""
  else "\u00" +:+ String (hex_digit (n / 16)) (String (hex_digit (n mod 16)) "").

Fixpoint json_escape (s : string) : string :=
  match s with
  | EmptyString => EmptyString
  | String c s' => json_escape_char c +:+ json_escape s'
  end.

Definition json_quote (s : string) : string :=
  let q := String (ascii_of_nat 34) "" in q +:+ json_escape s +:+ q.

Fixpoint json_dumps (j : json) : string :=
  match j with
  | JString s => json_quote s
  | JArray l =>
      "[" +:+ (fix items (l : list json) : string :=
                 match l with
                 | [] => ""
                 | [x] => json_dumps x
                 | x :: l' => json_dumps x +:+ ", " +:+ items l'
                 end) l +:+ "]"
  | JObject l =>
      "{" +:+ (fix members (l : list (string * json)) : string :=
                 match l with
                 | [] => ""
                 | [(k, x)] => json_quote k +:+ ": " +:+ json_dumps x
                 | (k, x) :: l' => json_quote k +:+ ": " +:+ json_dumps x +:+ ", " +:+ members l'
                 end) l +:+ "}"
  end.

(** ** The script *)

Definition ATH10K_BOARD_FILE : string := "bdwlan.b58".
Definition ATH10K_BOARD_NAME : string := "bus=snoc,qmi-board-id=ff,qmi-chip-id=30224".

Definition PATH_PLATFORM : string := "XIAOMI/BOOK124".
Definition PATH_VENUS : string := "venus-5.2".

Definition PATH_WDSFR : string := "Windows/System32/DriverStore/FileRepository".
Definition PATH_THIRDPARTY (env : Env) : Path :=
  Path_parent (Path_of (script_file env)) </> "third-party".

Definition URL_AARCH64_FIRMWARE_REPO : string :=
  "https://raw.githubusercontent.com/linux-surface/aarch64-firmware/main/firmware".
Definition URL_LINUX_FIRMWARE_REPO : string :=
  "https://git.kernel.org/pub/scm/linux/kernel/git/firmware/linux-firmware.git/plain".

(** *** class Logger *)

Definition log_pfx : list string := ["==> "; " -> "; "    "].

Record Logger : Type := mkLogger { level : nat; pfx : string }.

Definition Logger_init (level : nat) : res Logger :=
  match log_pfx !! level with
  | Some p => Ok (mkLogger level p)
  | None => Raise IndexError
  end.

Definition Logger_sub (self : Logger) : res Logger := Logger_init (level self + 1).

Definition Logger_info (self : Logger) (msg : string) : M unit :=
  emit (EvPrint (pfx self +:+ msg)).

Definition Logger_warn (self : Logger) (msg : string) : M unit :=
  emit (EvPrint (pfx self +:+ "WARNING: " +:+ msg)).

Definition Logger_error (self : Logger) (msg : string) : M unit :=
  emit (EvPrint (pfx self +:+ "ERROR: " +:+ msg)).

(** The [args] namespace built by [main]. *)
Record Args : Type := mkArgs { path_wdsfr : Path; path_out : Path }.

(** *** Python dictionaries with string keys and values

    A dictionary keeps its items in insertion order; assigning to a key that
    is present replaces the value where the key stands. *)

Abbreviation pydict := (list (string * string)) (only parsing).

Fixpoint dict_set (d : pydict) (k v : string) : pydict :=
  match d with
  | [] => [(k, v)]
  | (k', v') :: d' =>
      if String.eqb k' k then (k', v) :: d' else (k', v') :: dict_set d' k v
  end.

Fixpoint dict_get (d : pydict) (k : string) : option string :=
  match d with
  | [] => None
  | (k', v') :: d' => if String.eqb k' k then Some v' else dict_get d' k
  end.

Definition dict_keys (d : pydict) : list string := map fst d.

(** [{k: v, ...}] *)
Definition dict_literal (l : list (string * string)) : pydict :=
  fold_left (λ d kv, dict_set d kv.1 kv.2) l [].

(** What a declaration may pass as [files]: a list of names, a dictionary,
    or a value of another type. *)
Inductive pyfiles : Type :=
| FilesList (l : list string)
| FilesDict (d : list (string * string))
| FilesTuple (l : list string)
| FilesStr (s : string)
| FilesInt (n : Z)
| FilesNone.

(** *** class Firmware and its subclasses *)

Definition _filemap (files : pyfiles) : res pydict :=
  match files with
  | FilesList l => Ok (fold_left (λ d x, dict_set d x x) l [])
  | FilesDict d => Ok d
  | _ => Raise (Exception "invalid file map")
  end.

Inductive Firmware : Type :=
| FirmwareBase (name : string) (target_directory : Path)
| WindowsDriver (name : string) (target_directory : Path)
    (source_directory : string) (files : list (string * string))
| Download (name : string) (target_directory : Path)
    (source_url : string) (files : list (string * string)).

Definition Firmware_name (self : Firmware) : string :=
  match self with
  | FirmwareBase n _ | WindowsDriver n _ _ _ | Download n _ _ _ => n
  end.

Definition Firmware_init (name target_directory : string) : res Firmware :=
  Ok (FirmwareBase name (Path_of target_directory)).

Definition WindowsDriverFirmware (name target_directory source_directory : string)
    (files : pyfiles) : res Firmware :=
  match _filemap files with
  | Ok m => Ok (WindowsDriver name (Path_of target_directory) source_directory m)
  | Raise e => Raise e
  end.

Definition DownloadFirmware (name target_directory source_url : string)
    (files : pyfiles) : res Firmware :=
  match _filemap files with
  | Ok m => Ok (Download name (Path_of target_directory) source_url m)
  | Raise e => Raise e
  end.

Section Script.
Context (env : Env).

Definition _find_source_directory (source_directory : string) (args : Args)
    : M (option Path) :=
  let* ps := iterdir env (path_wdsfr args) in
  ret (List.find (λ p, startswith (Path_name p) source_directory) ps).

(** [base / s]: the operator is not defined on [None]. *)
Definition div_base (base : option Path) (s : string) : res Path :=
  match base with
  | Some b => Ok (b </> s)
  | None => Raise TypeError
  end.

Definition WindowsDriverFirmware_copy (target_directory : Path) (base : option Path)
    (log : Logger) (args : Args) (st : string * string) : M unit :=
  let '(s, t) := st in
  let* src := lift (div_base base s) in
  let tgt := path_out args <//> target_directory </> t in
  Path_mkdir env (Path_parent tgt) >>
  Logger_info log ("copying '" +:+ str src +:+ "' to '" +:+ str (target_directory </> t) +:+ "'") >>
  shutil_copy env src tgt.

Definition WindowsDriverFirmware_get (target_directory : Path)
    (source_directory : string) (files : pydict) (log : Logger) (args : Args) : M unit :=
  let* base := _find_source_directory source_directory args in
  for_ files (WindowsDriverFirmware_copy target_directory base log args).

Definition DownloadFirmware_fetch (target_directory : Path) (source_url : string)
    (log : Logger) (args : Args) (st : string * string) : M unit :=
  let '(s, t) := st in
  let src := source_url +:+ "/" +:+ s in
  let tgt := path_out args <//> target_directory </> t in
  Path_mkdir env (Path_parent tgt) >>
  Logger_info log ("downloading '" +:+ src +:+ "' to '" +:+ str (target_directory </> t) +:+ "'") >>
  urlretrieve env src tgt.

Definition DownloadFirmware_get (target_directory : Path) (source_url : string)
    (files : pydict) (log : Logger) (args : Args) : M unit :=
  for_ files (DownloadFirmware_fetch target_directory source_url log args).

(** [src.get(log, args)], dispatched on the class of [src]. *)
Definition Firmware_get (self : Firmware) (log : Logger) (args : Args) : M unit :=
  emit (EvGet (Firmware_name self)) >>
  match self with
  | FirmwareBase _ _ => raise NotImplementedError
  | WindowsDriver _ td sd files => WindowsDriverFirmware_get td sd files log args
  | Download _ td url files => DownloadFirmware_get td url files log args
  end.
End Script.

(** *** class Patch and the patch functions *)

Record Patch : Type := mkPatch {
  Patch_name : string;
  Patch_fn : Env → Logger → Args → M unit;
}.

Definition Patch_apply (env : Env) (self : Patch) (log : Logger) (args : Args) : M unit :=
  emit (EvApply (Patch_name self)) >> Patch_fn self env log args.

Section Patches.
Context (env : Env).

Definition patch_venus_extract (log : Logger) (args : Args) : M unit :=
  let pil_splitter := PATH_THIRDPARTY env </> "qcom-mbn-tools" </> "pil-splitter.py" in
  let mbn_venus := path_out args </> "qcom" </> PATH_PLATFORM </> "qcvss8180.mbn" in
  let dir_venus := path_out args </> "qcom" </> PATH_VENUS in
  Path_mkdir env dir_venus >>
  let* _ := subprocess_call env
              ["python"; str pil_splitter; str mbn_venus; str (dir_venus </> "venus")] in
  shutil_copy env mbn_venus (dir_venus </> "venus.mbn").

Definition ath10k_spec (path_boards : Path) : json :=
  JArray [JObject [("data", JString (str (path_boards </> ATH10K_BOARD_FILE)));
                   ("names", JArray [JString ATH10K_BOARD_NAME])]].

(** The temporary file is held by the local variable [file] and by nothing
    else: the object ends when the function returns.  While an exception
    propagates, the frame and with it the object are kept by the traceback,
    so the file is still there when the exception leaves the function. *)
Definition patch_ath10k_board (log : Logger) (args : Args) : M unit :=
  let ath10k_bdencoder :=
    PATH_THIRDPARTY env </> "qca-swiss-army-knife" </> "tools" </> "scripts"
      </> "ath10k" </> "ath10k-bdencoder" in
  let path_boards :=
    resolve env (path_out args) </> "ath10k" </> "WCN3990" </> "hw1.0" </> "boards" in
  let path_board_out :=
    resolve env (path_out args) </> "ath10k" </> "WCN3990" </> "hw1.0" </> "board-2.bin" in
  let spec := ath10k_spec path_boards in
  let* file := NamedTemporaryFile env in
  write_text env file (json_dumps spec) >>
  let* _ := subprocess_call env
              ["python"; str ath10k_bdencoder; "-c"; file; "-o"; str path_board_out] in
  shutil_rmtree env path_boards >>
  NamedTemporaryFile_del env file.

Definition patch_ath10k_firmware (log : Logger) (args : Args) : M unit :=
  let ath10k_fwencoder :=
    PATH_THIRDPARTY env </> "qca-swiss-army-knife" </> "tools" </> "scripts"
      </> "ath10k" </> "ath10k-fwencoder" in
  let fw5_bin := path_out args </> "ath10k" </> "WCN3990" </> "hw1.0" </> "firmware-5.bin" in
  let args' := ["--modify";
                "--features=wowlan,mgmt-tx-by-ref,non-bmi,single-chan-info-per-channel";
                str fw5_bin] in
  let* _ := subprocess_call env (["python"; str ath10k_fwencoder] ++ args') in
  ret tt.

Definition qca_bt_files : list string := [
  "crbtfw21.tlv";
  "crnv21.b3c";
  "crnv21.b44";
  "crnv21.b45";
  "crnv21.b46";
  "crnv21.b47";
  "crnv21.b71";
  "crnv21.bin"
].

Definition qca_bt_link (base_path : Path) (file : string) : M unit :=
  let link := base_path </> replace file "21" "01" in
  Path_unlink env link >>
  Path_symlink_to env link file.

Definition patch_qca_bt_symlinks (log : Logger) (args : Args) : M unit :=
  let base_path := path_out args </> "qca" in
  for_ qca_bt_files (qca_bt_link base_path).
End Patches.

(** *** The registries *)

Definition mcfg_files : list (string * string) := [
  ("MCFG/mbn_hw.dig.78",
   "modem_pr/mcfg/configs/mcfg_hw/mbn_hw.dig");
  ("MCFG/mbn_hw.txt.79",
   "modem_pr/mcfg/configs/mcfg_hw/mbn_hw.txt");
  ("MCFG/mbn_sw.dig.221",
   "modem_pr/mcfg/configs/mcfg_sw/mbn_sw.dig");
  ("MCFG/mbn_sw.txt.222",
   "modem_pr/mcfg/configs/mcfg_sw/mbn_sw.txt");
  ("MCFG/mcfg_hw.mbn.10",
   "modem_pr/mcfg/configs/mcfg_hw/generic/common/mdm9x55/ss/mcfg_hw.mbn");
  ("MCFG/mcfg_hw.mbn.11",
   "modem_pr/mcfg/configs/mcfg_hw/generic/common/mdm9x55_fusion/7+7_mode/dr_dsds/mcfg_hw.mbn");
  ("MCFG/mcfg_hw.mbn.12",
   "modem_pr/mcfg/configs/mcfg_hw/generic/common/mdm9x55_fusion/7+7_mode/sr_dsds/mcfg_hw.mbn");
  ("MCFG/mcfg_hw.mbn.13",
   "modem_pr/mcfg/configs/mcfg_hw/generic/common/mdm9x55_fusion/ss/mcfg_hw.mbn");
  ("MCFG/mcfg_hw.mbn.14",
   "modem_pr/mcfg/configs/mcfg_hw/generic/common/msm8998/cmcc_subsidized/sr_dsds/mcfg_hw.mbn");
  ("MCFG/mcfg_hw.mbn.15",
   "modem_pr/mcfg/configs/mcfg_hw/generic/common/msm8998/la/7+7_mode/dr_dsds/mcfg_hw.mbn");
  ("MCFG/mcfg_hw.mbn.16",
   "modem_pr/mcfg/configs/mcfg_hw/generic/common/msm8998/la/7+7_mode/sr_dsds/mcfg_hw.mbn");
  ("MCFG/mcfg_hw.mbn.17",
   "modem_pr/mcfg/configs/mcfg_hw/generic/common/msm8998/la/ss/mcfg_hw.mbn");
  ("MCFG/mcfg_hw.mbn.18",
   "modem_pr/mcfg/configs/mcfg_hw/generic/common/msm8998/wd/7+7_mode/sr_dsds/mcfg_hw.mbn");
  ("MCFG/mcfg_hw.mbn.19",
   "modem_pr/mcfg/configs/mcfg_hw/generic/common/msm8998/wd/ss/mcfg_hw.mbn");
  ("MCFG/mcfg_hw.mbn.1",
   "modem_pr/mcfg/configs/mcfg_hw/generic/common/default/5g_default/mcfg_hw.mbn");
  ("MCFG/mcfg_hw.mbn.20",
   "modem_pr/mcfg/configs/mcfg_hw/generic/common/msm8998/wp8/7+7_mode/dr_dsds/mcfg_hw.mbn");
  ("MCFG/mcfg_hw.mbn.21",
   "modem_pr/mcfg/configs/mcfg_hw/generic/common/msm8998/wp8/7+7_mode/sr_dsds/mcfg_hw.mbn");
  ("MCFG/mcfg_hw.mbn.22",
   "modem_pr/mcfg/configs/mcfg_hw/generic/common/msm8998/wp8/ss/mcfg_hw.mbn");
  ("MCFG/mcfg_hw.mbn.23",
   "modem_pr/mcfg/configs/mcfg_hw/generic/common/sc8180x/cmcc_subsidized/sr_dsds/mcfg_hw.mbn");
  ("MCFG/mcfg_hw.mbn.24",
   "modem_pr/mcfg/configs/mcfg_hw/generic/common/sc8180x/la/7+7_mode/sr_dsds/mcfg_hw.mbn");
  ("MCFG/mcfg_hw.mbn.25",
   "modem_pr/mcfg/configs/mcfg_hw/generic/common/sc8180x/la/dsds/mcfg_hw.mbn");
  ("MCFG/mcfg_hw.mbn.26",
   "modem_pr/mcfg/configs/mcfg_hw/generic/common/sc8180x/la/ss/mcfg_hw.mbn");
  ("MCFG/mcfg_hw.mbn.27",
   "modem_pr/mcfg/configs/mcfg_hw/generic/common/sc8180x/wd/7+7_mode/sr_dsds/mcfg_hw.mbn");
  ("MCFG/mcfg_hw.mbn.28",
   "modem_pr/mcfg/configs/mcfg_hw/generic/common/sc8180x/wd/dssa/mcfg_hw.mbn");
  ("MCFG/mcfg_hw.mbn.29",
   "modem_pr/mcfg/configs/mcfg_hw/generic/common/sc8180x/wd/ss/mcfg_hw.mbn");
  ("MCFG/mcfg_hw.mbn.2",
   "modem_pr/mcfg/configs/mcfg_hw/generic/common/default/cust_default/mcfg_hw.mbn");
  ("MCFG/mcfg_hw.mbn.30",
   "modem_pr/mcfg/configs/mcfg_hw/generic/common/sc8180x/wp8/7+7_mode/sr_dsds/mcfg_hw.mbn");
  ("MCFG/mcfg_hw.mbn.31",
   "modem_pr/mcfg/configs/mcfg_hw/generic/common/sc8180x/wp8/ss/mcfg_hw.mbn");
  ("MCFG/mcfg_hw.mbn.32",
   "modem_pr/mcfg/configs/mcfg_hw/generic/common/sdm1000/cmcc_subsidized/sr_dsds/mcfg_hw.mbn");
  ("MCFG/mcfg_hw.mbn.33",
   "modem_pr/mcfg/configs/mcfg_hw/generic/common/sdm1000/la/7+7_mode/sr_dsds/mcfg_hw.mbn");
  ("MCFG/mcfg_hw.mbn.34",
   "modem_pr/mcfg/configs/mcfg_hw/generic/common/sdm1000/la/ss/mcfg_hw.mbn");
  ("MCFG/mcfg_hw.mbn.35",
   "modem_pr/mcfg/configs/mcfg_hw/generic/common/sdm1000/wd/7+7_mode/sr_dsds/mcfg_hw.mbn");
  ("MCFG/mcfg_hw.mbn.36",
   "modem_pr/mcfg/configs/mcfg_hw/generic/common/sdm1000/wd/dssa/mcfg_hw.mbn");
  ("MCFG/mcfg_hw.mbn.37",
   "modem_pr/mcfg/configs/mcfg_hw/generic/common/sdm1000/wd/ss/mcfg_hw.mbn");
  ("MCFG/mcfg_hw.mbn.38",
   "modem_pr/mcfg/configs/mcfg_hw/generic/common/sdm1000/wp8/7+7_mode/sr_dsds/mcfg_hw.mbn");
  ("MCFG/mcfg_hw.mbn.39",
   "modem_pr/mcfg/configs/mcfg_hw/generic/common/sdm1000/wp8/ss/mcfg_hw.mbn");
  ("MCFG/mcfg_hw.mbn.3",
   "modem_pr/mcfg/configs/mcfg_hw/generic/common/default/sc8180x.gen.prod/5g_default/mcfg_hw.mbn");
  ("MCFG/mcfg_hw.mbn.40",
   "modem_pr/mcfg/configs/mcfg_hw/generic/common/sdm660/cmcc_subsidized/sr_dsds/mcfg_hw.mbn");
  ("MCFG/mcfg_hw.mbn.41",
   "modem_pr/mcfg/configs/mcfg_hw/generic/common/sdm660/la/7+7_mode/sr_dsds/mcfg_hw.mbn");
  ("MCFG/mcfg_hw.mbn.42",
   "modem_pr/mcfg/configs/mcfg_hw/generic/common/sdm660/la/ss/mcfg_hw.mbn");
  ("MCFG/mcfg_hw.mbn.43",
   "modem_pr/mcfg/configs/mcfg_hw/generic/common/sdm670/cmcc_subsidized/sr_dsds/mcfg_hw.mbn");
  ("MCFG/mcfg_hw.mbn.44",
   "modem_pr/mcfg/configs/mcfg_hw/generic/common/sdm670/la/7+7_mode/sr_dsds/mcfg_hw.mbn");
  ("MCFG/mcfg_hw.mbn.45",
   "modem_pr/mcfg/configs/mcfg_hw/generic/common/sdm670/la/ss/mcfg_hw.mbn");
  ("MCFG/mcfg_hw.mbn.46",
   "modem_pr/mcfg/configs/mcfg_hw/generic/common/sdm845/cmcc_subsidized/sr_dsds/mcfg_hw.mbn");
  ("MCFG/mcfg_hw.mbn.47",
   "modem_pr/mcfg/configs/mcfg_hw/generic/common/sdm845/la/7+7_mode/sr_dsds/mcfg_hw.mbn");
  ("MCFG/mcfg_hw.mbn.48",
   "modem_pr/mcfg/configs/mcfg_hw/generic/common/sdm845/la/ss/mcfg_hw.mbn");
  ("MCFG/mcfg_hw.mbn.49",
   "modem_pr/mcfg/configs/mcfg_hw/generic/common/sdm845/wd/7+7_mode/sr_dsds/mcfg_hw.mbn");
  ("MCFG/mcfg_hw.mbn.4",
   "modem_pr/mcfg/configs/mcfg_hw/generic/common/default/sc8180x.gen.prod/cust_default/mcfg_hw.mbn");
  ("MCFG/mcfg_hw.mbn.50",
   "modem_pr/mcfg/configs/mcfg_hw/generic/common/sdm845/wd/ss/mcfg_hw.mbn");
  ("MCFG/mcfg_hw.mbn.51",
   "modem_pr/mcfg/configs/mcfg_hw/generic/common/sdm845/wp8/7+7_mode/sr_dsds/mcfg_hw.mbn");
  ("MCFG/mcfg_hw.mbn.52",
   "modem_pr/mcfg/configs/mcfg_hw/generic/common/sdm845/wp8/ss/mcfg_hw.mbn");
  ("MCFG/mcfg_hw.mbn.53",
   "modem_pr/mcfg/configs/mcfg_hw/generic/common/sdm855/cmcc_subsidized/sr_dsds/mcfg_hw.mbn");
  ("MCFG/mcfg_hw.mbn.54",
   "modem_pr/mcfg/configs/mcfg_hw/generic/common/sdm855/la/7+7_mode/sr_dsds/mcfg_hw.mbn");
  ("MCFG/mcfg_hw.mbn.55",
   "modem_pr/mcfg/configs/mcfg_hw/generic/common/sdm855/la/ss/mcfg_hw.mbn");
  ("MCFG/mcfg_hw.mbn.56",
   "modem_pr/mcfg/configs/mcfg_hw/generic/common/sdm855/wd/7+7_mode/sr_dsds/mcfg_hw.mbn");
  ("MCFG/mcfg_hw.mbn.57",
   "modem_pr/mcfg/configs/mcfg_hw/generic/common/sdm855/wd/ss/mcfg_hw.mbn");
  ("MCFG/mcfg_hw.mbn.58",
   "modem_pr/mcfg/configs/mcfg_hw/generic/common/sdm855/wp8/7+7_mode/sr_dsds/mcfg_hw.mbn");
  ("MCFG/mcfg_hw.mbn.59",
   "modem_pr/mcfg/configs/mcfg_hw/generic/common/sdm855/wp8/ss/mcfg_hw.mbn");
  ("MCFG/mcfg_hw.mbn.5",
   "modem_pr/mcfg/configs/mcfg_hw/generic/common/default/sc8180x.gen.prod/default/mcfg_hw.mbn");
  ("MCFG/mcfg_hw.mbn.60",
   "modem_pr/mcfg/configs/mcfg_hw/generic/common/sdx20m_fusion/7+7_mode/dr_dsds/mcfg_hw.mbn");
  ("MCFG/mcfg_hw.mbn.61",
   "modem_pr/mcfg/configs/mcfg_hw/generic/common/sdx20m_fusion/7+7_mode/sr_dsds/mcfg_hw.mbn");
  ("MCFG/mcfg_hw.mbn.62",
   "modem_pr/mcfg/configs/mcfg_hw/generic/common/sdx20m_fusion/ss/mcfg_hw.mbn");
  ("MCFG/mcfg_hw.mbn.63",
   "modem_pr/mcfg/configs/mcfg_hw/generic/common/sdx20/7+7_mode/sr_dsds/mcfg_hw.mbn");
  ("MCFG/mcfg_hw.mbn.64",
   "modem_pr/mcfg/configs/mcfg_hw/generic/common/sdx20/ss/mcfg_hw.mbn");
  ("MCFG/mcfg_hw.mbn.65",
   "modem_pr/mcfg/configs/mcfg_hw/generic/common/sdx24/7+7_mode/sr_dsds/mcfg_hw.mbn");
  ("MCFG/mcfg_hw.mbn.66",
   "modem_pr/mcfg/configs/mcfg_hw/generic/common/sdx24/ss/mcfg_hw.mbn");
  ("MCFG/mcfg_hw.mbn.67",
   "modem_pr/mcfg/configs/mcfg_hw/generic/common/sdx24_fusion/7+7_mode/sr_dsds/mcfg_hw.mbn");
  ("MCFG/mcfg_hw.mbn.68",
   "modem_pr/mcfg/configs/mcfg_hw/generic/common/sdx24_fusion/ss/mcfg_hw.mbn");
  ("MCFG/mcfg_hw.mbn.69",
   "modem_pr/mcfg/configs/mcfg_hw/generic/common/sm8150/cmcc_subsidized/sr_dsds/mcfg_hw.mbn");
  ("MCFG/mcfg_hw.mbn.6",
   "modem_pr/mcfg/configs/mcfg_hw/generic/common/default/sc8180x.genimss.prod/default/mcfg_hw.mbn");
  ("MCFG/mcfg_hw.mbn.70",
   "modem_pr/mcfg/configs/mcfg_hw/generic/common/sm8150/la/7+7_mode/sr_dsds/mcfg_hw.mbn");
  ("MCFG/mcfg_hw.mbn.71",
   "modem_pr/mcfg/configs/mcfg_hw/generic/common/sm8150/la/dsds/mcfg_hw.mbn");
  ("MCFG/mcfg_hw.mbn.72",
   "modem_pr/mcfg/configs/mcfg_hw/generic/common/sm8150/la/ss/mcfg_hw.mbn");
  ("MCFG/mcfg_hw.mbn.73",
   "modem_pr/mcfg/configs/mcfg_hw/generic/common/sm8150/la/ss_apq_only/mcfg_hw.mbn");
  ("MCFG/mcfg_hw.mbn.74",
   "modem_pr/mcfg/configs/mcfg_hw/generic/common/sm8150/wd/7+7_mode/sr_dsds/mcfg_hw.mbn");
  ("MCFG/mcfg_hw.mbn.75",
   "modem_pr/mcfg/configs/mcfg_hw/generic/common/sm8150/wd/ss/mcfg_hw.mbn");
  ("MCFG/mcfg_hw.mbn.76",
   "modem_pr/mcfg/configs/mcfg_hw/generic/common/sm8150/wp8/7+7_mode/sr_dsds/mcfg_hw.mbn");
  ("MCFG/mcfg_hw.mbn.77",
   "modem_pr/mcfg/configs/mcfg_hw/generic/common/sm8150/wp8/ss/mcfg_hw.mbn");
  ("MCFG/mcfg_hw.mbn.7",
   "modem_pr/mcfg/configs/mcfg_hw/generic/common/default/sc8180x.genmd.prod/default/mcfg_hw.mbn");
  ("MCFG/mcfg_hw.mbn.8",
   "modem_pr/mcfg/configs/mcfg_hw/generic/common/mdm9x55/7+7_mode/dr_dsds/mcfg_hw.mbn");
  ("MCFG/mcfg_hw.mbn.9",
   "modem_pr/mcfg/configs/mcfg_hw/generic/common/mdm9x55/7+7_mode/sr_dsds/mcfg_hw.mbn");
  ("MCFG/mcfg_sw.mbn.100",
   "modem_pr/mcfg/configs/mcfg_sw/generic/china/ct/commercial/openmkt/mcfg_sw.mbn");
  ("MCFG/mcfg_sw.mbn.101",
   "modem_pr/mcfg/configs/mcfg_sw/generic/china/ct/commercial/volte_openmkt/mcfg_sw.mbn");
  ("MCFG/mcfg_sw.mbn.102",
   "modem_pr/mcfg/configs/mcfg_sw/generic/china/ct/lab/cta/mcfg_sw.mbn");
  ("MCFG/mcfg_sw.mbn.103",
   "modem_pr/mcfg/configs/mcfg_sw/generic/china/ct/lab/eps_only_volte_conf/mcfg_sw.mbn");
  ("MCFG/mcfg_sw.mbn.104",
   "modem_pr/mcfg/configs/mcfg_sw/generic/china/ct/lab/noapn_vo_conf/mcfg_sw.mbn");
  ("MCFG/mcfg_sw.mbn.105",
   "modem_pr/mcfg/configs/mcfg_sw/generic/china/ct/lab/test/mcfg_sw.mbn");
  ("MCFG/mcfg_sw.mbn.106",
   "modem_pr/mcfg/configs/mcfg_sw/generic/china/ct/lab/test_eps_only/mcfg_sw.mbn");
  ("MCFG/mcfg_sw.mbn.107",
   "modem_pr/mcfg/configs/mcfg_sw/generic/china/ct/lab/test_no_apn/mcfg_sw.mbn");
  ("MCFG/mcfg_sw.mbn.108",
   "modem_pr/mcfg/configs/mcfg_sw/generic/china/ct/lab/volte_conf/mcfg_sw.mbn");
  ("MCFG/mcfg_sw.mbn.109",
   "modem_pr/mcfg/configs/mcfg_sw/generic/china/cu/commercial/openmkt/mcfg_sw.mbn");
  ("MCFG/mcfg_sw.mbn.110",
   "modem_pr/mcfg/configs/mcfg_sw/generic/china/cu/commercial/subsidized/mcfg_sw.mbn");
  ("MCFG/mcfg_sw.mbn.111",
   "modem_pr/mcfg/configs/mcfg_sw/generic/china/cu/commercial/volte/mcfg_sw.mbn");
  ("MCFG/mcfg_sw.mbn.112",
   "modem_pr/mcfg/configs/mcfg_sw/generic/china/cu/lab/test/mcfg_sw.mbn");
  ("MCFG/mcfg_sw.mbn.113",
   "modem_pr/mcfg/configs/mcfg_sw/generic/common/default/5g_default/mcfg_sw.mbn");
  ("MCFG/mcfg_sw.mbn.114",
   "modem_pr/mcfg/configs/mcfg_sw/generic/common/default/cust_default/mcfg_sw.mbn");
  ("MCFG/mcfg_sw.mbn.115",
   "modem_pr/mcfg/configs/mcfg_sw/generic/common/default/sc8180x.gen.prod/5g_default/mcfg_sw.mbn");
  ("MCFG/mcfg_sw.mbn.116",
   "modem_pr/mcfg/configs/mcfg_sw/generic/common/default/sc8180x.gen.prod/cust_default/mcfg_sw.mbn");
  ("MCFG/mcfg_sw.mbn.117",
   "modem_pr/mcfg/configs/mcfg_sw/generic/common/default/sc8180x.gen.prod/default/mcfg_sw.mbn");
  ("MCFG/mcfg_sw.mbn.118",
   "modem_pr/mcfg/configs/mcfg_sw/generic/common/default/sc8180x.genimss.prod/default/mcfg_sw.mbn");
  ("MCFG/mcfg_sw.mbn.119",
   "modem_pr/mcfg/configs/mcfg_sw/generic/common/default/sc8180x.genmd.prod/default/mcfg_sw.mbn");
  ("MCFG/mcfg_sw.mbn.120",
   "modem_pr/mcfg/configs/mcfg_sw/generic/common/multimbn/multi_mbn/mcfg_sw.mbn");
  ("MCFG/mcfg_sw.mbn.121",
   "modem_pr/mcfg/configs/mcfg_sw/generic/common/row/commercial/mcfg_sw.mbn");
  ("MCFG/mcfg_sw.mbn.122",
   "modem_pr/mcfg/configs/mcfg_sw/generic/common/w_one/commercial/mcfg_sw.mbn");
  ("MCFG/mcfg_sw.mbn.123",
   "modem_pr/mcfg/configs/mcfg_sw/generic/eu/bouygues/commercial/france/mcfg_sw.mbn");
  ("MCFG/mcfg_sw.mbn.124",
   "modem_pr/mcfg/configs/mcfg_sw/generic/eu/dt/commercial/austria/mcfg_sw.mbn");
  ("MCFG/mcfg_sw.mbn.125",
   "modem_pr/mcfg/configs/mcfg_sw/generic/eu/dt/commercial/croatia/mcfg_sw.mbn");
  ("MCFG/mcfg_sw.mbn.126",
   "modem_pr/mcfg/configs/mcfg_sw/generic/eu/dt/commercial/cz/mcfg_sw.mbn");
  ("MCFG/mcfg_sw.mbn.127",
   "modem_pr/mcfg/configs/mcfg_sw/generic/eu/dt/commercial/greece/mcfg_sw.mbn");
  ("MCFG/mcfg_sw.mbn.128",
   "modem_pr/mcfg/configs/mcfg_sw/generic/eu/dt/commercial/hungary/mcfg_sw.mbn");
  ("MCFG/mcfg_sw.mbn.129",
   "modem_pr/mcfg/configs/mcfg_sw/generic/eu/dt/commercial/nl/mcfg_sw.mbn");
  ("MCFG/mcfg_sw.mbn.130",
   "modem_pr/mcfg/configs/mcfg_sw/generic/eu/dt/commercial/pl/mcfg_sw.mbn");
  ("MCFG/mcfg_sw.mbn.131",
   "modem_pr/mcfg/configs/mcfg_sw/generic/eu/dt/commercial/slovakia/mcfg_sw.mbn");
  ("MCFG/mcfg_sw.mbn.132",
   "modem_pr/mcfg/configs/mcfg_sw/generic/eu/dt/non_volte/commercial/mcfg_sw.mbn");
  ("MCFG/mcfg_sw.mbn.133",
   "modem_pr/mcfg/configs/mcfg_sw/generic/eu/dt/volte/commercial/mcfg_sw.mbn");
  ("MCFG/mcfg_sw.mbn.134",
   "modem_pr/mcfg/configs/mcfg_sw/generic/eu/ee/commercial/mcfg_sw.mbn");
  ("MCFG/mcfg_sw.mbn.135",
   "modem_pr/mcfg/configs/mcfg_sw/generic/eu/elisa/commercial/fi/mcfg_sw.mbn");
  ("MCFG/mcfg_sw.mbn.136",
   "modem_pr/mcfg/configs/mcfg_sw/generic/eu/h3g/commercial/austria/mcfg_sw.mbn");
  ("MCFG/mcfg_sw.mbn.137",
   "modem_pr/mcfg/configs/mcfg_sw/generic/eu/h3g/commercial/denmark/mcfg_sw.mbn");
  ("MCFG/mcfg_sw.mbn.138",
   "modem_pr/mcfg/configs/mcfg_sw/generic/eu/h3g/commercial/italy/mcfg_sw.mbn");
  ("MCFG/mcfg_sw.mbn.139",
   "modem_pr/mcfg/configs/mcfg_sw/generic/eu/h3g/commercial/se/mcfg_sw.mbn");
  ("MCFG/mcfg_sw.mbn.140",
   "modem_pr/mcfg/configs/mcfg_sw/generic/eu/h3g/commercial/uk/mcfg_sw.mbn");
  ("MCFG/mcfg_sw.mbn.141",
   "modem_pr/mcfg/configs/mcfg_sw/generic/eu/orange/commercial/france/mcfg_sw.mbn");
  ("MCFG/mcfg_sw.mbn.142",
   "modem_pr/mcfg/configs/mcfg_sw/generic/eu/orange/commercial/group_non_ims/mcfg_sw.mbn");
  ("MCFG/mcfg_sw.mbn.143",
   "modem_pr/mcfg/configs/mcfg_sw/generic/eu/orange/commercial/poland/mcfg_sw.mbn");
  ("MCFG/mcfg_sw.mbn.144",
   "modem_pr/mcfg/configs/mcfg_sw/generic/eu/orange/commercial/romania/mcfg_sw.mbn");
  ("MCFG/mcfg_sw.mbn.145",
   "modem_pr/mcfg/configs/mcfg_sw/generic/eu/orange/commercial/slovakia/mcfg_sw.mbn");
  ("MCFG/mcfg_sw.mbn.146",
   "modem_pr/mcfg/configs/mcfg_sw/generic/eu/orange/commercial/spain/mcfg_sw.mbn");
  ("MCFG/mcfg_sw.mbn.147",
   "modem_pr/mcfg/configs/mcfg_sw/generic/eu/sfr/commercial/fr/mcfg_sw.mbn");
  ("MCFG/mcfg_sw.mbn.148",
   "modem_pr/mcfg/configs/mcfg_sw/generic/eu/swisscom/commercial/swiss/mcfg_sw.mbn");
  ("MCFG/mcfg_sw.mbn.149",
   "modem_pr/mcfg/configs/mcfg_sw/generic/eu/tdc/commercial/denmark/mcfg_sw.mbn");
  ("MCFG/mcfg_sw.mbn.150",
   "modem_pr/mcfg/configs/mcfg_sw/generic/eu/tele2/commercial/nl/mcfg_sw.mbn");
  ("MCFG/mcfg_sw.mbn.151",
   "modem_pr/mcfg/configs/mcfg_sw/generic/eu/tele2/commercial/sweden/mcfg_sw.mbn");
  ("MCFG/mcfg_sw.mbn.152",
   "modem_pr/mcfg/configs/mcfg_sw/generic/eu/telefonica/commercial/de/mcfg_sw.mbn");
  ("MCFG/mcfg_sw.mbn.153",
   "modem_pr/mcfg/configs/mcfg_sw/generic/eu/telefonica/commercial/uk/mcfg_sw.mbn");
  ("MCFG/mcfg_sw.mbn.154",
   "modem_pr/mcfg/configs/mcfg_sw/generic/eu/telefonica/non_volte/spain/mcfg_sw.mbn");
  ("MCFG/mcfg_sw.mbn.155",
   "modem_pr/mcfg/configs/mcfg_sw/generic/eu/telenor/commercial/denmark/mcfg_sw.mbn");
  ("MCFG/mcfg_sw.mbn.156",
   "modem_pr/mcfg/configs/mcfg_sw/generic/eu/telenor/commercial/norway/mcfg_sw.mbn");
  ("MCFG/mcfg_sw.mbn.157",
   "modem_pr/mcfg/configs/mcfg_sw/generic/eu/telia/commercial/norway/mcfg_sw.mbn");
  ("MCFG/mcfg_sw.mbn.158",
   "modem_pr/mcfg/configs/mcfg_sw/generic/eu/telia/commercial/sweden/mcfg_sw.mbn");
  ("MCFG/mcfg_sw.mbn.159",
   "modem_pr/mcfg/configs/mcfg_sw/generic/eu/tim/commercial/italy/mcfg_sw.mbn");
  ("MCFG/mcfg_sw.mbn.160",
   "modem_pr/mcfg/configs/mcfg_sw/generic/eu/vodafone/commercial/hungary/mcfg_sw.mbn");
  ("MCFG/mcfg_sw.mbn.161",
   "modem_pr/mcfg/configs/mcfg_sw/generic/eu/vodafone/commercial/ireland/mcfg_sw.mbn");
  ("MCFG/mcfg_sw.mbn.162",
   "modem_pr/mcfg/configs/mcfg_sw/generic/eu/vodafone/non_volte/mcfg_sw.mbn");
  ("MCFG/mcfg_sw.mbn.163",
   "modem_pr/mcfg/configs/mcfg_sw/generic/eu/vodafone/volte/cz/mcfg_sw.mbn");
  ("MCFG/mcfg_sw.mbn.164",
   "modem_pr/mcfg/configs/mcfg_sw/generic/eu/vodafone/volte/germany/mcfg_sw.mbn");
  ("MCFG/mcfg_sw.mbn.165",
   "modem_pr/mcfg/configs/mcfg_sw/generic/eu/vodafone/volte/italy/mcfg_sw.mbn");
  ("MCFG/mcfg_sw.mbn.166",
   "modem_pr/mcfg/configs/mcfg_sw/generic/eu/vodafone/volte/netherlands/mcfg_sw.mbn");
  ("MCFG/mcfg_sw.mbn.167",
   "modem_pr/mcfg/configs/mcfg_sw/generic/eu/vodafone/volte/portugal/mcfg_sw.mbn");
  ("MCFG/mcfg_sw.mbn.168",
   "modem_pr/mcfg/configs/mcfg_sw/generic/eu/vodafone/volte/safrica/mcfg_sw.mbn");
  ("MCFG/mcfg_sw.mbn.169",
   "modem_pr/mcfg/configs/mcfg_sw/generic/eu/vodafone/volte/spain/mcfg_sw.mbn");
  ("MCFG/mcfg_sw.mbn.170",
   "modem_pr/mcfg/configs/mcfg_sw/generic/eu/vodafone/volte/turkey/mcfg_sw.mbn");
  ("MCFG/mcfg_sw.mbn.171",
   "modem_pr/mcfg/configs/mcfg_sw/generic/eu/vodafone/volte/uk/mcfg_sw.mbn");
  ("MCFG/mcfg_sw.mbn.172",
   "modem_pr/mcfg/configs/mcfg_sw/generic/korea/kt/commercial_kt_lte/mcfg_sw.mbn");
  ("MCFG/mcfg_sw.mbn.173",
   "modem_pr/mcfg/configs/mcfg_sw/generic/korea/lgu/commercial/mcfg_sw.mbn");
  ("MCFG/mcfg_sw.mbn.174",
   "modem_pr/mcfg/configs/mcfg_sw/generic/korea/skt/commercial/mcfg_sw.mbn");
  ("MCFG/mcfg_sw.mbn.175",
   "modem_pr/mcfg/configs/mcfg_sw/generic/korea/tta/commercial/mcfg_sw.mbn");
  ("MCFG/mcfg_sw.mbn.176",
   "modem_pr/mcfg/configs/mcfg_sw/generic/latam/amx/commercial/mx/mcfg_sw.mbn");
  ("MCFG/mcfg_sw.mbn.177",
   "modem_pr/mcfg/configs/mcfg_sw/generic/latam/amx/non_volte/mcfg_sw.mbn");
  ("MCFG/mcfg_sw.mbn.178",
   "modem_pr/mcfg/configs/mcfg_sw/generic/latam/amx/volte/mcfg_sw.mbn");
  ("MCFG/mcfg_sw.mbn.179",
   "modem_pr/mcfg/configs/mcfg_sw/generic/latam/claro/commercial/colombia/mcfg_sw.mbn");
  ("MCFG/mcfg_sw.mbn.180",
   "modem_pr/mcfg/configs/mcfg_sw/generic/latam/telefonica/commercial/colombia/mcfg_sw.mbn");
  ("MCFG/mcfg_sw.mbn.181",
   "modem_pr/mcfg/configs/mcfg_sw/generic/latam/telefonica/commercial/peru/mcfg_sw.mbn");
  ("MCFG/mcfg_sw.mbn.182",
   "modem_pr/mcfg/configs/mcfg_sw/generic/mea/stc/commercial/sa/mcfg_sw.mbn");
  ("MCFG/mcfg_sw.mbn.183",
   "modem_pr/mcfg/configs/mcfg_sw/generic/na/att/firstnet/mcfg_sw.mbn");
  ("MCFG/mcfg_sw.mbn.184",
   "modem_pr/mcfg/configs/mcfg_sw/generic/na/att/non_volte/mcfg_sw.mbn");
  ("MCFG/mcfg_sw.mbn.185",
   "modem_pr/mcfg/configs/mcfg_sw/generic/na/att/volte/mcfg_sw.mbn");
  ("MCFG/mcfg_sw.mbn.186",
   "modem_pr/mcfg/configs/mcfg_sw/generic/na/bell/commercial/ca/mcfg_sw.mbn");
  ("MCFG/mcfg_sw.mbn.187",
   "modem_pr/mcfg/configs/mcfg_sw/generic/na/rogers/commercial/ca/mcfg_sw.mbn");
  ("MCFG/mcfg_sw.mbn.188",
   "modem_pr/mcfg/configs/mcfg_sw/generic/na/sprint/commercial/mcfg_sw.mbn");
  ("MCFG/mcfg_sw.mbn.189",
   "modem_pr/mcfg/configs/mcfg_sw/generic/na/sprint/vowifi/mcfg_sw.mbn");
  ("MCFG/mcfg_sw.mbn.190",
   "modem_pr/mcfg/configs/mcfg_sw/generic/na/telus/commercial/ca/mcfg_sw.mbn");
  ("MCFG/mcfg_sw.mbn.191",
   "modem_pr/mcfg/configs/mcfg_sw/generic/na/tmo/commercial/mcfg_sw.mbn");
  ("MCFG/mcfg_sw.mbn.192",
   "modem_pr/mcfg/configs/mcfg_sw/generic/na/uscc/commercial/mcfg_sw.mbn");
  ("MCFG/mcfg_sw.mbn.193",
   "modem_pr/mcfg/configs/mcfg_sw/generic/na/verizon/cdmaless/mcfg_sw.mbn");
  ("MCFG/mcfg_sw.mbn.194",
   "modem_pr/mcfg/configs/mcfg_sw/generic/na/verizon/hvolte/mcfg_sw.mbn");
  ("MCFG/mcfg_sw.mbn.195",
   "modem_pr/mcfg/configs/mcfg_sw/generic/na/verizon/imsless/mcfg_sw.mbn");
  ("MCFG/mcfg_sw.mbn.196",
   "modem_pr/mcfg/configs/mcfg_sw/generic/russia/beeline/gen_3gpp/mcfg_sw.mbn");
  ("MCFG/mcfg_sw.mbn.197",
   "modem_pr/mcfg/configs/mcfg_sw/generic/russia/megafon/commercial/ru/mcfg_sw.mbn");
  ("MCFG/mcfg_sw.mbn.198",
   "modem_pr/mcfg/configs/mcfg_sw/generic/russia/mts/commercial/ru/mcfg_sw.mbn");
  ("MCFG/mcfg_sw.mbn.199",
   "modem_pr/mcfg/configs/mcfg_sw/generic/sa/brazil/commercial/mcfg_sw.mbn");
  ("MCFG/mcfg_sw.mbn.200",
   "modem_pr/mcfg/configs/mcfg_sw/generic/sea/3hk/commercial/hk/mcfg_sw.mbn");
  ("MCFG/mcfg_sw.mbn.201",
   "modem_pr/mcfg/configs/mcfg_sw/generic/sea/ais/commercial/thailand/mcfg_sw.mbn");
  ("MCFG/mcfg_sw.mbn.202",
   "modem_pr/mcfg/configs/mcfg_sw/generic/sea/apt/commercial/mcfg_sw.mbn");
  ("MCFG/mcfg_sw.mbn.203",
   "modem_pr/mcfg/configs/mcfg_sw/generic/sea/chunghwatel/commercial/tw/mcfg_sw.mbn");
  ("MCFG/mcfg_sw.mbn.204",
   "modem_pr/mcfg/configs/mcfg_sw/generic/sea/dtac/commercial/volte/mcfg_sw.mbn");
  ("MCFG/mcfg_sw.mbn.205",
   "modem_pr/mcfg/configs/mcfg_sw/generic/sea/fareastone/commercial/mcfg_sw.mbn");
  ("MCFG/mcfg_sw.mbn.206",
   "modem_pr/mcfg/configs/mcfg_sw/generic/sea/globe/commercial/ph/mcfg_sw.mbn");
  ("MCFG/mcfg_sw.mbn.207",
   "modem_pr/mcfg/configs/mcfg_sw/generic/sea/hkt/commercial/hk/mcfg_sw.mbn");
  ("MCFG/mcfg_sw.mbn.208",
   "modem_pr/mcfg/configs/mcfg_sw/generic/sea/m1/commercial/sg/mcfg_sw.mbn");
  ("MCFG/mcfg_sw.mbn.209",
   "modem_pr/mcfg/configs/mcfg_sw/generic/sea/p1/commercial/malaysia/mcfg_sw.mbn");
  ("MCFG/mcfg_sw.mbn.210",
   "modem_pr/mcfg/configs/mcfg_sw/generic/sea/singtel/commercial/singapore/mcfg_sw.mbn");
  ("MCFG/mcfg_sw.mbn.211",
   "modem_pr/mcfg/configs/mcfg_sw/generic/sea/smartfren/commercial/mcfg_sw.mbn");
  ("MCFG/mcfg_sw.mbn.212",
   "modem_pr/mcfg/configs/mcfg_sw/generic/sea/smartfren/commercial/vowifi/mcfg_sw.mbn");
  ("MCFG/mcfg_sw.mbn.213",
   "modem_pr/mcfg/configs/mcfg_sw/generic/sea/smartone/commercial/hk/mcfg_sw.mbn");
  ("MCFG/mcfg_sw.mbn.214",
   "modem_pr/mcfg/configs/mcfg_sw/generic/sea/starhub/commercial/sg/mcfg_sw.mbn");
  ("MCFG/mcfg_sw.mbn.215",
   "modem_pr/mcfg/configs/mcfg_sw/generic/sea/tm/commercial/mcfg_sw.mbn");
  ("MCFG/mcfg_sw.mbn.216",
   "modem_pr/mcfg/configs/mcfg_sw/generic/sea/truemove/commercial/volte/mcfg_sw.mbn");
  ("MCFG/mcfg_sw.mbn.217",
   "modem_pr/mcfg/configs/mcfg_sw/generic/sea/tstar/commercial/tw/mcfg_sw.mbn");
  ("MCFG/mcfg_sw.mbn.218",
   "modem_pr/mcfg/configs/mcfg_sw/generic/sea/umobile/commercial/malaysia/mcfg_sw.mbn");
  ("MCFG/mcfg_sw.mbn.219",
   "modem_pr/mcfg/configs/mcfg_sw/generic/sea/viettel/commercial/vietnam/mcfg_sw.mbn");
  ("MCFG/mcfg_sw.mbn.220",
   "modem_pr/mcfg/configs/mcfg_sw/generic/sea/ytl/commercial/mcfg_sw.mbn");
  ("MCFG/mcfg_sw.mbn.81",
   "modem_pr/mcfg/configs/mcfg_sw/generic/af/cellc/commercial/safrica/mcfg_sw.mbn");
  ("MCFG/mcfg_sw.mbn.82",
   "modem_pr/mcfg/configs/mcfg_sw/generic/af/moroccotel/commercial/ma/mcfg_sw.mbn");
  ("MCFG/mcfg_sw.mbn.83",
   "modem_pr/mcfg/configs/mcfg_sw/generic/apac/dcm/commercial/mcfg_sw.mbn");
  ("MCFG/mcfg_sw.mbn.84",
   "modem_pr/mcfg/configs/mcfg_sw/generic/apac/kddi/commercial/mcfg_sw.mbn");
  ("MCFG/mcfg_sw.mbn.85",
   "modem_pr/mcfg/configs/mcfg_sw/generic/apac/reliance/commercial/mcfg_sw.mbn");
  ("MCFG/mcfg_sw.mbn.86",
   "modem_pr/mcfg/configs/mcfg_sw/generic/apac/sbm/commercial/mcfg_sw.mbn");
  ("MCFG/mcfg_sw.mbn.87",
   "modem_pr/mcfg/configs/mcfg_sw/generic/aunz/optus/commercial/au/mcfg_sw.mbn");
  ("MCFG/mcfg_sw.mbn.88",
   "modem_pr/mcfg/configs/mcfg_sw/generic/aunz/telstra/commercial/mcfg_sw.mbn");
  ("MCFG/mcfg_sw.mbn.89",
   "modem_pr/mcfg/configs/mcfg_sw/generic/aunz/vodafone/commercial/mcfg_sw.mbn");
  ("MCFG/mcfg_sw.mbn.90",
   "modem_pr/mcfg/configs/mcfg_sw/generic/china/cmcc/commercial/volte_openmkt/mcfg_sw.mbn");
  ("MCFG/mcfg_sw.mbn.91",
   "modem_pr/mcfg/configs/mcfg_sw/generic/china/cmcc/lab/agnss_loctech/mcfg_sw.mbn");
  ("MCFG/mcfg_sw.mbn.92",
   "modem_pr/mcfg/configs/mcfg_sw/generic/china/cmcc/lab/conf_volte/mcfg_sw.mbn");
  ("MCFG/mcfg_sw.mbn.93",
   "modem_pr/mcfg/configs/mcfg_sw/generic/china/cmcc/lab/eps_only/mcfg_sw.mbn");
  ("MCFG/mcfg_sw.mbn.94",
   "modem_pr/mcfg/configs/mcfg_sw/generic/china/cmcc/lab/lpp_loctech/mcfg_sw.mbn");
  ("MCFG/mcfg_sw.mbn.95",
   "modem_pr/mcfg/configs/mcfg_sw/generic/china/cmcc/lab/nsiot_volte/mcfg_sw.mbn");
  ("MCFG/mcfg_sw.mbn.96",
   "modem_pr/mcfg/configs/mcfg_sw/generic/china/cmcc/lab/rrlp_loctech/mcfg_sw.mbn");
  ("MCFG/mcfg_sw.mbn.97",
   "modem_pr/mcfg/configs/mcfg_sw/generic/china/cmcc/lab/tgl_comb_attach/mcfg_sw.mbn");
  ("MCFG/mcfg_sw.mbn.98",
   "modem_pr/mcfg/configs/mcfg_sw/generic/china/cmcc/lab/w_irat_comb_attach/mcfg_sw.mbn");
  ("MCFG/mcfg_sw.mbn.99",
   "modem_pr/mcfg/configs/mcfg_sw/generic/china/ct/commercial/hvolte_openmkt/mcfg_sw.mbn");
  ("MCFG/oem_hw.txt.80",
   "modem_pr/mcfg/configs/mcfg_hw/oem_hw.txt");
  ("MCFG/oem_sw.txt.223",
   "modem_pr/mcfg/configs/mcfg_sw/oem_sw.txt")
].

Definition source_declarations : list (res Firmware) := [
  (* PD Maps for pd-mapper.service *)
  DownloadFirmware "pd-maps" ("qcom/" +:+ PATH_PLATFORM)
    (URL_AARCH64_FIRMWARE_REPO +:+ "/qcom/msft/surface/pro-x-sq2")
    (FilesList ["adspr.jsn"; "adspua.jsn"; "cdspr.jsn"; "charger.jsn"; "modemr.jsn";
                "modemuw.jsn"]);

  (* Bluetooth *)
  WindowsDriverFirmware "bluetooth" "qca" "qcbtfmuart8180"
    (FilesList ["crbtfw21.tlv"; "crnv21.b3c"; "crnv21.b44"; "crnv21.b45"; "crnv21.b46";
                "crnv21.b47"; "crnv21.b71"; "crnv21.bin"]);

  (* GPU (Adreno 680) *)
  DownloadFirmware "gpu/base" "qcom" (URL_AARCH64_FIRMWARE_REPO +:+ "/qcom")
    (FilesList ["a680_gmu.bin"; "a680_sqe.fw"]);
  WindowsDriverFirmware "gpu/vendor" ("qcom/" +:+ PATH_PLATFORM) "qcdx8180"
    (FilesList ["qcdxkmsuc8180.mbn"; "qcvss8180.mbn"]);

  (* WLAN *)
  WindowsDriverFirmware "wlan/vendor" ("qcom/" +:+ PATH_PLATFORM) "qcwlan8180"
    (FilesList ["wlanmdsp.mbn"]);
  WindowsDriverFirmware "wlan/ath10k/board" "ath10k/WCN3990/hw1.0/boards" "qcwlan8180"
    (FilesList ["bdwlan.b5f"; "bdwlan.b36"; "bdwlan.b37"; "bdwlan.b46"; "bdwlan.b47";
                "bdwlan.b48"; "bdwlan.b58"; "bdwlan.b71"; "bdwlan.bin"; "bdwlanu.b5f";
                "bdwlanu.b58"]);
  DownloadFirmware "wlan/ath10k/firmware-5" "ath10k/WCN3990/hw1.0"
    (URL_LINUX_FIRMWARE_REPO +:+ "/ath10k/WCN3990/hw1.0")
    (FilesList ["firmware-5.bin"]);

  (* MCFG (file map based on inf contents) *)
  WindowsDriverFirmware "mcfg" ("qcom/" +:+ PATH_PLATFORM) "mcfg_subsys_ext8180"
    (FilesDict (dict_literal mcfg_files));

  (* ADSP *)
  WindowsDriverFirmware "adsp/vendor" ("qcom/" +:+ PATH_PLATFORM) "qcsubsys_ext_adsp8180"
    (FilesList ["qcadsp8180.mbn"]);

  (* CDSP *)
  WindowsDriverFirmware "cdsp/vendor" ("qcom/" +:+ PATH_PLATFORM) "qcsubsys_ext_cdsp8180"
    (FilesList ["qccdsp8180.mbn"]);

  (* MPSS *)
  WindowsDriverFirmware "mpss/vendor" ("qcom/" +:+ PATH_PLATFORM) "qcsubsys_ext_mpss8180"
    (FilesList ["qcmpss8180.mbn"; "qcmpss8180_nm.mbn"]);
  WindowsDriverFirmware "mpss/library" ("qcom/" +:+ PATH_PLATFORM) "mcfg_subsys_ext8180"
    (FilesList ["qdsp6m.qdb"])
].

(** The list literal is evaluated when the module is loaded: the first
    declaration that raises ends the script before [main] is entered. *)
Fixpoint construct_all {A} (l : list (res A)) : res (list A) :=
  match l with
  | [] => Ok []
  | Raise e :: _ => Raise e
  | Ok a :: l' =>
      match construct_all l' with
      | Ok r => Ok (a :: r)
      | Raise e => Raise e
      end
  end.

Definition sources : res (list Firmware) := construct_all source_declarations.

Definition patches : list Patch := [
  mkPatch "venus" patch_venus_extract;
  mkPatch "ath10k/board-2.bin" patch_ath10k_board;
  mkPatch "ath10k/firmware-5.bin" patch_ath10k_firmware;
  mkPatch "qca/bt" patch_qca_bt_symlinks
].

(** *** gather, patch and main *)

Section Pipeline.
Context (env : Env).

Definition gather (log : Logger) (args : Args) (sources : list Firmware) : M unit :=
  for_ sources (λ src,
    Logger_info log (Firmware_name src) >>
    let* sub := lift (Logger_sub log) in
    Firmware_get env src sub args).

Definition patch (log : Logger) (args : Args) (patches : list Patch) : M unit :=
  for_ patches (λ patch,
    Logger_info log (Patch_name patch) >>
    let* sub := lift (Logger_sub log) in
    Patch_apply env patch sub args).

(** The body of [main] from [log = Logger()] on, for given registries. *)
Definition pipeline (args : Args) (sources : list Firmware) (patches : list Patch)
    : M unit :=
  let* log := lift (Logger_init 0) in
  Logger_info log "retrieving base firmware files" >>
  let* sub := lift (Logger_sub log) in
  gather sub args sources >>
  Logger_info log "patching firmware files" >>
  let* sub := lift (Logger_sub log) in
  patch sub args patches >>
  Logger_info log "done!".

(** [main] for parsed options [--windows] and [--output]. *)
Definition main_with (sources : list Firmware) (patches : list Patch)
    (windows output : string) : M unit :=
  if Z.eqb (euid env) 0
  then emit (EvPrint "Please do not run this script as root!") >>
       raise (SystemExit 1)
  else
    let args := mkArgs (Path_of windows </> PATH_WDSFR) (Path_of output) in
    pipeline args sources patches.

(** The script: the module-level registries, then [main]. *)
Definition script (windows output : string) : M unit :=
  let* srcs := lift sources in
  main_with srcs patches windows output.
End Pipeline.

(** * Properties *)

(** ** The embedding at work *)

Example Path_of_relative :
  Path_of "qcom/XIAOMI/BOOK124" = mkPath "" ["qcom"; "XIAOMI"; "BOOK124"].
Proof. reflexivity. Qed.

Example Path_of_drops_dots_and_empty_parts :
  Path_of "/mnt//win/./Windows/" = mkPath "/" ["mnt"; "win"; "Windows"].
Proof. reflexivity. Qed.

Example div_joins : str (Path_of "out" </> "qca" </> "crnv01.bin") = "out/qca/crnv01.bin".
Proof. reflexivity. Qed.

Example div_anchored_right_operand : Path_of "out" </> "/etc/passwd" = mkPath "/" ["etc"; "passwd"].
Proof. reflexivity. Qed.

Example replace_every_occurrence : replace "21a2121b2" "21" "01" = "01a0101b2".
Proof. reflexivity. Qed.

Example replace_without_overlap : replace "aaa" "aa" "b" = "ba".
Proof. reflexivity. Qed.

Example replace_empty_pattern : replace "abc" "" "-" = "-a-b-c-".
Proof. reflexivity. Qed.

Example dict_literal_last_value_first_position :
  dict_literal [("a", "1"); ("b", "2"); ("a", "3")] = [("a", "3"); ("b", "2")].
Proof. reflexivity. Qed.

Example Logger_sub_out_of_prefixes :
  Logger_sub (mkLogger 2 "    ") = Raise IndexError.
Proof. reflexivity. Qed.

(** The registry of the script is constructed without error. *)
Example sources_constructed :
  ∃ l, sources = Ok l ∧
       map Firmware_name l
       = ["pd-maps"; "bluetooth"; "gpu/base"; "gpu/vendor"; "wlan/vendor";
          "wlan/ath10k/board"; "wlan/ath10k/firmware-5"; "mcfg"; "adsp/vendor";
          "cdsp/vendor"; "mpss/vendor"; "mpss/library"].
Proof.
  destruct sources as [l|e] eqn:H; [|by vm_compute in H].
  exists l. split; [done|].
  assert (match sources with Ok l => map Firmware_name l | Raise _ => [] end
          = ["pd-maps"; "bluetooth"; "gpu/base"; "gpu/vendor"; "wlan/vendor";
             "wlan/ath10k/board"; "wlan/ath10k/firmware-5"; "mcfg"; "adsp/vendor";
             "cdsp/vendor"; "mpss/vendor"; "mpss/library"]) as Hn by (vm_compute; reflexivity).
  by rewrite H in Hn.
Qed.

(** ** Runs of sequenced computations *)

Lemma bind_ok {A B} (m : M A) (f : A → M B) fs a fs1 t1 :
  m fs = (Ok a, fs1, t1) →
  bind m f fs = ((f a fs1).1.1, (f a fs1).1.2, t1 ++ (f a fs1).2).
Proof. intros H. unfold bind. rewrite H. by destruct (f a fs1) as [[??]?]. Qed.

Lemma bind_raise {A B} (m : M A) (f : A → M B) fs e fs1 t1 :
  m fs = (Raise e, fs1, t1) → bind m f fs = (Raise e, fs1, t1).
Proof. intros H. unfold bind. by rewrite H. Qed.

(** A sequence returns exactly when both halves return. *)
Lemma bind_ok_inv {A B} (m : M A) (f : A → M B) fs b fs2 t :
  bind m f fs = (Ok b, fs2, t) →
  ∃ a fs1 t1 t2, m fs = (Ok a, fs1, t1) ∧ f a fs1 = (Ok b, fs2, t2) ∧ t = t1 ++ t2.
Proof.
  unfold bind. destruct (m fs) as [[[a|e] fs1] t1]; [|done].
  destruct (f a fs1) as [[r fs2'] t2] eqn:Hf. intros [= -> -> <-].
  by exists a, fs1, t1, t2.
Qed.

Lemma bind_ext {A B} (m : M A) (f g : A → M B) fs :
  (∀ a fs1, f a fs1 = g a fs1) → bind m f fs = bind m g fs.
Proof.
  intros H. unfold bind. destruct (m fs) as [[[a|e] fs1] t1]; [|done]. by rewrite H.
Qed.

Lemma bind_assoc {A B C} (m : M A) (f : A → M B) (g : B → M C) fs :
  bind (bind m f) g fs = bind m (λ a, bind (f a) g) fs.
Proof.
  unfold bind. destruct (m fs) as [[[a|e] fs1] t1]; [|done].
  destruct (f a fs1) as [[[b|e] fs2] t2]; [|done].
  destruct (g b fs2) as [[r fs3] t3]. by rewrite app_assoc.
Qed.

Lemma bind_ret_l {A B} (a : A) (f : A → M B) fs : bind (ret a) f fs = f a fs.
Proof. unfold bind, ret. by destruct (f a fs) as [[??]?]. Qed.

Lemma for_app {A} (l1 l2 : list A) (body : A → M unit) fs :
  for_ (l1 ++ l2) body fs = bind (for_ l1 body) (λ _, for_ l2 body) fs.
Proof.
  revert fs. induction l1 as [|x l1 IH]; intros fs; simpl.
  - by rewrite bind_ret_l.
  - rewrite bind_assoc. apply bind_ext. intros _ fs1. apply IH.
Qed.

(** A loop whose body raises at some element stops there: the elements
    after it are never reached, whatever they are. *)
Lemma for_raise {A} (pre post : list A) (x : A) (body : A → M unit)
    fs fs1 t1 e fs2 t2 :
  for_ pre body fs = (Ok tt, fs1, t1) →
  body x fs1 = (Raise e, fs2, t2) →
  for_ (pre ++ x :: post) body fs = (Raise e, fs2, t1 ++ t2).
Proof.
  intros Hpre Hx. rewrite for_app. erewrite bind_ok by exact Hpre.
  simpl. erewrite bind_raise by exact Hx. done.
Qed.

(** A loop that returns has run its body to the end at every element. *)
Lemma for_ok_split {A} (pre post : list A) (x : A) (body : A → M unit) fs fs' t :
  for_ (pre ++ x :: post) body fs = (Ok tt, fs', t) →
  ∃ fs1 t1 fs2 t2 t3,
    for_ pre body fs = (Ok tt, fs1, t1) ∧
    body x fs1 = (Ok tt, fs2, t2) ∧
    for_ post body fs2 = (Ok tt, fs', t3) ∧
    t = t1 ++ t2 ++ t3.
Proof.
  rewrite for_app. intros H.
  apply bind_ok_inv in H as ([] & fs1 & t1 & t23 & Hpre & H & ->).
  simpl in H. apply bind_ok_inv in H as ([] & fs2 & t2 & t3 & Hx & Hpost & ->).
  by exists fs1, t1, fs2, t2, t3.
Qed.

(** ** Dictionaries *)

Lemma dict_get_set (d : list (string * string)) k v k' :
  dict_get (dict_set d k v) k' = if decide (k = k') then Some v else dict_get d k'.
Proof.
  induction d as [|[a b] d IH]; simpl.
  - destruct (String.eqb_spec k k'); by case_decide.
  - destruct (String.eqb_spec a k) as [->|Hak]; simpl.
    + destruct (String.eqb_spec k k'); by case_decide.
    + destruct (String.eqb_spec a k') as [->|Hak']; [|done]. by case_decide.
Qed.

Lemma dict_set_item (d : list (string * string)) k v k' v' :
  (k', v') ∈ dict_set d k v → (k' = k ∧ v' = v) ∨ (k', v') ∈ d.
Proof.
  induction d as [|[a b] d IH]; simpl.
  - rewrite list_elem_of_singleton. intros [= -> ->]. by left.
  - destruct (String.eqb_spec a k) as [->|Hak]; rewrite !elem_of_cons.
    + intros [[= -> ->]|H]; [by left | by right; right].
    + intros [[= -> ->]|H]; [by right; left |].
      destruct (IH H) as [?|?]; [by left | by right; right].
Qed.

Lemma dict_keys_set (d : list (string * string)) k v :
  dict_keys (dict_set d k v) = if decide (k ∈ dict_keys d) then dict_keys d else dict_keys d ++ [k].
Proof.
  unfold dict_keys. induction d as [|[a b] d IH].
  - destruct (decide (k ∈ map fst [])) as [H|H]; [by apply elem_of_nil in H | done].
  - cbn [dict_set]. destruct (String.eqb_spec a k) as [->|Hak].
    + rewrite decide_True; [done | apply elem_of_cons; by left].
    + cbn [map fst]. rewrite IH. destruct (decide (k ∈ map fst d)) as [Hin|Hin].
      * rewrite decide_True; [done | apply elem_of_cons; by right].
      * rewrite decide_False; [done |]. rewrite elem_of_cons. naive_solver.
Qed.

(** The dictionary comprehension [{x: x for x in l}], started from [d]. *)
Abbreviation comprehension l d := (fold_left (λ acc x, dict_set acc x x) l d) (only parsing).

Lemma comprehension_get (l : list string) (d : list (string * string)) x :
  x ∈ l → dict_get (comprehension l d) x = Some x.
Proof.
  revert d. induction l as [|y l IH]; intros d; [by rewrite elem_of_nil|].
  rewrite elem_of_cons. simpl. destruct (decide (x ∈ l)) as [Hin|Hin]; [by auto|].
  intros [->|?]; [|done]. clear IH.
  assert (∀ d, dict_get d y = Some y → dict_get (comprehension l d) y = Some y) as Hkeep.
  { clear d. induction l as [|z l IH]; intros d Hd; [done|]. simpl.
    apply IH; [set_solver|]. rewrite dict_get_set. by case_decide; simplify_eq. }
  apply Hkeep. rewrite dict_get_set. by rewrite decide_True.
Qed.

Lemma comprehension_item (l : list string) (d : list (string * string)) k v :
  (k, v) ∈ comprehension l d → (v = k ∧ k ∈ l) ∨ (k, v) ∈ d.
Proof.
  revert d. induction l as [|y l IH]; intros d; [by right|]. simpl. intros H.
  destruct (IH _ H) as [[-> ?]|H']; [left; split; [done | by apply elem_of_cons; right]|].
  destruct (dict_set_item _ _ _ _ _ H') as [[-> ->]|?]; [|by right].
  left. split; [done | by apply elem_of_cons; left].
Qed.

Lemma comprehension_keys (l : list string) (d : list (string * string)) x :
  x ∈ dict_keys (comprehension l d) ↔ x ∈ dict_keys d ∨ x ∈ l.
Proof.
  revert d. induction l as [|y l IH]; intros d; simpl; [set_solver|].
  rewrite IH, dict_keys_set. case_decide; set_solver.
Qed.

Lemma comprehension_NoDup (l : list string) (d : list (string * string)) :
  NoDup (dict_keys d) → NoDup (dict_keys (comprehension l d)).
Proof.
  revert d. induction l as [|y l IH]; intros d Hd; [done|]. simpl.
  apply IH. rewrite dict_keys_set. case_decide; [done|].
  apply NoDup_app. split_and!; [done | set_solver | apply NoDup_singleton].
Qed.

(** The mapping a list of names stands for: each name of the list is a key
    bound to itself, and there is no other item. *)
Definition identity_map (l : list string) (d : list (string * string)) : Prop :=
  (∀ x, x ∈ l → dict_get d x = Some x) ∧ (∀ k v, (k, v) ∈ d → v = k ∧ k ∈ l).

(** C1. File-map normalisation: a list of names yields the identity mapping
    on these names, a dictionary is returned as it is, and a value of any
    other type makes the constructor of the source itself raise (so the
    construction of the registry raises, before anything uses the map). *)
Theorem filemap_normalisation (name td sd url : string) (files : pyfiles) :
  match files with
  | FilesList l =>
      ∃ d, _filemap files = Ok d ∧ identity_map l d ∧
           WindowsDriverFirmware name td sd files = Ok (WindowsDriver name (Path_of td) sd d) ∧
           DownloadFirmware name td url files = Ok (Download name (Path_of td) url d)
  | FilesDict d =>
      _filemap files = Ok d ∧
      WindowsDriverFirmware name td sd files = Ok (WindowsDriver name (Path_of td) sd d) ∧
      DownloadFirmware name td url files = Ok (Download name (Path_of td) url d)
  | _ =>
      WindowsDriverFirmware name td sd files = Raise (Exception "invalid file map") ∧
      DownloadFirmware name td url files = Raise (Exception "invalid file map") ∧
      ∀ pre post,
        construct_all (map Ok pre ++ WindowsDriverFirmware name td sd files :: post)
          = Raise (Exception "invalid file map") ∧
        construct_all (map Ok pre ++ DownloadFirmware name td url files :: post)
          = Raise (Exception "invalid file map")
  end.
Proof.
  assert (∀ (pre : list Firmware) e post,
            construct_all (map Ok pre ++ Raise e :: post) = Raise e) as Hall.
  { intros pre e post. induction pre as [|a pre IH]; simpl; [done|]. by rewrite IH. }
  destruct files as [l|d|l|s|n|]; try (by split_and!; try done; intros; split; apply Hall).
  - eexists. split; [reflexivity|]. split_and!; try done. split.
    + intros x Hx. by apply comprehension_get.
    + intros k v Hkv. destruct (comprehension_item _ _ _ _ Hkv) as [?|H]; [done|].
      by apply elem_of_nil in H.
Qed.

(** C10. A list with repeated names is normalised without error, to a
    mapping with one item per distinct name: the keys are free of
    duplicates and are, as a set, the elements of the list. *)
Theorem filemap_collapses_duplicates (l : list string) :
  ∃ d, _filemap (FilesList l) = Ok d ∧
       NoDup (dict_keys d) ∧
       (list_to_set (dict_keys d) : gset string) = list_to_set l ∧
       length d = size (list_to_set l : gset string).
Proof.
  eexists. split; [reflexivity|].
  assert (NoDup (dict_keys (comprehension l []))) as Hnd
    by (apply comprehension_NoDup, NoDup_nil_2).
  assert ((list_to_set (dict_keys (comprehension l [])) : gset string) = list_to_set l) as Hset.
  { apply set_eq. intros x. rewrite !elem_of_list_to_set, comprehension_keys.
    unfold dict_keys at 1. simpl. set_solver. }
  split_and!; [done | done |].
  rewrite <- Hset, size_list_to_set by done. unfold dict_keys. by rewrite length_map.
Qed.

(** ** Method entries in the history of a run *)

Definition is_entry (ev : event) : bool :=
  match ev with
  | EvGet _ | EvApply _ => true
  | _ => false
  end.

(** The sources whose [get] was entered, and the patches whose [apply] was
    entered, in order. *)
Fixpoint gets (t : list event) : list string :=
  match t with
  | [] => []
  | EvGet n :: t' => n :: gets t'
  | _ :: t' => gets t'
  end.

Fixpoint applies (t : list event) : list string :=
  match t with
  | [] => []
  | EvApply n :: t' => n :: applies t'
  | _ :: t' => applies t'
  end.

(** A computation is quiet when it enters no method: its events are prints
    and library calls only. *)
Definition quiet {A} (m : M A) : Prop :=
  ∀ fs, Forall (λ ev, is_entry ev = false) (m fs).2.

Create HintDb quiet.

Lemma quiet_ret {A} (a : A) : quiet (ret a).
Proof. intros fs. constructor. Qed.

Lemma quiet_raise {A} e : quiet (@raise A e).
Proof. intros fs. constructor. Qed.

Lemma quiet_lift {A} (r : res A) : quiet (lift r).
Proof. intros fs. constructor. Qed.

Lemma quiet_emit ev : is_entry ev = false → quiet (emit ev).
Proof. intros H fs. by repeat constructor. Qed.

Lemma quiet_update f : quiet (update f).
Proof. intros fs. unfold update. destruct (f fs); constructor. Qed.

Lemma quiet_query {A} (f : gmap (list string) node → res A) : quiet (query f).
Proof. intros fs. constructor. Qed.

Lemma quiet_bind {A B} (m : M A) (f : A → M B) :
  quiet m → (∀ a, quiet (f a)) → quiet (bind m f).
Proof.
  intros Hm Hf fs. unfold bind. specialize (Hm fs).
  destruct (m fs) as [[[a|e] fs1] t1]; [|done].
  specialize (Hf a fs1). destruct (f a fs1) as [[r fs2] t2]. simpl in *.
  by apply Forall_app.
Qed.

Lemma quiet_for {A} (l : list A) (body : A → M unit) :
  (∀ x, quiet (body x)) → quiet (for_ l body).
Proof.
  intros H. induction l as [|x l IH]; simpl; [apply quiet_ret|].
  apply quiet_bind; [apply H | by intros _].
Qed.

Lemma quiet_subprocess_call env argv : quiet (subprocess_call env argv).
Proof.
  apply quiet_bind; [by apply quiet_emit|]. intros _ fs.
  destruct (spawn env argv fs) as [[??]|?]; constructor.
Qed.

Lemma quiet_NamedTemporaryFile env : quiet (NamedTemporaryFile env).
Proof.
  intros fs. unfold NamedTemporaryFile.
  destruct (write_file _ _ _); by repeat constructor.
Qed.

Lemma quiet_NamedTemporaryFile_del env file : quiet (NamedTemporaryFile_del env file).
Proof. intros fs. constructor. Qed.

Lemma quiet_copyfile env src dst : quiet (copyfile env src dst).
Proof. intros fs. unfold copyfile. repeat case_match; constructor. Qed.

Lemma quiet_shutil_copy env src dst : quiet (shutil_copy env src dst).
Proof.
  unfold shutil_copy, copymode.
  apply quiet_bind; [by apply quiet_emit|]. intros _.
  apply quiet_bind; [apply quiet_query|]. intros dst'.
  apply quiet_bind; [apply quiet_copyfile|]. intros _. apply quiet_lift.
Qed.

Lemma quiet_urlretrieve env url dst : quiet (urlretrieve env url dst).
Proof.
  apply quiet_bind; [by apply quiet_emit|]. intros _ fs.
  repeat case_match; constructor.
Qed.

#[global] Hint Resolve quiet_ret quiet_raise quiet_lift quiet_update quiet_query
  quiet_subprocess_call quiet_NamedTemporaryFile quiet_NamedTemporaryFile_del
  quiet_shutil_copy quiet_urlretrieve : quiet.
#[global] Hint Extern 1 (quiet (emit _)) => apply quiet_emit; reflexivity : quiet.
#[global] Hint Extern 2 (quiet (bind _ _)) => apply quiet_bind; [|intros ?] : quiet.
#[global] Hint Extern 2 (quiet (for_ _ _)) => apply quiet_for; intros ? : quiet.

Ltac quiet_tac := repeat (cbv beta zeta; simpl; eauto 10 with quiet).

Lemma quiet_Logger_info log msg : quiet (Logger_info log msg).
Proof. unfold Logger_info. quiet_tac. Qed.

Lemma quiet_WindowsDriverFirmware_get env td sd files log args :
  quiet (WindowsDriverFirmware_get env td sd files log args).
Proof.
  unfold WindowsDriverFirmware_get, _find_source_directory, iterdir.
  apply quiet_bind; [quiet_tac|]. intros base. apply quiet_for. intros [s t].
  unfold WindowsDriverFirmware_copy, Path_mkdir, Logger_info. quiet_tac.
Qed.

Lemma quiet_DownloadFirmware_get env td url files log args :
  quiet (DownloadFirmware_get env td url files log args).
Proof.
  unfold DownloadFirmware_get. apply quiet_for. intros [s t].
  unfold DownloadFirmware_fetch, Path_mkdir, Logger_info. quiet_tac.
Qed.

Lemma quiet_gets (t : list event) :
  Forall (λ ev, is_entry ev = false) t → gets t = [] ∧ applies t = [].
Proof. induction 1 as [|ev t Hev _ [IH1 IH2]]; [done|]. by destruct ev. Qed.

Lemma gets_app t1 t2 : gets (t1 ++ t2) = gets t1 ++ gets t2.
Proof. induction t1 as [|[] t1 IH]; simpl; by rewrite ?IH. Qed.

Lemma applies_app t1 t2 : applies (t1 ++ t2) = applies t1 ++ applies t2.
Proof. induction t1 as [|[] t1 IH]; simpl; by rewrite ?IH. Qed.

(** A call of [get] enters exactly this one method. *)
Lemma Firmware_get_entries env s log args fs :
  gets (Firmware_get env s log args fs).2 = [Firmware_name s] ∧
  applies (Firmware_get env s log args fs).2 = [].
Proof.
  assert (∀ (m : M unit) n, quiet m →
            gets (bind (emit (EvGet n)) (λ _, m) fs).2 = [n] ∧
            applies (bind (emit (EvGet n)) (λ _, m) fs).2 = []) as H.
  { intros m n Hq. unfold bind, emit. specialize (Hq fs).
    destruct (m fs) as [[r fs1] t1]. simpl in *.
    destruct (quiet_gets _ Hq) as [H1 H2]. by rewrite H1, H2. }
  destruct s; apply H;
    auto using quiet_WindowsDriverFirmware_get, quiet_DownloadFirmware_get with quiet.
Qed.

(** The loggers of [main]. *)
Definition log0 : Logger := mkLogger 0 "==> ".
Definition log1 : Logger := mkLogger 1 " -> ".
Definition log2 : Logger := mkLogger 2 "    ".

(** One iteration of [gather] under the logger [main] hands down. *)
Lemma gather_step env args s fs :
  (Logger_info log1 (Firmware_name s) >>
   let* sub := lift (Logger_sub log1) in Firmware_get env s sub args) fs
  = ((Firmware_get env s log2 args fs).1.1, (Firmware_get env s log2 args fs).1.2,
     EvPrint (" -> " +:+ Firmware_name s) :: (Firmware_get env s log2 args fs).2).
Proof.
  unfold bind, Logger_info, emit, lift. simpl.
  change (mkLogger 2 "    ") with log2.
  by destruct (Firmware_get env s log2 args fs) as [[[[]|e] fs1] t1].
Qed.

Lemma gather_cons env args s srcs fs :
  gather env log1 args (s :: srcs) fs =
  bind (λ fs, ((Firmware_get env s log2 args fs).1.1, (Firmware_get env s log2 args fs).1.2,
               EvPrint (" -> " +:+ Firmware_name s) :: (Firmware_get env s log2 args fs).2))
       (λ _, gather env log1 args srcs) fs.
Proof.
  unfold gather. cbn [for_]. unfold bind at 1. rewrite gather_step.
  unfold bind. by destruct (Firmware_get env s log2 args fs) as [[[[]|e] fs1] t1].
Qed.

Lemma gather_entries env args srcs fs :
  applies (gather env log1 args srcs fs).2 = [] ∧
  ∀ fs' t, gather env log1 args srcs fs = (Ok tt, fs', t) → gets t = map Firmware_name srcs.
Proof.
  revert fs. induction srcs as [|s srcs IH]; intros fs.
  - split; [done|]. by intros fs' t [= <- <-].
  - rewrite gather_cons. unfold bind.
    destruct (Firmware_get_entries env s log2 args fs) as [Hg Ha].
    destruct (Firmware_get env s log2 args fs) as [[[[]|e] fs1] t1]; simpl in *.
    + destruct (IH fs1) as [IHa IHg].
      destruct (gather env log1 args srcs fs1) as [[r2 fs2] t2]. simpl in *. split.
      * by rewrite applies_app, IHa, Ha.
      * intros fs' t [= -> -> <-]. simpl. by rewrite gets_app, (IHg _ _ eq_refl), Hg.
    + by split.
Qed.

(** ** The orchestrator *)

Definition banner_gather : event := EvPrint "==> retrieving base firmware files".
Definition banner_patch : event := EvPrint "==> patching firmware files".
Definition banner_done : event := EvPrint "==> done!".

(** [pipeline], by the outcome of its two phases. *)
Lemma pipeline_phases env args srcs patches fs :
  pipeline env args srcs patches fs =
  match gather env log1 args srcs fs with
  | (Raise e, fs1, tg) => (Raise e, fs1, banner_gather :: tg)
  | (Ok _, fs1, tg) =>
      match patch env log1 args patches fs1 with
      | (Raise e, fs2, tp) => (Raise e, fs2, banner_gather :: tg ++ banner_patch :: tp)
      | (Ok _, fs2, tp) =>
          (Ok tt, fs2, banner_gather :: tg ++ banner_patch :: tp ++ [banner_done])
      end
  end.
Proof.
  unfold pipeline, bind, lift, Logger_info, emit. simpl.
  change (mkLogger 1 " -> ") with log1.
  destruct (gather env log1 args srcs fs) as [[[[]|e] fs1] tg]; [|done].
  destruct (patch env log1 args patches fs1) as [[[[]|e] fs2] tp]; [|done].
  done.
Qed.

Lemma gather_raise env args pre s post fs fs1 t1 e fs2 t2 :
  gather env log1 args pre fs = (Ok tt, fs1, t1) →
  Firmware_get env s log2 args fs1 = (Raise e, fs2, t2) →
  gather env log1 args (pre ++ s :: post) fs
    = (Raise e, fs2, t1 ++ EvPrint (" -> " +:+ Firmware_name s) :: t2).
Proof.
  intros Hpre Hs. unfold gather in *. eapply for_raise; [exact Hpre|].
  rewrite gather_step. by rewrite Hs.
Qed.

(** A failing source ends the whole pipeline there: what was declared after
    it, sources and patches alike, leaves no trace in the run. *)
Lemma pipeline_fail_fast env args pre s post patches fs fs1 t1 e fs2 t2 :
  gather env log1 args pre fs = (Ok tt, fs1, t1) →
  Firmware_get env s log2 args fs1 = (Raise e, fs2, t2) →
  pipeline env args (pre ++ s :: post) patches fs
    = (Raise e, fs2, banner_gather :: t1 ++ EvPrint (" -> " +:+ Firmware_name s) :: t2).
Proof.
  intros Hpre Hs. rewrite pipeline_phases.
  by rewrite (gather_raise _ _ _ _ post _ _ _ _ _ _ Hpre Hs).
Qed.

(** A source that has been got without error in a completed [gather]. *)
Lemma gather_ok_split env args pre s post fs fs' t :
  gather env log1 args (pre ++ s :: post) fs = (Ok tt, fs', t) →
  ∃ fs1 t1 fs2 t2,
    gather env log1 args pre fs = (Ok tt, fs1, t1) ∧
    Firmware_get env s log2 args fs1 = (Ok tt, fs2, t2).
Proof.
  unfold gather. intros H.
  apply for_ok_split in H as (fs1 & t1 & fs2 & t2 & t3 & Hpre & Hs & _ & _).
  rewrite gather_step in Hs. exists fs1, t1, fs2, (Firmware_get env s log2 args fs1).2.
  split; [done|]. destruct (Firmware_get env s log2 args fs1) as [[r f] t'].
  simpl in *. by injection Hs as -> -> _.
Qed.

Lemma entry_position (l1 l2 before after : list event) pn :
  applies l1 = [] →
  l1 ++ l2 = before ++ EvApply pn :: after →
  ∃ rest, before = l1 ++ rest ∧ l2 = rest ++ EvApply pn :: after.
Proof.
  revert before. induction l1 as [|ev l1 IH]; intros before Hno Heq.
  - by exists before.
  - destruct before as [|b before]; simpl in Heq.
    + injection Heq as -> _. done.
    + injection Heq as -> Heq. destruct (IH before) as (rest & -> & ->); [by destruct b | done |].
      by exists rest.
Qed.

(** C2. In every run of the pipeline: (1) when the retrieval of a source
    fails, the run ends with that failure, the sources whose [get] was
    entered are the failing one and those declared before it, and no patch
    is applied; (2) wherever a patch is applied in the run, the whole
    registry has been gathered before, each of its sources having returned
    from its retrieval. *)
Theorem gather_fails_fast_and_precedes_patches env args srcs patches fs r fs' t :
  pipeline env args srcs patches fs = (r, fs', t) →
  (∀ pre s post fs1 t1 e fs2 t2,
     srcs = pre ++ s :: post →
     gather env log1 args pre fs = (Ok tt, fs1, t1) →
     Firmware_get env s log2 args fs1 = (Raise e, fs2, t2) →
     r = Raise e ∧ fs' = fs2 ∧
     gets t = map Firmware_name (pre ++ [s]) ∧ applies t = []) ∧
  (∀ before pn after,
     t = before ++ EvApply pn :: after →
     ∃ fsg tg rest,
       gather env log1 args srcs fs = (Ok tt, fsg, tg) ∧
       before = banner_gather :: tg ++ banner_patch :: rest ∧
       gets (banner_gather :: tg) = map Firmware_name srcs ∧
       ∀ pre s post, srcs = pre ++ s :: post →
         ∃ fs1 t1 fs2 t2,
           gather env log1 args pre fs = (Ok tt, fs1, t1) ∧
           Firmware_get env s log2 args fs1 = (Ok tt, fs2, t2)).
Proof.
  intros Hrun. split.
  - intros pre s post fs1 t1 e fs2 t2 -> Hpre Hs.
    rewrite (pipeline_fail_fast _ _ _ _ post patches _ _ _ _ _ _ Hpre Hs) in Hrun.
    injection Hrun as <- <- <-. split_and!; [done | done | |].
    + destruct (gather_entries env args pre fs) as [_ Hg].
      destruct (Firmware_get_entries env s log2 args fs1) as [Hgs _].
      rewrite Hs in Hgs. simpl in *.
      rewrite gets_app, (Hg _ _ Hpre), map_app. simpl. by rewrite Hgs.
    + destruct (gather_entries env args pre fs) as [Ha _].
      destruct (Firmware_get_entries env s log2 args fs1) as [_ Has].
      rewrite Hpre in Ha. rewrite Hs in Has. simpl in *.
      by rewrite applies_app, Ha.
  - intros before pn after ->. rewrite pipeline_phases in Hrun.
    destruct (gather_entries env args srcs fs) as [Ha Hg].
    destruct (gather env log1 args srcs fs) as [[[[]|e] fsg] tg] eqn:Hgather; simpl in Ha.
    + assert (∃ tp, banner_gather :: tg ++ banner_patch :: tp
                      = before ++ EvApply pn :: after) as [tp Htp].
      { destruct (patch env log1 args patches fsg) as [[[[]|e] fs2] tp];
          injection Hrun as _ _ Ht; eauto. }
      apply (entry_position (banner_gather :: tg) (banner_patch :: tp)) in Htp
        as (rest & -> & Hrest); [|done].
      destruct rest as [|b rest]; [done|]. injection Hrest as <- _.
      exists fsg, tg, rest. split_and!; [done | done | exact (Hg _ _ eq_refl) |].
      intros pre s post ->. by eapply gather_ok_split.
    + injection Hrun as _ _ Ht. rewrite <- (app_nil_r (banner_gather :: tg)) in Ht.
      apply entry_position in Ht as (rest & _ & Hrest); [|done].
      by destruct rest.
Qed.

(** ** A concrete machine

    A Windows tree mounted under [/mnt/win] whose driver store holds the
    packages [enumerated], listed by the operating system in that order; the
    script runs in [/work] with the default output directory. *)

Definition store_loc : list string :=
  ["mnt"; "win"; "Windows"; "System32"; "DriverStore"; "FileRepository"].

Definition machine (enumerated : list string) (status : Z) : Env := {|
  cwd := ["work"];
  script_file := "/opt/fw/scripts/getfw.py";
  euid := 1000;
  scandir := λ k, if decide (k = store_loc) then enumerated else [];
  fetch := λ url, Ok ("content of " +:+ url);
  received := λ _, None;
  copy_fault := λ _ _, None;
  chmod := λ _, Ok tt;
  spawn := λ _ fs, Ok (fs, status);
  mktemp := λ _, "/tmp/tmpk3x9q";
|}.

Definition demo_args : Args := mkArgs (Path_of "/mnt/win" </> PATH_WDSFR) (Path_of "out").

(** The directories from the root down to [k]. *)
Definition dirs_to (k : list string) : list (list string * node) :=
  map (λ n, (take n k, Dir)) (seq 1 (length k)).

Definition store_fs (packages : list string) : gmap (list string) node :=
  list_to_map (dirs_to store_loc ++ map (λ n, (store_loc ++ [n], Dir)) packages
               ++ [(["work"], Dir); (["tmp"], Dir)]).

Lemma run_eta {A} (x : res A * gmap (list string) node * list event) r :
  x.1.1 = r → x = (r, x.1.2, x.2).
Proof. destruct x as [[??]?]. simpl. by intros ->. Qed.

Definition wlan_vendor : Firmware :=
  WindowsDriver "wlan/vendor" (Path_of ("qcom/" +:+ PATH_PLATFORM)) "qcwlan8180"
    [("wlanmdsp.mbn", "wlanmdsp.mbn")].

Definition firmware5 : Firmware :=
  Download "wlan/ath10k/firmware-5" (Path_of "ath10k/WCN3990/hw1.0")
    (URL_LINUX_FIRMWARE_REPO +:+ "/ath10k/WCN3990/hw1.0") [("firmware-5.bin", "firmware-5.bin")].

(** The package directory is there but the file is not: the first of two
    sources fails, the second is not entered, no patch is applied. *)
Lemma gather_fails_fast_and_precedes_patches_witness :
  let run := pipeline (machine ["qcwlan8180-v2"] 0) demo_args [wlan_vendor; firmware5] patches
               (store_fs ["qcwlan8180-v2"]) in
  run.1.1 = Raise FileNotFoundError ∧ gets run.2 = ["wlan/vendor"] ∧ applies run.2 = [].
Proof.
  intros run.
  set (env := machine ["qcwlan8180-v2"] 0) in *.
  set (fs := store_fs ["qcwlan8180-v2"]) in *.
  set (get1 := Firmware_get env wlan_vendor log2 demo_args fs).
  destruct (gather_fails_fast_and_precedes_patches env demo_args [wlan_vendor; firmware5]
              patches fs run.1.1 run.1.2 run.2) as [H _].
  { by apply run_eta. }
  destruct (H [] wlan_vendor [firmware5] fs [] FileNotFoundError get1.1.2 get1.2)
    as (Hr & _ & Hg & Ha); [reflexivity | reflexivity | | by split_and!].
  apply run_eta. vm_compute. reflexivity.
Defined.

(** ** Resolution of the source directory *)

Lemma Path_name_child p n : Path_name (child p n) = n.
Proof. unfold Path_name, child. simpl. apply last_last. Qed.

Lemma find_child p sd (names : list string) :
  List.find (λ q, startswith (Path_name q) sd) (map (child p) names)
  = child p <$> List.find (λ n, startswith n sd) names.
Proof.
  induction names as [|n names IH]; [done|]. simpl.
  rewrite Path_name_child. by destruct (startswith n sd).
Qed.

Lemma find_first {A} (f : A → bool) (before after : list A) x :
  f x = true → (∀ m, m ∈ before → f m = false) →
  List.find f (before ++ x :: after) = Some x.
Proof.
  intros Hx. induction before as [|b before IH]; intros Hb; simpl.
  - by rewrite Hx.
  - rewrite (Hb b) by (by apply elem_of_cons; left).
    apply IH. intros m Hm. apply Hb. by apply elem_of_cons; right.
Qed.

Lemma find_only {A} (f : A → bool) (l : list A) x :
  x ∈ l → f x = true → (∀ m, m ∈ l → f m = true → m = x) →
  List.find f l = Some x.
Proof.
  induction l as [|y l IH]; intros Hin Hx Honly; [by apply elem_of_nil in Hin|].
  simpl. destruct (f y) eqn:Hy.
  - f_equal. apply Honly; [by apply elem_of_cons; left | done].
  - apply IH; [|done|].
    + apply elem_of_cons in Hin as [->|?]; [congruence | done].
    + intros m Hm. apply Honly. by apply elem_of_cons; right.
Qed.

Lemma find_nothing {A} (f : A → bool) (l : list A) :
  (∀ m, m ∈ l → f m = false) → List.find f l = None.
Proof.
  induction l as [|y l IH]; intros H; [done|]. simpl.
  rewrite (H y) by (by apply elem_of_cons; left).
  apply IH. intros m Hm. apply H. by apply elem_of_cons; right.
Qed.

Lemma is_dir_true fs k :
  is_dir fs k = true → parents_ok fs k = Ok tt ∧ stat fs k = Some Dir.
Proof.
  unfold is_dir. destruct (parents_ok fs k) as [[]|]; [|done].
  by destruct (stat fs k) as [[]|].
Qed.

(** Over an existing driver store, the resolution reads the enumeration and
    nothing else. *)
Lemma find_source_directory_run env sd args fs :
  is_dir fs (locate env (path_wdsfr args)) = true →
  _find_source_directory env sd args fs
  = (Ok (child (path_wdsfr args) <$>
           List.find (λ n, startswith n sd) (scandir env (locate env (path_wdsfr args)))),
     fs, [EvIterdir (path_wdsfr args)]).
Proof.
  intros [Hp Hs]%is_dir_true.
  unfold _find_source_directory, iterdir, bind, emit, query, ret. simpl.
  by rewrite Hp, Hs, find_child.
Qed.

(** The claim as the specification words it: the directory selected is the
    first, in lexicographic order, of the entries that start with the
    prefix. *)
Definition selects_lexicographic_first (env : Env) (sd : string) (args : Args)
    (fs : gmap (list string) node) : Prop :=
  ∀ p, (_find_source_directory env sd args fs).1.1 = Ok (Some p) →
    ∀ m, m ∈ scandir env (locate env (path_wdsfr args)) →
         startswith m sd = true → (Path_name p <=? m)%string = true.

(** C5, as stated, fails where the operating system lists two matching
    packages in another order than the lexicographic one. *)
Lemma selects_lexicographic_first_counterexample :
  ¬ selects_lexicographic_first (machine ["qcwlan8180-b"; "qcwlan8180-a"] 0) "qcwlan8180"
      demo_args (store_fs ["qcwlan8180-a"; "qcwlan8180-b"]).
Proof.
  intros H.
  specialize (H (child (path_wdsfr demo_args) "qcwlan8180-b")).
  assert (scandir (machine ["qcwlan8180-b"; "qcwlan8180-a"] 0)
            (locate (machine ["qcwlan8180-b"; "qcwlan8180-a"] 0) (path_wdsfr demo_args))
          = ["qcwlan8180-b"; "qcwlan8180-a"]) as Hscan by (vm_compute; reflexivity).
  rewrite Hscan in H.
  specialize (H ltac:(vm_compute; reflexivity) "qcwlan8180-a").
  assert (("qcwlan8180-b" <=? "qcwlan8180-a")%string = false) as Hle by (vm_compute; reflexivity).
  rewrite Path_name_child, Hle in H. discriminate H; [|reflexivity].
  apply elem_of_cons. right. apply elem_of_cons. by left.
Qed.

(** C5, amended. Over an existing driver store, the resolution selects the
    first entry, in the order in which the operating system enumerates the
    store, whose name starts with the prefix; hence, when exactly one entry
    starts with the prefix, that entry is selected whatever its siblings. *)
Theorem resolution_selects_first_enumerated env sd args fs :
  is_dir fs (locate env (path_wdsfr args)) = true →
  (∀ before n after,
     scandir env (locate env (path_wdsfr args)) = before ++ n :: after →
     startswith n sd = true →
     (∀ m, m ∈ before → startswith m sd = false) →
     _find_source_directory env sd args fs
     = (Ok (Some (child (path_wdsfr args) n)), fs, [EvIterdir (path_wdsfr args)])) ∧
  (∀ n,
     n ∈ scandir env (locate env (path_wdsfr args)) →
     startswith n sd = true →
     (∀ m, m ∈ scandir env (locate env (path_wdsfr args)) → startswith m sd = true → m = n) →
     _find_source_directory env sd args fs
     = (Ok (Some (child (path_wdsfr args) n)), fs, [EvIterdir (path_wdsfr args)])).
Proof.
  intros Hdir. split.
  - intros before n after Hscan Hn Hbefore.
    rewrite find_source_directory_run, Hscan by done.
    by rewrite (find_first _ before after n).
  - intros n Hin Hn Honly. rewrite find_source_directory_run by done.
    by rewrite (find_only _ _ n).
Qed.

Lemma resolution_selects_first_enumerated_witness :
  (_find_source_directory (machine ["aa-other"; "qcwlan8180-v2"; "zz-other"] 0) "qcwlan8180"
     demo_args (store_fs ["aa-other"; "qcwlan8180-v2"; "zz-other"])).1.1
  = Ok (Some (child (path_wdsfr demo_args) "qcwlan8180-v2")).
Proof.
  destruct (resolution_selects_first_enumerated
              (machine ["aa-other"; "qcwlan8180-v2"; "zz-other"] 0) "qcwlan8180"
              demo_args (store_fs ["aa-other"; "qcwlan8180-v2"; "zz-other"])) as [H _].
  { vm_compute. reflexivity. }
  rewrite (H ["aa-other"] "qcwlan8180-v2" ["zz-other"]); [reflexivity | | |].
  - vm_compute. reflexivity.
  - vm_compute. reflexivity.
  - intros m Hm. apply list_elem_of_singleton in Hm as ->. vm_compute. reflexivity.
Defined.

(** ** A source whose directory is not found *)

(** The claim as the specification words it: the retrieval ends with a
    not-found failure raised by a file access of the copy step. *)
Definition fails_not_found_at_file_access (env : Env) (src : Firmware) (args : Args)
    (fs : gmap (list string) node) : Prop :=
  ∃ fs' t from to,
    Firmware_get env src log2 args fs = (Raise FileNotFoundError, fs', t ++ [EvCopy from to]).

Definition no_files : Firmware :=
  WindowsDriver "wlan/vendor" (Path_of ("qcom/" +:+ PATH_PLATFORM)) "qcwlan8180" [].

(** C4, as stated, fails: with no matching package the retrieval raises a
    type error when it joins the missing directory with the first name,
    before any file is accessed; and a source with an empty file map does
    not fail at all. *)
Lemma fails_not_found_at_file_access_counterexample :
  let env := machine ["other-package"] 0 in
  let fs := store_fs ["other-package"] in
  (_find_source_directory env "qcwlan8180" demo_args fs).1.1 = Ok None ∧
  ¬ fails_not_found_at_file_access env wlan_vendor demo_args fs ∧
  (Firmware_get env wlan_vendor log2 demo_args fs).1.1 = Raise TypeError ∧
  (Firmware_get env wlan_vendor log2 demo_args fs).2
    = [EvGet "wlan/vendor"; EvIterdir (path_wdsfr demo_args)] ∧
  ¬ fails_not_found_at_file_access env no_files demo_args fs ∧
  (Firmware_get env no_files log2 demo_args fs).1.1 = Ok tt.
Proof.
  intros env fs.
  assert ((Firmware_get env wlan_vendor log2 demo_args fs).1.1 = Raise TypeError) as H1
    by (vm_compute; reflexivity).
  assert ((Firmware_get env no_files log2 demo_args fs).1.1 = Ok tt) as H2
    by (vm_compute; reflexivity).
  split_and!; [vm_compute; reflexivity | | done | vm_compute; reflexivity | | done].
  - intros (fs' & t & from & to & H). by rewrite H in H1.
  - intros (fs' & t & from & to & H). by rewrite H in H2.
Qed.

(** C4, amended. Over an existing driver store none of whose entries starts
    with the prefix, the resolution returns no directory without failing;
    the retrieval then raises a type error at the first pair of the file
    map, when it joins the missing directory with the source name, before
    any directory is created or file accessed, and this failure ends the
    pipeline; with an empty file map the retrieval returns. *)
Theorem unresolved_directory_fails_at_join env nm td sd files args fs :
  is_dir fs (locate env (path_wdsfr args)) = true →
  (∀ m, m ∈ scandir env (locate env (path_wdsfr args)) → startswith m sd = false) →
  _find_source_directory env sd args fs = (Ok None, fs, [EvIterdir (path_wdsfr args)]) ∧
  (∀ log, Firmware_get env (WindowsDriver nm td sd files) log args fs
          = (match files with [] => Ok tt | _ => Raise TypeError end,
             fs, [EvGet nm; EvIterdir (path_wdsfr args)])) ∧
  (files ≠ [] →
   ∀ pre post patches fs0 t0,
     gather env log1 args pre fs0 = (Ok tt, fs, t0) →
     pipeline env args (pre ++ WindowsDriver nm td sd files :: post) patches fs0
     = (Raise TypeError, fs,
        banner_gather :: t0 ++ [EvPrint (" -> " +:+ nm); EvGet nm; EvIterdir (path_wdsfr args)])).
Proof.
  intros Hdir Hnone.
  assert (_find_source_directory env sd args fs
          = (Ok None, fs, [EvIterdir (path_wdsfr args)])) as Hfind.
  { rewrite find_source_directory_run by done. by rewrite find_nothing. }
  assert (∀ log, Firmware_get env (WindowsDriver nm td sd files) log args fs
          = (match files with [] => Ok tt | _ => Raise TypeError end,
             fs, [EvGet nm; EvIterdir (path_wdsfr args)])) as Hget.
  { intros log. unfold Firmware_get, WindowsDriverFirmware_get. simpl.
    unfold bind at 1. unfold emit at 1. unfold bind at 1. rewrite Hfind.
    by destruct files as [|[s t] files]. }
  split_and!; [done | done |].
  intros Hne pre post patches fs0 t0 Hpre.
  erewrite pipeline_fail_fast; [reflexivity | exact Hpre |].
  rewrite Hget. by destruct files.
Qed.

Lemma unresolved_directory_fails_at_join_witness :
  Firmware_get (machine ["other-package"] 0) wlan_vendor log2 demo_args
    (store_fs ["other-package"])
  = (Raise TypeError, store_fs ["other-package"],
     [EvGet "wlan/vendor"; EvIterdir (path_wdsfr demo_args)]).
Proof.
  destruct (unresolved_directory_fails_at_join (machine ["other-package"] 0) "wlan/vendor"
              (Path_of ("qcom/" +:+ PATH_PLATFORM)) "qcwlan8180"
              [("wlanmdsp.mbn", "wlanmdsp.mbn")] demo_args (store_fs ["other-package"]))
    as (_ & H & _).
  - vm_compute. reflexivity.
  - intros m Hm.
    assert (scandir (machine ["other-package"] 0)
              (locate (machine ["other-package"] 0) (path_wdsfr demo_args))
            = ["other-package"]) as Hscan by (vm_compute; reflexivity).
    rewrite Hscan in Hm. apply list_elem_of_singleton in Hm as ->. vm_compute. reflexivity.
  - exact (H log2).
Defined.

(** ** The exit status of the external tools *)

(** The same environment, with the exit status of every tool mapped by [f]. *)
Definition with_status (f : Z → Z) (env : Env) : Env := {|
  cwd := cwd env;
  script_file := script_file env;
  euid := euid env;
  scandir := scandir env;
  fetch := fetch env;
  received := received env;
  copy_fault := copy_fault env;
  chmod := chmod env;
  spawn := λ argv fs, match spawn env argv fs with
                      | Ok (fs', code) => Ok (fs', f code)
                      | Raise e => Raise e
                      end;
  mktemp := mktemp env;
|}.

(** The value of [subprocess.call] is dropped at each of its uses. *)
Lemma subprocess_call_status {B} f env argv (k : M B) fs :
  bind (subprocess_call (with_status f env) argv) (λ _, k) fs
  = bind (subprocess_call env argv) (λ _, k) fs.
Proof.
  unfold subprocess_call, bind, emit. simpl.
  by destruct (spawn env argv fs) as [[fs' code]|e].
Qed.

Lemma patch_venus_extract_status f env log args fs :
  patch_venus_extract (with_status f env) log args fs = patch_venus_extract env log args fs.
Proof.
  unfold patch_venus_extract. apply bind_ext. intros _ fs1.
  apply subprocess_call_status.
Qed.

Lemma patch_ath10k_board_status f env log args fs :
  patch_ath10k_board (with_status f env) log args fs = patch_ath10k_board env log args fs.
Proof.
  unfold patch_ath10k_board. apply bind_ext. intros file fs1.
  apply bind_ext. intros _ fs2. apply subprocess_call_status.
Qed.

Lemma patch_ath10k_firmware_status f env log args fs :
  patch_ath10k_firmware (with_status f env) log args fs = patch_ath10k_firmware env log args fs.
Proof. unfold patch_ath10k_firmware. apply subprocess_call_status. Qed.

Lemma for_ext {A} (l : list A) (body body' : A → M unit) fs :
  (∀ x fs1, x ∈ l → body x fs1 = body' x fs1) → for_ l body fs = for_ l body' fs.
Proof.
  revert fs. induction l as [|x l IH]; intros fs H; [done|]. simpl.
  unfold bind. rewrite (H x fs) by (by apply elem_of_cons; left).
  destruct (body' x fs) as [[[[]|e] fs1] t1]; [|done].
  rewrite IH; [done|]. intros y fs2 Hy. apply H. by apply elem_of_cons; right.
Qed.

Lemma patch_status f env log args fs :
  patch (with_status f env) log args patches fs = patch env log args patches fs.
Proof.
  unfold patch. apply for_ext. intros p fs1 Hp.
  apply bind_ext. intros _ fs2. apply bind_ext. intros sub fs3.
  unfold Patch_apply. apply bind_ext. intros _ fs4.
  unfold patches in Hp. repeat (apply elem_of_cons in Hp as [->|Hp]); cbn [Patch_fn].
  - apply patch_venus_extract_status.
  - apply patch_ath10k_board_status.
  - apply patch_ath10k_firmware_status.
  - unfold patch_qca_bt_symlinks. apply for_ext. intros file fs5 _.
    unfold qca_bt_link, Path_unlink, Path_symlink_to. reflexivity.
  - by apply elem_of_nil in Hp.
Qed.

(** C3, amended. The exit status of the external tools is discarded: each
    patch step that invokes a tool, the patch phase and the whole script run
    the same whatever status the tools exit with.  A non-zero exit status is
    therefore no failure: the step goes on with its remaining actions and
    the later steps run as they do after a zero status. *)
Theorem exit_status_is_discarded (f : Z → Z) env log args windows output fs :
  patch_venus_extract (with_status f env) log args fs = patch_venus_extract env log args fs ∧
  patch_ath10k_board (with_status f env) log args fs = patch_ath10k_board env log args fs ∧
  patch_ath10k_firmware (with_status f env) log args fs = patch_ath10k_firmware env log args fs ∧
  patch (with_status f env) log args patches fs = patch env log args patches fs ∧
  script (with_status f env) windows output fs = script env windows output fs.
Proof.
  split_and!.
  - apply patch_venus_extract_status.
  - apply patch_ath10k_board_status.
  - apply patch_ath10k_firmware_status.
  - apply patch_status.
  - unfold script. apply bind_ext. intros srcs fs1.
    unfold main_with. simpl. destruct (euid env =? 0)%Z; [done|].
    rewrite !pipeline_phases.
    change (gather (with_status f env)) with (gather env).
    destruct (gather env log1 _ srcs fs1) as [[[[]|e] fs2] tg]; [|done].
    by rewrite patch_status.
Qed.

(** An output tree as the gather phase leaves it, reduced to the files the
    patches read. *)
Definition gathered_fs : gmap (list string) node :=
  list_to_map
    (dirs_to ["work"; "out"; "qcom"; "XIAOMI"; "BOOK124"]
     ++ dirs_to ["work"; "out"; "ath10k"; "WCN3990"; "hw1.0"; "boards"]
     ++ dirs_to ["work"; "out"; "qca"]
     ++ [(["tmp"], Dir);
         (["work"; "out"; "qcom"; "XIAOMI"; "BOOK124"; "qcvss8180.mbn"], File "venus image");
         (["work"; "out"; "ath10k"; "WCN3990"; "hw1.0"; "boards"; "bdwlan.b58"], File "board data");
         (["work"; "out"; "ath10k"; "WCN3990"; "hw1.0"; "firmware-5.bin"], File "firmware");
         (["work"; "out"; "qca"; "crbtfw21.tlv"], File "bt firmware");
         (["work"; "out"; "qca"; "crnv21.bin"], File "bt nvm")]).

(** A complete machine: the driver store holds one package for every
    local-copy source of the registry, with every file of its file map. *)
Definition package (sd : string) : string := sd +:+ "_1a2b3c".

Definition registry : list Firmware :=
  match sources with
  | Ok l => l
  | Raise _ => []
  end.

Definition store_files (srcs : list Firmware) : list (list string * node) :=
  flat_map (λ src,
    match src with
    | WindowsDriver _ _ sd files =>
        (store_loc ++ [package sd], Dir)
        :: flat_map (λ st : string * string,
             let k := store_loc ++ [package sd] ++ parts (Path_of st.1) in
             dirs_to (removelast k) ++ [(k, File ("data of " +:+ st.1))]) files
    | _ => []
    end) srcs.

Definition packages (srcs : list Firmware) : list string :=
  flat_map (λ src,
    match src with
    | WindowsDriver _ _ sd _ => [package sd]
    | _ => []
    end) srcs.

Definition complete_fs : gmap (list string) node :=
  list_to_map (dirs_to store_loc ++ store_files registry ++ [(["work"], Dir); (["tmp"], Dir)]).

Definition complete_machine (status : Z) : Env := machine (packages registry) status.

(** On the complete machine the script runs to its end, also when every
    tool exits with status 1: every source is got, every patch is applied,
    in the declared order, the splitter having been called. *)
Definition splitter_argv : list string :=
  ["python"; "/opt/fw/scripts/third-party/qcom-mbn-tools/pil-splitter.py";
   "out/qcom/XIAOMI/BOOK124/qcvss8180.mbn"; "out/qcom/venus-5.2/venus"].

Definition ran_to_the_end (run : res unit * gmap (list string) node * list event) : Prop :=
  run.1.1 = Ok tt ∧
  gets run.2 = ["pd-maps"; "bluetooth"; "gpu/base"; "gpu/vendor"; "wlan/vendor";
                "wlan/ath10k/board"; "wlan/ath10k/firmware-5"; "mcfg"; "adsp/vendor";
                "cdsp/vendor"; "mpss/vendor"; "mpss/library"] ∧
  applies run.2 = ["venus"; "ath10k/board-2.bin"; "ath10k/firmware-5.bin"; "qca/bt"] ∧
  EvCall splitter_argv ∈ run.2 ∧
  run.1.2 !! ["work"; "out"; "qca"; "crnv01.bin"] = Some (Symlink "crnv21.bin") ∧
  run.1.2 !! ["work"; "out"; "qcom"; "XIAOMI"; "BOOK124"; "wlanmdsp.mbn"]
  = Some (File "data of wlanmdsp.mbn").

#[global] Instance ran_to_the_end_dec run : Decision (ran_to_the_end run).
Proof. unfold ran_to_the_end. apply _. Defined.

Lemma script_on_complete_machine :
  ran_to_the_end (script (complete_machine 1) "/mnt/win" "out" complete_fs).
Proof. apply (bool_decide_unpack (ran_to_the_end _)). vm_compute. exact I. Qed.

(** The claim as the specification words it: in a run of the script, a
    tool that exits with a non-zero status ends the run with a non-zero
    status, and no patch is applied after it. *)
Definition nonzero_exit_terminates (env : Env) (windows output : string)
    (fs : gmap (list string) node) : Prop :=
  let run := script env windows output fs in
  ∀ before argv after,
    run.2 = before ++ EvCall argv :: after →
    (∀ fs1, ∃ fs2 code, spawn env argv fs1 = Ok (fs2, code) ∧ code ≠ 0%Z) →
    exit_status run.1.1 ≠ 0%Z ∧ applies after = [].

(** C3, as stated, fails: on a complete machine whose tools all exit with
    status 1, the script calls the splitter, goes on, and ends with
    status 0. *)
Lemma nonzero_exit_terminates_counterexample :
  ¬ nonzero_exit_terminates (complete_machine 1) "/mnt/win" "out" complete_fs.
Proof.
  unfold nonzero_exit_terminates. intros H.
  destruct script_on_complete_machine as (Hok & _ & _ & Hcall & _).
  apply list_elem_of_split in Hcall as (before & after & Hsplit).
  destruct (H _ _ _ Hsplit) as [Hstatus _].
  - intros fs1. exists fs1, 1%Z. by split.
  - apply Hstatus. by rewrite Hok.
Qed.

(** ** Locations of the entries of a directory *)

(** A name that is one path component and not the parent reference. *)
Definition plain (a : string) : Prop := Path_of a = mkPath "" [a] ∧ a ≠ "..".

#[global] Instance plain_dec a : Decision (plain a).
Proof. unfold plain. apply _. Defined.

Lemma normalise_snoc l a : a ≠ ".." → normalise (l ++ [a]) = normalise l ++ [a].
Proof.
  intros Ha. unfold normalise. rewrite fold_left_app. simpl.
  destruct (String.eqb_spec a ".."); [done | done].
Qed.

Lemma locate_entry env p a : plain a → locate env (p </> a) = locate env p ++ [a].
Proof.
  intros [Hp Ha]. unfold locate, div, div_path. rewrite Hp. simpl.
  unfold is_absolute. simpl.
  destruct (negb (anchor p =? "")%string); by rewrite <- normalise_snoc, <- ?app_assoc.
Qed.

Lemma stat_entry fs (d : list string) a : stat fs (d ++ [a]) = fs !! (d ++ [a]).
Proof. by destruct d. Qed.

(** The check of the directories above a location reads shorter locations
    only. *)
Lemma chain_agree (fs fs' : gmap (list string) node) n above todo :
  (∀ p, (length p < n)%nat → stat fs p = stat fs' p) →
  (length above + length todo ≤ n)%nat →
  chain fs above todo = chain fs' above todo.
Proof.
  intros Hagree. revert above. induction todo as [|c todo IH]; intros above Hlen; [done|].
  simpl in *. rewrite <- (Hagree above) by lia.
  destruct (stat fs above) as [[]|]; try done.
  apply IH. rewrite length_app. simpl. lia.
Qed.

Lemma stat_insert_ne (fs : gmap (list string) node) k v p :
  p ≠ k → stat (<[k := v]> fs) p = stat fs p.
Proof. intros H. destruct p; [done|]. simpl. by rewrite lookup_insert_ne. Qed.

Lemma stat_delete_ne (fs : gmap (list string) node) k p :
  p ≠ k → stat (delete k fs) p = stat fs p.
Proof. intros H. destruct p; [done|]. simpl. by rewrite lookup_delete_ne. Qed.

Lemma parents_ok_insert (fs : gmap (list string) node) k v k' :
  (length k' ≤ length k)%nat → parents_ok (<[k := v]> fs) k' = parents_ok fs k'.
Proof.
  intros Hlen. unfold parents_ok. apply (chain_agree _ _ (length k')); [|simpl; lia].
  intros p Hp. apply stat_insert_ne. intros ->. lia.
Qed.

Lemma parents_ok_delete (fs : gmap (list string) node) k k' :
  (length k' ≤ length k)%nat → parents_ok (delete k fs) k' = parents_ok fs k'.
Proof.
  intros Hlen. unfold parents_ok. apply (chain_agree _ _ (length k')); [|simpl; lia].
  intros p Hp. apply stat_delete_ne. intros ->. lia.
Qed.

(** ** The alias links *)

(** Removing what stands at a location and linking there again. *)
Lemma relink_ok (fs fs1 fs2 : gmap (list string) node) d a file :
  unlink_missing_ok fs (d ++ [a]) = Ok fs1 →
  symlink fs1 (d ++ [a]) file = Ok fs2 →
  parents_ok fs (d ++ [a]) = Ok tt ∧ fs2 = <[d ++ [a] := Symlink file]> fs.
Proof.
  unfold unlink_missing_ok, symlink.
  destruct (parents_ok fs (d ++ [a])) as [[]|e] eqn:Hp.
  - rewrite stat_entry. destruct (fs !! (d ++ [a])) as [[]|] eqn:Hk; intros [= <-];
      rewrite ?parents_ok_delete, ?Hp, ?stat_entry, ?lookup_delete_eq, ?Hk by done;
      intros [= <-]; by rewrite ?insert_delete_eq.
  - destruct e; intros [= <-]. by rewrite Hp.
Qed.

Lemma relink_raise (fs fs1 : gmap (list string) node) d a file e :
  unlink_missing_ok fs (d ++ [a]) = Ok fs1 →
  symlink fs1 (d ++ [a]) file = Raise e →
  fs1 = fs.
Proof.
  unfold unlink_missing_ok, symlink.
  destruct (parents_ok fs (d ++ [a])) as [[]|e'] eqn:Hp.
  - rewrite stat_entry. destruct (fs !! (d ++ [a])) as [[]|] eqn:Hk; intros [= <-]; try done;
      by rewrite ?parents_ok_delete, ?Hp, ?stat_entry, ?lookup_delete_eq by done.
  - by destruct e'; intros [= <-].
Qed.

Lemma relink_again (fs : gmap (list string) node) d a file :
  parents_ok fs (d ++ [a]) = Ok tt →
  fs !! (d ++ [a]) = Some (Symlink file) →
  unlink_missing_ok fs (d ++ [a]) = Ok (delete (d ++ [a]) fs) ∧
  symlink (delete (d ++ [a]) fs) (d ++ [a]) file = Ok fs.
Proof.
  intros Hp Hk. unfold unlink_missing_ok, symlink.
  rewrite Hp, stat_entry, Hk. split; [done|].
  rewrite parents_ok_delete, Hp, stat_entry, lookup_delete_eq by done.
  by rewrite insert_delete_eq, insert_id.
Qed.

Section Links.
Context (env : Env) (base : Path).

Definition alias (file : string) : string := replace file "21" "01".
Definition link_loc (file : string) : list string := locate env base ++ [alias file].
Definition link_events (l : list string) : list event :=
  flat_map (λ file, [EvUnlink (base </> alias file); EvSymlink (base </> alias file) file]) l.

Lemma qca_bt_link_run file fs :
  qca_bt_link env base file fs =
  match unlink_missing_ok fs (locate env (base </> alias file)) with
  | Raise e => (Raise e, fs, [EvUnlink (base </> alias file)])
  | Ok fs1 =>
      match symlink fs1 (locate env (base </> alias file)) file with
      | Ok fs2 => (Ok tt, fs2, link_events [file])
      | Raise e => (Raise e, fs1, link_events [file])
      end
  end.
Proof.
  unfold qca_bt_link, Path_unlink, Path_symlink_to, bind, emit, update, alias. simpl.
  destruct (unlink_missing_ok _ _) as [fs1|e]; [|done].
  by destruct (symlink _ _ _) as [fs2|e].
Qed.

Lemma qca_bt_link_ok file fs fs' t :
  plain (alias file) →
  qca_bt_link env base file fs = (Ok tt, fs', t) →
  parents_ok fs (link_loc file) = Ok tt ∧
  fs' = <[link_loc file := Symlink file]> fs ∧ t = link_events [file].
Proof.
  intros Hplain. rewrite qca_bt_link_run, locate_entry by done.
  fold (link_loc file).
  destruct (unlink_missing_ok fs (link_loc file)) as [fs1|e] eqn:Hu; [|done].
  destruct (symlink fs1 (link_loc file) file) as [fs2|e] eqn:Hs; [|done].
  intros [= <- <-]. by destruct (relink_ok _ _ _ _ _ _ Hu Hs).
Qed.

Lemma qca_bt_link_raise file fs e fs' t :
  plain (alias file) →
  qca_bt_link env base file fs = (Raise e, fs', t) → fs' = fs.
Proof.
  intros Hplain. rewrite qca_bt_link_run, locate_entry by done.
  fold (link_loc file).
  destruct (unlink_missing_ok fs (link_loc file)) as [fs1|e1] eqn:Hu; [|by intros [= _ <- _]].
  destruct (symlink fs1 (link_loc file) file) as [fs2|e2] eqn:Hs; [done|].
  intros [= _ <- _]. by eapply relink_raise.
Qed.

Lemma qca_bt_link_again file fs :
  plain (alias file) →
  parents_ok fs (link_loc file) = Ok tt →
  fs !! link_loc file = Some (Symlink file) →
  qca_bt_link env base file fs = (Ok tt, fs, link_events [file]).
Proof.
  intros Hplain Hp Hk. rewrite qca_bt_link_run, locate_entry by done.
  unfold link_loc in *. destruct (relink_again _ _ _ _ Hp Hk) as [-> ->]. done.
Qed.

(** The state of the links for the files [l]: each alias is a link to its
    file, under directories that exist. *)
Definition linked (l : list string) (fs : gmap (list string) node) : Prop :=
  ∀ file, file ∈ l →
    parents_ok fs (link_loc file) = Ok tt ∧ fs !! link_loc file = Some (Symlink file).

Lemma link_loc_length f f' : length (link_loc f) = length (link_loc f').
Proof. unfold link_loc. by rewrite !length_app. Qed.

Lemma links_ok (l : list string) fs fs' t :
  Forall (λ f, plain (alias f)) l →
  NoDup (map alias l) →
  for_ l (qca_bt_link env base) fs = (Ok tt, fs', t) →
  t = link_events l ∧ linked l fs' ∧
  (∀ f, parents_ok fs' (link_loc f) = parents_ok fs (link_loc f)) ∧
  (∀ k, (∀ f, f ∈ l → k ≠ link_loc f) → fs' !! k = fs !! k).
Proof.
  revert fs t. induction l as [|f l IH]; intros fs t Hplain Hnd Hrun.
  - injection Hrun as <- <-. split_and!; [done | | done | done].
    intros file Hin. by apply elem_of_nil in Hin.
  - apply Forall_cons in Hplain as [Hf Hplain]. simpl in Hnd. apply NoDup_cons in Hnd as [Hfresh Hnd].
    simpl in Hrun. apply bind_ok_inv in Hrun as ([] & fs0 & t0 & t1 & Hstep & Hrest & ->).
    apply qca_bt_link_ok in Hstep as (Hp & -> & ->); [|done].
    destruct (IH _ _ Hplain Hnd Hrest) as (-> & Hlinked & Hpar & Hother).
    assert (∀ g, g ∈ l → link_loc f ≠ link_loc g) as Hne.
    { intros g Hg Heq. apply app_inj_tail in Heq as [_ Heq]. apply Hfresh.
      rewrite Heq. apply list_elem_of_fmap. by exists g. }
    split_and!; [done | | |].
    + intros file [->|Hin]%elem_of_cons; [|by apply Hlinked].
      rewrite Hpar, parents_ok_insert, Hp by done. split; [done|].
      rewrite Hother by done. apply lookup_insert_eq.
    + intros g. rewrite Hpar. apply parents_ok_insert. by rewrite (link_loc_length g f).
    + intros k Hk. rewrite Hother.
      * apply lookup_insert_ne. intros <-. by apply (Hk f); [apply elem_of_cons; left|].
      * intros g Hg. apply Hk. by apply elem_of_cons; right.
Qed.

Lemma links_again (l : list string) fs :
  Forall (λ f, plain (alias f)) l →
  linked l fs →
  for_ l (qca_bt_link env base) fs = (Ok tt, fs, link_events l).
Proof.
  induction l as [|f l IH]; intros Hplain Hlinked; [done|].
  apply Forall_cons in Hplain as [Hf Hplain].
  destruct (Hlinked f) as [Hp Hk]; [by apply elem_of_cons; left|].
  simpl. erewrite bind_ok by (by apply qca_bt_link_again).
  rewrite IH; [done | done |].
  intros g Hg. apply Hlinked. by apply elem_of_cons; right.
Qed.

(** A loop returns, or raises at one of its elements. *)
Lemma for_outcome {A} (l : list A) (body : A → M unit) fs r fs' t :
  for_ l body fs = (r, fs', t) →
  r = Ok tt ∨
  ∃ pre x post fs1 t1 e t2,
    l = pre ++ x :: post ∧ for_ pre body fs = (Ok tt, fs1, t1) ∧
    body x fs1 = (Raise e, fs', t2) ∧ r = Raise e ∧ t = t1 ++ t2.
Proof.
  revert fs t. induction l as [|x l IH]; intros fs t Hrun.
  - injection Hrun as <- _ _. by left.
  - simpl in Hrun. unfold bind in Hrun.
    destruct (body x fs) as [[[[]|e] fs0] t0] eqn:Hx.
    + destruct (for_ l body fs0) as [[r' fs2] t2] eqn:Hl. injection Hrun as <- <- <-.
      destruct (IH _ _ Hl) as [->|(pre & y & post & fs1 & t1 & e & t3 & -> & Hpre & Hy & -> & ->)];
        [by left|right].
      exists (x :: pre), y, post, fs1, (t0 ++ t1), e, t3. split_and!; try done.
      * simpl. by erewrite bind_ok by exact Hx; rewrite Hpre.
      * by rewrite app_assoc.
    + injection Hrun as <- <- <-. right.
      by exists [], x, l, fs, [], e, t0.
Qed.

(** Linking twice is linking once: run on the tree it has left, the loop
    repeats its outcome and leaves the tree as it is. *)
Lemma links_idempotent (l : list string) fs r fs' t :
  Forall (λ f, plain (alias f)) l →
  NoDup (map alias l) →
  for_ l (qca_bt_link env base) fs = (r, fs', t) →
  for_ l (qca_bt_link env base) fs' = (r, fs', t).
Proof.
  intros Hplain Hnd Hrun.
  destruct (for_outcome _ _ _ _ _ _ Hrun)
    as [->|(pre & x & post & fs1 & t1 & e & t2 & -> & Hpre & Hx & -> & ->)].
  - destruct (links_ok _ _ _ _ Hplain Hnd Hrun) as (-> & Hlinked & _).
    by apply links_again.
  - apply Forall_app in Hplain as [Hplain_pre [Hplain_x _]%Forall_cons].
    rewrite map_app in Hnd. apply NoDup_app in Hnd as (Hnd & _ & _).
    pose proof (qca_bt_link_raise _ _ _ _ _ Hplain_x Hx) as ->.
    destruct (links_ok _ _ _ _ Hplain_pre Hnd Hpre) as (-> & Hlinked & _).
    eapply for_raise; [by apply links_again | done].
Qed.
End Links.

Lemma qca_bt_aliases_plain : Forall (λ f, plain (alias f)) qca_bt_files.
Proof. apply (bool_decide_unpack _). vm_compute. exact I. Qed.

Lemma qca_bt_aliases_NoDup : NoDup (map alias qca_bt_files).
Proof. apply (bool_decide_unpack _). vm_compute. exact I. Qed.

Lemma links_events_prefix env base (l : list string) fs r fs' t :
  for_ l (qca_bt_link env base) fs = (r, fs', t) → t `prefix_of` link_events base l.
Proof.
  revert fs t. induction l as [|f l IH]; intros fs t Hrun.
  - by injection Hrun as _ _ <-.
  - simpl in Hrun. unfold bind in Hrun. rewrite qca_bt_link_run in Hrun.
    change (link_events base (f :: l)) with (link_events base [f] ++ link_events base l).
    destruct (unlink_missing_ok _ _) as [fs1|e].
    + destruct (symlink _ _ _) as [fs2|e].
      * destruct (for_ l _ fs2) as [[r' fs3] t3] eqn:Hl. injection Hrun as -> -> <-.
        apply (prefix_app (link_events base [f]) t3 (link_events base l)), (IH _ _ Hl).
      * injection Hrun as _ _ <-. by apply prefix_app_r.
    + injection Hrun as _ _ <-. by exists (EvSymlink (base </> alias f) f :: link_events base l).
Qed.

(** An output directory that is still empty. *)
Definition empty_out_fs : gmap (list string) node :=
  list_to_map (dirs_to ["work"; "out"] ++ [(["tmp"], Dir)]).

(** The claim as the specification words it: on any output tree, the
    second of two runs in succession raises no error, and every alias is
    after it what it was after the first. *)
Definition second_run_raises_no_error (env : Env) (log : Logger) (args : Args)
    (fs : gmap (list string) node) : Prop :=
  let once := patch_qca_bt_symlinks env log args fs in
  let twice := patch_qca_bt_symlinks env log args once.1.2 in
  twice.1.1 = Ok tt ∧
  ∀ file, file ∈ qca_bt_files →
    twice.1.2 !! locate env (path_out args </> "qca" </> replace file "21" "01")
    = once.1.2 !! locate env (path_out args </> "qca" </> replace file "21" "01").

(** C6, as stated, fails on an output tree without the directory [qca]:
    the first run raises at its first link, and the second run, on the tree
    the first has left, raises again. *)
Lemma second_run_raises_no_error_counterexample :
  ¬ second_run_raises_no_error (machine [] 0) log2 demo_args empty_out_fs.
Proof.
  intros [Hok _].
  assert ((patch_qca_bt_symlinks (machine [] 0) log2 demo_args
             (patch_qca_bt_symlinks (machine [] 0) log2 demo_args empty_out_fs).1.2).1.1
          = Raise FileNotFoundError) as Hraise by (vm_compute; reflexivity).
  rewrite Hraise in Hok. discriminate.
Qed.

(** C6, amended. The alias-symlinking patch is idempotent on the tree it
    leaves: on every tree, a second run in succession ends as the first run
    did, makes the same calls and leaves the tree as the first left it.  So
    after a first run that returned the second raises no error, each alias
    being again the link to its file; after a first run that raised, the
    second raises the same exception. *)
Theorem alias_symlinking_idempotent env log args fs r fs1 t :
  patch_qca_bt_symlinks env log args fs = (r, fs1, t) →
  patch_qca_bt_symlinks env log args fs1 = (r, fs1, t) ∧
  (r = Ok tt →
   ∀ file, file ∈ qca_bt_files →
     fs1 !! locate env (path_out args </> "qca" </> replace file "21" "01")
     = Some (Symlink file)).
Proof.
  unfold patch_qca_bt_symlinks. intros Hrun. split.
  - exact (links_idempotent _ _ _ _ _ _ _ qca_bt_aliases_plain qca_bt_aliases_NoDup Hrun).
  - intros -> file Hin.
    destruct (links_ok _ _ _ _ _ _ qca_bt_aliases_plain qca_bt_aliases_NoDup Hrun)
      as (_ & Hlinked & _).
    rewrite locate_entry; [by apply Hlinked|].
    pose proof qca_bt_aliases_plain as Hplain. rewrite Forall_forall in Hplain.
    by apply Hplain.
Qed.

Lemma alias_symlinking_idempotent_witness :
  let once := patch_qca_bt_symlinks (machine [] 0) log2 demo_args gathered_fs in
  patch_qca_bt_symlinks (machine [] 0) log2 demo_args once.1.2 = (Ok tt, once.1.2, once.2).
Proof.
  intros once.
  apply (alias_symlinking_idempotent (machine [] 0) log2 demo_args gathered_fs).
  apply run_eta. vm_compute. reflexivity.
Defined.

(** C9. In the alias-symlinking patch the calls are, file by file of the
    fixed list, the removal of the path [qca/<alias>] under the output
    directory and the creation of a link there, where the alias is the file
    name with ["21"] replaced by ["01"] and the target of the link is the
    file name itself, one relative component; a run makes a prefix of these
    calls, and all of them when it returns, each alias then being such a
    link. *)
Theorem alias_links_name_the_sibling env log args fs r fs' t :
  patch_qca_bt_symlinks env log args fs = (r, fs', t) →
  let base := path_out args </> "qca" in
  let calls := flat_map (λ file, [EvUnlink (base </> replace file "21" "01");
                                  EvSymlink (base </> replace file "21" "01") file])
                 qca_bt_files in
  t `prefix_of` calls ∧
  (r = Ok tt →
   t = calls ∧
   ∀ file, file ∈ qca_bt_files →
     fs' !! locate env (base </> replace file "21" "01") = Some (Symlink file)) ∧
  map (λ file, replace file "21" "01") qca_bt_files
  = ["crbtfw01.tlv"; "crnv01.b3c"; "crnv01.b44"; "crnv01.b45"; "crnv01.b46"; "crnv01.b47";
     "crnv01.b71"; "crnv01.bin"] ∧
  Forall (λ file, Path_of file = mkPath "" [file]) qca_bt_files.
Proof.
  intros Hrun base calls. unfold patch_qca_bt_symlinks in Hrun. split_and!.
  - by eapply links_events_prefix.
  - intros ->.
    destruct (links_ok _ _ _ _ _ _ qca_bt_aliases_plain qca_bt_aliases_NoDup Hrun)
      as (-> & Hlinked & _).
    split; [done|]. intros file Hin.
    rewrite locate_entry; [by apply Hlinked|].
    pose proof qca_bt_aliases_plain as Hplain. rewrite Forall_forall in Hplain.
    by apply Hplain.
  - reflexivity.
  - by repeat constructor.
Qed.

Lemma alias_links_name_the_sibling_witness :
  let run := patch_qca_bt_symlinks (machine [] 0) log2 demo_args gathered_fs in
  run.1.2 !! locate (machine [] 0) (path_out demo_args </> "qca" </> "crnv01.bin")
  = Some (Symlink "crnv21.bin").
Proof.
  intros run.
  destruct (alias_links_name_the_sibling (machine [] 0) log2 demo_args gathered_fs
              (Ok tt) run.1.2 run.2) as (_ & H & _).
  - apply run_eta. vm_compute. reflexivity.
  - destruct (H eq_refl) as [_ Hlinks]. apply (Hlinks "crnv21.bin").
    apply (bool_decide_unpack _). vm_compute. exact I.
Defined.

(** ** The indexed re-encoding *)

Lemma write_file_ok (fs fs' : gmap (list string) node) k data :
  write_file fs k data = Ok fs' →
  parents_ok fs k = Ok tt ∧ k ≠ [] ∧ stat fs k ≠ Some Dir ∧ fs' = <[k := File data]> fs.
Proof.
  unfold write_file. destruct (parents_ok fs k) as [[]|]; [|done].
  destruct k as [|c k]; [done|]. simpl.
  destruct (fs !! (c :: k)) as [[]|]; intros [= <-]; by split_and!.
Qed.

Lemma write_file_again (fs : gmap (list string) node) k old data :
  parents_ok fs k = Ok tt → k ≠ [] → fs !! k = Some (File old) →
  write_file fs k data = Ok (<[k := File data]> fs).
Proof.
  intros Hp Hk Hold. unfold write_file. rewrite Hp.
  destruct k; [done|]. simpl. by rewrite Hold.
Qed.

Lemma rmtree_ok (fs fs' : gmap (list string) node) k :
  rmtree fs k = Ok fs' →
  fs !! k = Some Dir ∧ fs' = filter (λ kv, ¬ below k kv) fs ∧
  ∀ k', k `prefix_of` k' → fs' !! k' = None.
Proof.
  unfold rmtree. destruct (parents_ok fs k) as [[]|]; [|done].
  destruct (fs !! k) as [[]|] eqn:Hk; try done.
  intros [= <-]. split_and!; [done | done |].
  intros k' Hpre. apply map_lookup_filter_None. right. intros v _ Hnot.
  by apply Hnot.
Qed.

(** The check of the directories above a location reads the locations
    above it only. *)
Lemma chain_agree_above (fs fs' : gmap (list string) node) above todo :
  (∀ n, (n < length todo)%nat →
        stat fs (above ++ take n todo) = stat fs' (above ++ take n todo)) →
  chain fs above todo = chain fs' above todo.
Proof.
  revert above. induction todo as [|c todo IH]; intros above H; [done|].
  simpl. pose proof (H 0%nat) as H0. simpl in H0. rewrite app_nil_r in H0.
  rewrite <- H0 by lia. destruct (stat fs above) as [[]|]; try done.
  apply IH. intros n Hn. rewrite <- app_assoc. apply (H (S n)). simpl. lia.
Qed.

Lemma unlink_ignored_other (fs : gmap (list string) node) k k' :
  k' ≠ k → unlink_ignored fs k !! k' = fs !! k'.
Proof.
  intros Hne. unfold unlink_ignored, unlink_missing_ok.
  destruct (parents_ok fs k) as [[]|[]]; try done.
  destruct (stat fs k) as [[]|]; try done; by rewrite lookup_delete_ne.
Qed.

Lemma unlink_ignored_missing (fs : gmap (list string) node) k k' :
  fs !! k' = None → unlink_ignored fs k !! k' = None.
Proof.
  intros Hk'. destruct (decide (k' = k)) as [->|Hne]; [|by rewrite unlink_ignored_other].
  unfold unlink_ignored, unlink_missing_ok.
  destruct (parents_ok fs k) as [[]|[]]; try done.
  destruct (stat fs k) as [[]|]; try done; by rewrite lookup_delete_eq.
Qed.

Lemma unlink_ignored_gone (fs : gmap (list string) node) k :
  parents_ok fs k = Ok tt → stat fs k ≠ Some Dir → unlink_ignored fs k !! k = None.
Proof.
  intros Hp Hs. unfold unlink_ignored, unlink_missing_ok. rewrite Hp.
  destruct k as [|c k]; [done|]. simpl in *.
  destruct (fs !! (c :: k)) as [[]|] eqn:Hk; try done; by rewrite lookup_delete_eq.
Qed.

Lemma append_assoc (a b c : string) : (a +:+ b) +:+ c = a +:+ (b +:+ c).
Proof.
  induction a as [|x a IH]; [done|].
  change (String x ((a +:+ b) +:+ c) = String x (a +:+ (b +:+ c))). by rewrite IH.
Qed.

Section Board.
Context (env : Env) (args : Args).

Definition board_dir : Path :=
  resolve env (path_out args) </> "ath10k" </> "WCN3990" </> "hw1.0" </> "boards".
Definition board_out : Path :=
  resolve env (path_out args) </> "ath10k" </> "WCN3990" </> "hw1.0" </> "board-2.bin".
Definition board_encoder : Path :=
  PATH_THIRDPARTY env </> "qca-swiss-army-knife" </> "tools" </> "scripts"
    </> "ath10k" </> "ath10k-bdencoder".

(** The specification handed to the encoder: one record, naming one data
    file and one board name. *)
Definition board_spec_text : string :=
  json_dumps
    (JArray [JObject [("data", JString (str (board_dir </> "bdwlan.b58")));
                      ("names",
                       JArray [JString "bus=snoc,qmi-board-id=ff,qmi-chip-id=30224"])]]).

Definition board_argv (file : string) : list string :=
  ["python"; str board_encoder; "-c"; file; "-o"; str board_out].

Definition board_calls (file : string) : list event :=
  [EvTempfile file; EvDump file board_spec_text; EvCall (board_argv file);
   EvRmtree board_dir].

Lemma patch_ath10k_board_run log fs :
  patch_ath10k_board env log args fs =
  let file := mktemp env fs in
  let loc := locate env (Path_of file) in
  match write_file fs loc "" with
  | Raise e => (Raise e, fs, take 1 (board_calls file))
  | Ok fs1 =>
      match write_file fs1 loc board_spec_text with
      | Raise e => (Raise e, fs1, take 2 (board_calls file))
      | Ok fs2 =>
          match spawn env (board_argv file) fs2 with
          | Raise e => (Raise e, fs2, take 3 (board_calls file))
          | Ok (fs3, _) =>
              match rmtree fs3 (locate env board_dir) with
              | Raise e => (Raise e, fs3, board_calls file)
              | Ok fs4 => (Ok tt, unlink_ignored fs4 loc, board_calls file)
              end
          end
      end
  end.
Proof.
  unfold patch_ath10k_board, NamedTemporaryFile, NamedTemporaryFile_del, write_text,
    subprocess_call, shutil_rmtree, bind, emit, update.
  fold board_dir board_out board_encoder. unfold board_calls.
  change (json_dumps (ath10k_spec board_dir)) with board_spec_text.
  generalize board_spec_text. intros text. simpl.
  destruct (write_file fs _ "") as [fs1|e]; [|done].
  destruct (write_file fs1 _ text) as [fs2|e]; [|done].
  unfold board_argv.
  destruct (spawn env _ fs2) as [[fs3 code]|e]; [|done].
  by destruct (rmtree fs3 _) as [fs4|e].
Qed.

(** What a returning run leaves of the tree the encoder has left: the
    boards directory is gone, the temporary file is gone, the rest is as
    the encoder left it. *)
Lemma board_cleanup (fs3 fs4 : gmap (list string) node) tmp :
  rmtree fs3 (locate env board_dir) = Ok fs4 →
  let fs' := unlink_ignored fs4 tmp in
  fs3 !! locate env board_dir = Some Dir ∧
  (∀ k, locate env board_dir `prefix_of` k → fs' !! k = None) ∧
  (∀ k, ¬ locate env board_dir `prefix_of` k → k ≠ tmp → fs' !! k = fs3 !! k) ∧
  (parents_ok fs3 tmp = Ok tt → stat fs3 tmp ≠ Some Dir → fs' !! tmp = None).
Proof.
  intros Hrm fs'. apply rmtree_ok in Hrm as (Hdir & -> & Hgone).
  set (K := locate env board_dir) in *.
  assert (∀ k, ¬ K `prefix_of` k →
            filter (λ kv, ¬ below K kv) fs3 !! k = fs3 !! k) as Hkeep.
  { intros k Hk. destruct (fs3 !! k) as [v|] eqn:Hv.
    - by apply map_lookup_filter_Some.
    - apply map_lookup_filter_None. by left. }
  split_and!; [done | | |].
  - intros k Hk. apply unlink_ignored_missing, Hgone, Hk.
  - intros k Hk Hne. unfold fs'. by rewrite unlink_ignored_other, Hkeep.
  - intros Hp Hs. destruct (decide (K `prefix_of` tmp)) as [Hin|Hout].
    + apply unlink_ignored_missing, Hgone, Hin.
    + apply unlink_ignored_gone.
      * rewrite <- Hp. unfold parents_ok. apply chain_agree_above. intros n Hn. simpl.
        destruct (take n tmp) as [|c p] eqn:Htake; [done|]. simpl. apply Hkeep.
        intros Hpre. apply Hout. etrans; [exact Hpre|].
        rewrite <- Htake. apply prefix_take.
      * destruct tmp as [|c tmp]; [done|]. simpl in *. by rewrite Hkeep.
Qed.
End Board.

(** C7. The indexed re-encoding patch makes its calls in one order: the
    temporary file, the dump of the specification, the encoder, the removal
    of the boards directory.  The specification is the serialisation of a
    list of exactly one record (the board file [bdwlan.b58] of the boards
    directory under the one board name), that is, the text
    [[{"data": "<boards>/bdwlan.b58", "names": ["bus=snoc,qmi-board-id=ff,qmi-chip-id=30224"]}]].
    In a run that returns, the temporary file holds exactly this text when
    the encoder is started (the rest of the tree being as the patch found
    it), the encoder is started on that file with [-c] and on [board-2.bin]
    with [-o], and afterwards the boards directory and everything in it is
    gone; the temporary file, where the encoder has left it in place, is
    gone too, and nothing else of what the encoder left has changed. *)
Theorem board_reencoding_dumps_encodes_removes env log args fs r fs' t :
  patch_ath10k_board env log args fs = (r, fs', t) →
  let file := mktemp env fs in
  let boards :=
    resolve env (path_out args) </> "ath10k" </> "WCN3990" </> "hw1.0" </> "boards" in
  let output :=
    resolve env (path_out args) </> "ath10k" </> "WCN3990" </> "hw1.0" </> "board-2.bin" in
  let encoder :=
    PATH_THIRDPARTY env </> "qca-swiss-army-knife" </> "tools" </> "scripts"
      </> "ath10k" </> "ath10k-bdencoder" in
  let text :=
    json_dumps
      (JArray [JObject [("data", JString (str (boards </> "bdwlan.b58")));
                        ("names",
                         JArray [JString "bus=snoc,qmi-board-id=ff,qmi-chip-id=30224"])]]) in
  let quote := String (ascii_of_nat 34) "" in
  let argv := ["python"; str encoder; "-c"; file; "-o"; str output] in
  let calls := [EvTempfile file; EvDump file text; EvCall argv; EvRmtree boards] in
  text = "[{" +:+ quote +:+ "data" +:+ quote +:+ ": "
         +:+ quote +:+ json_escape (str (boards </> "bdwlan.b58")) +:+ quote
         +:+ ", " +:+ quote +:+ "names" +:+ quote +:+ ": ["
         +:+ quote +:+ "bus=snoc,qmi-board-id=ff,qmi-chip-id=30224" +:+ quote +:+ "]}]" ∧
  t `prefix_of` calls ∧
  (r = Ok tt →
   t = calls ∧
   ∃ fs_in fs_out status,
     fs_in !! locate env (Path_of file) = Some (File text) ∧
     (∀ k, k ≠ locate env (Path_of file) → fs_in !! k = fs !! k) ∧
     spawn env argv fs_in = Ok (fs_out, status) ∧
     fs_out !! locate env boards = Some Dir ∧
     (∀ k, locate env boards `prefix_of` k → fs' !! k = None) ∧
     (∀ k, ¬ locate env boards `prefix_of` k → k ≠ locate env (Path_of file) →
           fs' !! k = fs_out !! k) ∧
     (parents_ok fs_out (locate env (Path_of file)) = Ok tt →
      stat fs_out (locate env (Path_of file)) ≠ Some Dir →
      fs' !! locate env (Path_of file) = None)).
Proof.
  intros Hrun file boards output encoder text quote argv calls.
  split.
  { unfold text, json_dumps, json_quote. fold quote.
    generalize (json_escape (str (boards </> "bdwlan.b58"))). intros path.
    change (json_escape "data") with "data".
    change (json_escape "names") with "names".
    change (json_escape "bus=snoc,qmi-board-id=ff,qmi-chip-id=30224")
      with "bus=snoc,qmi-board-id=ff,qmi-chip-id=30224".
    generalize quote. intros q.
    rewrite !append_assoc. reflexivity. }
  rewrite patch_ath10k_board_run in Hrun. cbv zeta in Hrun.
  change (board_calls env args (mktemp env fs)) with calls in Hrun.
  change (board_argv env args (mktemp env fs)) with argv in Hrun.
  change (board_spec_text env args) with text in Hrun.
  change (board_dir env args) with boards in Hrun.
  fold file in Hrun. clearbody text.
  destruct (write_file fs _ "") as [fs1|e] eqn:H1;
    [|injection Hrun as <- _ <-; split; [by eexists | done]].
  destruct (write_file fs1 _ text) as [fs2|e] eqn:H2;
    [|injection Hrun as <- _ <-; split; [by eexists | done]].
  destruct (spawn env argv fs2) as [[fs3 code]|e] eqn:H3;
    [|injection Hrun as <- _ <-; split; [by eexists | done]].
  destruct (rmtree fs3 _) as [fs4|e] eqn:H4;
    [|injection Hrun as <- _ <-; split; [done | done]].
  injection Hrun as <- <- <-. split; [done|]. intros _. split; [done|].
  apply write_file_ok in H1 as (_ & _ & _ & ->).
  apply write_file_ok in H2 as (_ & Hloc & _ & ->).
  destruct (board_cleanup env args fs3 fs4 (locate env (Path_of file)) H4)
    as (Hdir & Hgone & Hkeep & Htmp).
  exists (<[locate env (Path_of file) := File text]>
            (<[locate env (Path_of file) := File ""]> fs)), fs3, code.
  split_and!; [| | done | done | done | done | done].
  - apply lookup_insert_eq.
  - intros k Hk. by rewrite !lookup_insert_ne.
Qed.

Lemma board_reencoding_dumps_encodes_removes_witness :
  let run := patch_ath10k_board (machine [] 0) log2 demo_args gathered_fs in
  let quote := String (ascii_of_nat 34) "" in
  let text := "[{" +:+ quote +:+ "data" +:+ quote +:+ ": "
              +:+ quote +:+ "/work/out/ath10k/WCN3990/hw1.0/boards/bdwlan.b58" +:+ quote
              +:+ ", " +:+ quote +:+ "names" +:+ quote +:+ ": ["
              +:+ quote +:+ "bus=snoc,qmi-board-id=ff,qmi-chip-id=30224" +:+ quote
              +:+ "]}]" in
  run.2 = [EvTempfile "/tmp/tmpk3x9q";
           EvDump "/tmp/tmpk3x9q" text;
           EvCall ["python";
                   "/opt/fw/scripts/third-party/qca-swiss-army-knife/tools/scripts/ath10k/ath10k-bdencoder";
                   "-c"; "/tmp/tmpk3x9q"; "-o";
                   "/work/out/ath10k/WCN3990/hw1.0/board-2.bin"];
           EvRmtree (Path_of "/work/out/ath10k/WCN3990/hw1.0/boards")] ∧
  run.1.2 !! ["work"; "out"; "ath10k"; "WCN3990"; "hw1.0"; "boards"; "bdwlan.b58"] = None ∧
  run.1.2 !! ["tmp"; "tmpk3x9q"] = None.
Proof.
  intros run quote text.
  destruct (board_reencoding_dumps_encodes_removes (machine [] 0) log2 demo_args gathered_fs
              (Ok tt) run.1.2 run.2) as (_ & _ & H).
  - apply run_eta. vm_compute. reflexivity.
  - destruct (H eq_refl)
      as (Ht & fs_in & fs_out & status & Hfile & Hrest & Hspawn & _ & Hgone & _ & Htmp).
    change (Ok (fs_in, 0%Z) = Ok (fs_out, status)) in Hspawn. injection Hspawn as <- _.
    change (locate (machine [] 0) (Path_of (mktemp (machine [] 0) gathered_fs)))
      with ["tmp"; "tmpk3x9q"] in *.
    split_and!.
    + exact Ht.
    + apply Hgone. by exists ["bdwlan.b58"].
    + apply Htmp.
      * unfold parents_ok. cbn [chain stat app]. by rewrite (Hrest ["tmp"]).
      * cbn [stat]. by rewrite Hfile.
Defined.

(** ** Remote fetch *)

Lemma stat_mono (fs fs' : gmap (list string) node) k v :
  fs ⊆ fs' → stat fs k = Some v → stat fs' k = Some v.
Proof. intros Hsub. destruct k; [done|]. simpl. intros H. by eapply lookup_weaken. Qed.

(** After [mkdirs] every directory on the way exists, and nothing that was
    there has changed. *)
Lemma mkdirs_ok (fs fs' : gmap (list string) node) above todo :
  mkdirs fs above todo = Ok fs' →
  stat fs above = Some Dir →
  fs ⊆ fs' ∧ ∀ n, stat fs' (above ++ take n todo) = Some Dir.
Proof.
  revert fs above. induction todo as [|c todo IH]; intros fs above Hrun Habove.
  - injection Hrun as <-. split; [done|]. intros n. by rewrite take_nil, app_nil_r.
  - simpl in Hrun. destruct (fs !! (above ++ [c])) as [[]|] eqn:Hd; try done.
    + destruct todo; done.
    + destruct (IH _ _ Hrun) as [Hsub Hdirs]; [by rewrite stat_entry|].
      split; [done|]. intros [|n]; simpl.
      * rewrite app_nil_r. by eapply stat_mono.
      * rewrite (cons_middle c), app_assoc. apply Hdirs.
    + destruct todo; done.
    + destruct (IH _ _ Hrun) as [Hsub Hdirs]; [by rewrite stat_entry, lookup_insert_eq|].
      assert (fs ⊆ fs') as Hsub'.
      { etrans; [|exact Hsub]. by apply insert_subseteq. }
      split; [done|]. intros [|n]; simpl.
      * rewrite app_nil_r. by eapply stat_mono.
      * rewrite (cons_middle c), app_assoc. apply Hdirs.
Qed.

Section Fetch.
Context (env : Env) (target_directory : Path) (source_url : string)
        (log : Logger) (args : Args).

Definition fetch_target (t : string) : Path := path_out args <//> target_directory </> t.

Definition fetch_calls (st : string * string) : list event :=
  [EvMkdir (Path_parent (fetch_target st.2));
   EvPrint (pfx log +:+ "downloading '" +:+ (source_url +:+ "/" +:+ st.1) +:+ "' to '"
            +:+ str (target_directory </> st.2) +:+ "'");
   EvUrlretrieve (source_url +:+ "/" +:+ st.1) (fetch_target st.2)].

(** One pair of the file map, when its retrieval returns. *)
Lemma DownloadFirmware_fetch_ok s t fs fs' ev :
  DownloadFirmware_fetch env target_directory source_url log args (s, t) fs = (Ok tt, fs', ev) →
  ev = fetch_calls (s, t) ∧
  ∃ data,
    fetch env (source_url +:+ "/" +:+ s) = Ok data ∧
    fs' !! locate env (fetch_target t) = Some (File data) ∧
    ∀ p, p `prefix_of` locate env (Path_parent (fetch_target t)) → stat fs' p = Some Dir.
Proof.
  unfold DownloadFirmware_fetch, Path_mkdir, Logger_info, urlretrieve, bind, emit, update, lift.
  fold (fetch_target t).
  destruct (mkdirs fs [] _) as [fs1|e] eqn:Hmk; [|done].
  destruct (fetch env _) as [data|e] eqn:Hfetch;
    [|by destruct (received env _); [destruct (write_file fs1 _ _)|]].
  destruct (write_file fs1 _ data) as [fs2|e] eqn:Hw; [|done].
  intros [= <- <-]. split; [done|]. exists data.
  apply write_file_ok in Hw as (_ & Hne & Hnodir & ->).
  apply mkdirs_ok in Hmk as [_ Hdirs]; [|done].
  split_and!; [done | apply lookup_insert_eq |].
  intros p [q Hq]. rewrite stat_insert_ne.
  - specialize (Hdirs (length p)). rewrite Hq, take_app_length in Hdirs. exact Hdirs.
  - intros ->. apply Hnodir.
    specialize (Hdirs (length (locate env (fetch_target t)))).
    by rewrite Hq, take_app_length in Hdirs.
Qed.
End Fetch.

(** C8. In a retrieval of a remote-fetch source that returns, every pair
    [(s, t)] of the file map has been handled in turn, after the pairs
    before it: the parent directory of [output/target_directory/t] was
    created with its missing ancestors, the resource at
    [source_url + "/" + s] was retrieved, and its content was written to
    [output/target_directory/t]; these calls, with the log line, are all
    the retrieval does for the pair. *)
Theorem remote_fetch_retrieves_each_pair env td url files log args fs fs' t :
  DownloadFirmware_get env td url files log args fs = (Ok tt, fs', t) →
  ∀ pre s tn post, files = pre ++ (s, tn) :: post →
    let target := path_out args <//> td </> tn in
    let calls :=
      [EvMkdir (Path_parent target);
       EvPrint (pfx log +:+ "downloading '" +:+ (url +:+ "/" +:+ s) +:+ "' to '"
                +:+ str (td </> tn) +:+ "'");
       EvUrlretrieve (url +:+ "/" +:+ s) target] in
    ∃ fs1 t1 fs2 t3 data,
      DownloadFirmware_get env td url pre log args fs = (Ok tt, fs1, t1) ∧
      DownloadFirmware_fetch env td url log args (s, tn) fs1 = (Ok tt, fs2, calls) ∧
      DownloadFirmware_get env td url post log args fs2 = (Ok tt, fs', t3) ∧
      t = t1 ++ calls ++ t3 ∧
      fetch env (url +:+ "/" +:+ s) = Ok data ∧
      fs2 !! locate env target = Some (File data) ∧
      ∀ p, p `prefix_of` locate env (Path_parent target) → stat fs2 p = Some Dir.
Proof.
  intros Hrun pre s tn post -> target calls. unfold DownloadFirmware_get in *.
  apply for_ok_split in Hrun as (fs1 & t1 & fs2 & t2 & t3 & Hpre & Hstep & Hpost & ->).
  destruct (DownloadFirmware_fetch_ok _ _ _ _ _ _ _ _ _ _ Hstep) as (-> & data & Hfetch & Hfile & Hdirs).
  by exists fs1, t1, fs2, t3, data.
Qed.

Lemma remote_fetch_retrieves_each_pair_witness :
  let run := DownloadFirmware_get (machine [] 0) (Path_of "ath10k/WCN3990/hw1.0")
               (URL_LINUX_FIRMWARE_REPO +:+ "/ath10k/WCN3990/hw1.0")
               [("firmware-5.bin", "firmware-5.bin")] log2 demo_args (store_fs []) in
  ∃ data,
    fetch (machine [] 0)
      "https://git.kernel.org/pub/scm/linux/kernel/git/firmware/linux-firmware.git/plain/ath10k/WCN3990/hw1.0/firmware-5.bin"
    = Ok data ∧
    run.1.2 !! ["work"; "out"; "ath10k"; "WCN3990"; "hw1.0"; "firmware-5.bin"] = Some (File data).
Proof.
  intros run.
  assert (run = (Ok tt, run.1.2, run.2)) as Hrun by (apply run_eta; vm_compute; reflexivity).
  destruct (remote_fetch_retrieves_each_pair (machine [] 0) (Path_of "ath10k/WCN3990/hw1.0")
              (URL_LINUX_FIRMWARE_REPO +:+ "/ath10k/WCN3990/hw1.0")
              [("firmware-5.bin", "firmware-5.bin")] log2 demo_args (store_fs [])
              run.1.2 run.2 Hrun [] "firmware-5.bin" "firmware-5.bin" [] eq_refl)
    as (fs1 & t1 & fs2 & t3 & data & _ & _ & Hpost & _ & Hfetch & Hfile & _).
  exists data. split; [exact Hfetch|].
  injection Hpost as <- _. exact Hfile.
Defined.

(** * Further properties of the script *)

(** ** The order of a normalised file map *)

Lemma dict_set_identity (ks : list string) x :
  dict_set (map (λ y, (y, y)) ks) x x
  = if decide (x ∈ ks) then map (λ y, (y, y)) ks else map (λ y, (y, y)) (ks ++ [x]).
Proof.
  induction ks as [|k ks IH].
  - destruct (decide (x ∈ [])) as [Hin|_]; [by apply elem_of_nil in Hin | done].
  - cbn [map dict_set]. destruct (String.eqb_spec k x) as [->|Hne].
    + destruct (decide (x ∈ x :: ks)) as [_|Hn]; [done|]. destruct Hn. by apply elem_of_cons; left.
    + rewrite IH. destruct (decide (x ∈ ks)) as [Hin|Hin];
        destruct (decide (x ∈ k :: ks)) as [Hin'|Hin']; try done.
      * destruct Hin'. by apply elem_of_cons; right.
      * apply elem_of_cons in Hin' as [->|?]; done.
Qed.

(** X1. The map a list of names is normalised to holds the names in the
    order of their first occurrence in the list, each bound to itself: the
    files of a source are retrieved in the order in which they are
    declared. *)
Theorem filemap_keeps_first_occurrences (l : list string) :
  _filemap (FilesList l) = Ok (map (λ x, (x, x)) (reverse (remove_dups (reverse l)))).
Proof.
  cbn [_filemap]. f_equal. induction l as [|x l IH] using rev_ind; [done|].
  rewrite fold_left_app. cbn [fold_left]. rewrite IH, dict_set_identity, reverse_snoc.
  cbn [remove_dups].
  destruct (decide_rel elem_of x (reverse l)) as [Hin|Hin];
    destruct (decide (x ∈ reverse (remove_dups (reverse l)))) as [Hin'|Hin'];
    rewrite ?reverse_cons; try done.
  - destruct Hin'. by rewrite elem_of_reverse, elem_of_remove_dups.
  - destruct Hin. by rewrite elem_of_reverse, elem_of_remove_dups in Hin'.
Qed.

(** ** Local copy *)

Lemma read_file_ok (fs : gmap (list string) node) k data :
  read_file fs k = Ok data → parents_ok fs k = Ok tt ∧ k ≠ [] ∧ fs !! k = Some (File data).
Proof.
  unfold read_file. destruct (parents_ok fs k) as [[]|]; [|done].
  destruct k as [|c k]; [done|]. cbn [stat].
  destruct (fs !! (c :: k)) as [[]|]; intros [= <-]; by split_and!.
Qed.

(** [mkdirs] adds directories and nothing else. *)
Lemma mkdirs_only_dirs (fs fs' : gmap (list string) node) above todo :
  mkdirs fs above todo = Ok fs' →
  ∀ k v, fs' !! k = Some v → fs !! k = Some v ∨ v = Dir.
Proof.
  revert fs above. induction todo as [|c todo IH]; intros fs above Hrun k v Hk.
  - injection Hrun as <-. by left.
  - cbn [mkdirs] in Hrun. destruct (fs !! (above ++ [c])) as [[]|] eqn:Hd.
    + by destruct todo.
    + by eapply IH.
    + by destruct todo.
    + destruct (IH _ _ Hrun k v Hk) as [Hin|?]; [|by right].
      destruct (decide (k = above ++ [c])) as [->|Hne].
      * rewrite lookup_insert_eq in Hin. injection Hin as <-. by right.
      * rewrite lookup_insert_ne in Hin by done. by left.
Qed.

(** The tree [fs'] is the tree [fs] with, at most, directories added. *)
Definition only_dirs_added (fs fs' : gmap (list string) node) : Prop :=
  fs ⊆ fs' ∧ ∀ k v, fs' !! k = Some v → fs !! k = Some v ∨ v = Dir.

Lemma mkdirs_only_dirs_added (fs fs' : gmap (list string) node) k :
  mkdirs fs [] k = Ok fs' → only_dirs_added fs fs'.
Proof.
  intros H. split; [by apply (mkdirs_ok _ _ _ _ H) | by eapply mkdirs_only_dirs].
Qed.

Lemma only_dirs_added_lookup (fs fs' : gmap (list string) node) k :
  only_dirs_added fs fs' →
  fs' !! k = fs !! k ∨ (fs !! k = None ∧ fs' !! k = Some Dir).
Proof.
  intros [Hsub Hdirs]. destruct (fs !! k) as [v|] eqn:Hk.
  - left. by eapply lookup_weaken.
  - destruct (fs' !! k) as [v'|] eqn:Hk'; [|by left].
    destruct (Hdirs _ _ Hk') as [?|Hv]; [congruence | subst v'; by right].
Qed.


(** [copyfile] when it returns, and when it raises: it has then left the
    tree as it was, or the destination with what had been written. *)
Lemma copyfile_ok (env : Env) (src dst : list string) (fs fs' : gmap (list string) node) t :
  copyfile env src dst fs = (Ok tt, fs', t) →
  t = [] ∧
  ∃ data, fs !! src = Some (File data) ∧ src ≠ dst ∧ fs' = <[dst := File data]> fs.
Proof.
  unfold copyfile. case_bool_decide as Hsame; [done|].
  destruct (read_file fs src) as [data|e] eqn:Hread; [|done].
  apply read_file_ok in Hread as (_ & Hne & Hsrc).
  assert (src ≠ dst) as Hdiff.
  { intros Heq. apply Hsame. split; [done|].
    destruct src as [|c k]; [done|]. cbn [stat]. by rewrite Hsrc. }
  destruct (copy_fault env src dst) as [[n e]|].
  - by destruct (write_file fs dst _).
  - destruct (write_file fs dst data) as [fs2|e] eqn:Hw; [|done].
    apply write_file_ok in Hw as (_ & _ & _ & ->).
    intros [= <- <-]. split; [done|]. by exists data.
Qed.


(** A copy that returns has read the source and written its content to the
    destination, or into the destination under the name of the source when
    the destination is a directory; the source is another file and stays. *)
Lemma shutil_copy_ok env src dst fs fs' t :
  shutil_copy env src dst fs = (Ok tt, fs', t) →
  t = [EvCopy src dst] ∧
  ∃ data,
    fs !! locate env src = Some (File data) ∧
    fs' !! locate env src = Some (File data) ∧
    fs' !! locate env (if is_dir fs (locate env dst) then dst </> Path_name src else dst)
    = Some (File data).
Proof.
  unfold shutil_copy, copymode, bind, emit, query, lift. cbn [app].
  set (dest := if is_dir fs (locate env dst) then dst </> Path_name src else dst).
  destruct (copyfile env (locate env src) (locate env dest) fs) as [[[[]|e] fs1] t1] eqn:Hcopy;
    [|done].
  apply copyfile_ok in Hcopy as (-> & data & Hsrc & Hdiff & ->).
  destruct (chmod env (locate env dest)) as [[]|e]; [|done].
  intros [= <- <-]. split; [done|]. exists data.
  split_and!; [done | by rewrite lookup_insert_ne | apply lookup_insert_eq].
Qed.


Section Copy.
Context (env : Env) (target_directory : Path) (log : Logger) (args : Args).

Definition copy_target (t : string) : Path := path_out args <//> target_directory </> t.

Definition copy_calls (b : Path) (st : string * string) : list event :=
  [EvMkdir (Path_parent (copy_target st.2));
   EvPrint (pfx log +:+ "copying '" +:+ str (b </> st.1) +:+ "' to '"
            +:+ str (target_directory </> st.2) +:+ "'");
   EvCopy (b </> st.1) (copy_target st.2)].

Lemma WindowsDriverFirmware_copy_ok base s t fs fs' ev :
  WindowsDriverFirmware_copy env target_directory base log args (s, t) fs = (Ok tt, fs', ev) →
  ∃ b data,
    base = Some b ∧ ev = copy_calls b (s, t) ∧
    fs !! locate env (b </> s) = Some (File data) ∧
    fs' !! locate env (b </> s) = Some (File data) ∧
    (fs' !! locate env (copy_target t) = Some (File data) ∨
     fs' !! locate env (copy_target t </> Path_name (b </> s)) = Some (File data)) ∧
    ∀ p, p `prefix_of` locate env (Path_parent (copy_target t)) → stat fs' p = Some Dir.
Proof.
  unfold WindowsDriverFirmware_copy. fold (copy_target t).
  destruct base as [b|]; [|done]. cbn [div_base].
  unfold bind at 1. unfold lift.
  unfold Path_mkdir, Logger_info, bind, emit, update.
  destruct (mkdirs fs [] _) as [fs1|e] eqn:Hmk; [|done].
  destruct (shutil_copy env (b </> s) (copy_target t) fs1) as [[[[]|e] fs2] t2] eqn:Hcopy; [|done].
  intros [= <- <-].
  destruct (shutil_copy_ok _ _ _ _ _ _ Hcopy) as (-> & data & Hsrc & Hsrc' & Hdst).
  exists b, data. split_and!; [done | done | | done | |].
  - destruct (mkdirs_only_dirs _ _ _ _ Hmk _ _ Hsrc) as [?|?]; done.
  - by destruct (is_dir fs1 _); [right | left].
  - intros p [q Hq].
    destruct (mkdirs_ok _ _ _ _ Hmk eq_refl) as [_ Hdirs].
    specialize (Hdirs (length p)). rewrite Hq, take_app_length in Hdirs. cbn [app] in Hdirs.
    revert Hcopy. unfold shutil_copy, copymode, copyfile, bind, emit, query, lift.
    case_bool_decide; [done|].
    destruct (read_file fs1 _) as [d|]; [|done].
    destruct (copy_fault env _ _) as [[n e]|]; [by destruct (write_file fs1 _ _)|].
    destruct (write_file fs1 _ d) as [fs3|] eqn:Hw; [|done].
    destruct (chmod env _) as [[]|]; [|done]. intros [= <-].
    apply write_file_ok in Hw as (_ & _ & Hnodir & ->).
    rewrite stat_insert_ne; [done|]. intros ->. by apply Hnodir.
Qed.
End Copy.

(** X2. In a retrieval of a local-copy source that returns, every pair
    [(s, t)] of the file map has been handled in turn, after the pairs
    before it, from one directory of the driver store whose name starts
    with the prefix: the file [s] of that directory was read, the parent
    directories of [output/target_directory/t] exist, and the content read
    stands at [output/target_directory/t] (or, where that path is a
    directory, in it under the name of the source file); the source file is
    still there. *)
Theorem local_copy_copies_each_pair env td sd files log args fs fs' t :
  WindowsDriverFirmware_get env td sd files log args fs = (Ok tt, fs', t) →
  ∀ pre s tn post, files = pre ++ (s, tn) :: post →
    let target := path_out args <//> td </> tn in
    ∃ n fs1 fs2 data,
      n ∈ scandir env (locate env (path_wdsfr args)) ∧ startswith n sd = true ∧
      let source := child (path_wdsfr args) n </> s in
      for_ pre (WindowsDriverFirmware_copy env td (Some (child (path_wdsfr args) n)) log args) fs
        = (Ok tt, fs1, flat_map (copy_calls td log args (child (path_wdsfr args) n)) pre) ∧
      WindowsDriverFirmware_copy env td (Some (child (path_wdsfr args) n)) log args (s, tn) fs1
        = (Ok tt, fs2, copy_calls td log args (child (path_wdsfr args) n) (s, tn)) ∧
      fs1 !! locate env source = Some (File data) ∧
      fs2 !! locate env source = Some (File data) ∧
      (fs2 !! locate env target = Some (File data) ∨
       fs2 !! locate env (target </> Path_name source) = Some (File data)) ∧
      (∀ p, p `prefix_of` locate env (Path_parent target) → stat fs2 p = Some Dir) ∧
      ∃ t3, for_ post (WindowsDriverFirmware_copy env td (Some (child (path_wdsfr args) n)) log args)
              fs2 = (Ok tt, fs', t3).
Proof.
  intros Hrun pre s tn post -> target.
  unfold WindowsDriverFirmware_get, _find_source_directory, iterdir in Hrun.
  apply bind_ok_inv in Hrun as (base & fs0 & t0 & t1 & Hfind & Hloop & ->).
  apply bind_ok_inv in Hfind as (ps & fs0' & t0' & t0'' & Hiter & Hret & ->).
  injection Hret as <- <- <-.
  apply bind_ok_inv in Hiter as ([] & fsa & ta & tb & Hemit & Hquery & ->).
  injection Hemit as <- <-. unfold query in Hquery.
  injection Hquery as Hps <- <-.
  destruct (parents_ok fs _) as [[]|]; [|done].
  destruct (stat fs _) as [[]|]; try done. injection Hps as <-.
  rewrite find_child in Hloop.
  apply for_ok_split in Hloop as (fs1 & t1' & fs2 & t2 & t3 & Hpre & Hstep & Hpost & ->).
  destruct (WindowsDriverFirmware_copy_ok _ _ _ _ _ _ _ _ _ _ Hstep)
    as (b & data & Hb & -> & Hsrc & Hsrc' & Hdst & Hdirs).
  destruct (List.find _ (scandir env _)) as [n|] eqn:Hn; [|done].
  injection Hb as <-. apply find_some in Hn as [Hin Hstart].
  cbn [fmap option_fmap option_map] in Hpre, Hstep, Hpost.
  exists n, fs1, fs2, data.
  split; [by apply list_elem_of_In|]. split; [done|]. intros source.
  split_and!; [| done | done | done | done | done | by exists t3].
  clear Hstep Hsrc Hsrc' Hdst Hdirs Hpost source.
  revert fs t1' Hpre. clear. induction pre as [|[s' t'] pre IH]; intros fs t1 Hpre.
  - by injection Hpre as <- <-.
  - cbn [for_] in Hpre |- *.
    apply bind_ok_inv in Hpre as ([] & fsa & ta & tb & Hstep & Hrest & ->).
    destruct (WindowsDriverFirmware_copy_ok _ _ _ _ _ _ _ _ _ _ Hstep)
      as (b & _ & [= <-] & -> & _).
    erewrite bind_ok by exact Hstep. by rewrite (IH _ _ Hrest).
Qed.

Definition wlan_fs : gmap (list string) node :=
  <[store_loc ++ ["qcwlan8180-v2"; "wlanmdsp.mbn"] := File "wlan firmware"]>
    (store_fs ["qcwlan8180-v2"]).

Lemma local_copy_copies_each_pair_witness :
  let env := machine ["qcwlan8180-v2"] 0 in
  let td := Path_of "qcom/XIAOMI/BOOK124" in
  let run := WindowsDriverFirmware_get env td "qcwlan8180"
               [("wlanmdsp.mbn", "wlanmdsp.mbn")] log2 demo_args wlan_fs in
  let target := path_out demo_args <//> td </> "wlanmdsp.mbn" in
  ∃ n fs1 fs2 data,
    n ∈ scandir env (locate env (path_wdsfr demo_args)) ∧ startswith n "qcwlan8180" = true ∧
    let source := child (path_wdsfr demo_args) n </> "wlanmdsp.mbn" in
    for_ [] (WindowsDriverFirmware_copy env td (Some (child (path_wdsfr demo_args) n)) log2
               demo_args) wlan_fs
      = (Ok tt, fs1, flat_map (copy_calls td log2 demo_args (child (path_wdsfr demo_args) n)) []) ∧
    WindowsDriverFirmware_copy env td (Some (child (path_wdsfr demo_args) n)) log2 demo_args
      ("wlanmdsp.mbn", "wlanmdsp.mbn") fs1
      = (Ok tt, fs2, copy_calls td log2 demo_args (child (path_wdsfr demo_args) n)
                       ("wlanmdsp.mbn", "wlanmdsp.mbn")) ∧
    fs1 !! locate env source = Some (File data) ∧
    fs2 !! locate env source = Some (File data) ∧
    (fs2 !! locate env target = Some (File data) ∨
     fs2 !! locate env (target </> Path_name source) = Some (File data)) ∧
    (∀ p, p `prefix_of` locate env (Path_parent target) → stat fs2 p = Some Dir) ∧
    ∃ t3, for_ [] (WindowsDriverFirmware_copy env td (Some (child (path_wdsfr demo_args) n)) log2
                     demo_args) fs2 = (Ok tt, run.1.2, t3).
Proof.
  intros env td run target.
  refine (local_copy_copies_each_pair env td "qcwlan8180" [("wlanmdsp.mbn", "wlanmdsp.mbn")]
            log2 demo_args wlan_fs run.1.2 run.2 _ [] "wlanmdsp.mbn" "wlanmdsp.mbn" [] eq_refl).
  apply run_eta. vm_compute. reflexivity.
Defined.

(** ** Retrievals that raise *)





Lemma DownloadFirmware_fetch_raise env td url log args s t fs e fs' ev :
  DownloadFirmware_fetch env td url log args (s, t) fs = (Raise e, fs', ev) →
  ev `prefix_of` fetch_calls td url log args (s, t) ∧
  (∀ k, fs' !! k = fs !! k ∨ (fs !! k = None ∧ fs' !! k = Some Dir) ∨
        (k = locate env (fetch_target td args t) ∧
         ∃ part, fetch env (url +:+ "/" +:+ s) = Raise e ∧
                 received env (url +:+ "/" +:+ s) = Some part ∧
                 fs' !! k = Some (File part))) ∧
  (∀ e' fs2, fetch env (url +:+ "/" +:+ s) = Raise e' →
     mkdirs fs [] (locate env (Path_parent (fetch_target td args t))) = Ok fs2 →
     ev = fetch_calls td url log args (s, t) ∧
     (received env (url +:+ "/" +:+ s) = None → fs' = fs2) ∧
     (e = e' ∨
      ∃ part, received env (url +:+ "/" +:+ s) = Some part ∧
              write_file fs2 (locate env (fetch_target td args t)) part = Raise e)).
Proof.
  unfold DownloadFirmware_fetch, Path_mkdir, Logger_info, urlretrieve, bind, emit, update, lift,
    fetch_calls. fold (fetch_target td args t). cbn [fst snd app].
  destruct (mkdirs fs [] _) as [fs1|e1] eqn:Hmk.
  2:{ intros [= _ <- <-]. split_and!; [by eexists | by left | done]. }
  pose proof (mkdirs_only_dirs_added _ _ _ Hmk) as Hdirs.
  assert (∀ k, fs1 !! k = fs !! k ∨ (fs !! k = None ∧ fs1 !! k = Some Dir) ∨
               (k = locate env (fetch_target td args t) ∧
                ∃ part, fetch env (url +:+ "/" +:+ s) = Raise e ∧
                        received env (url +:+ "/" +:+ s) = Some part ∧
                        fs1 !! k = Some (File part))) as Hkeep.
  { intros k. destruct (only_dirs_added_lookup _ _ k Hdirs) as [?|?]; [by left | by right; left]. }
  destruct (fetch env _) as [data|e2] eqn:Hfetch.
  - destruct (write_file fs1 _ data) as [fs2|e3]; [done|].
    intros [= _ <- <-]. split_and!; [by eexists | done | done].
  - destruct (received env _) as [part|] eqn:Hpart.
    + destruct (write_file fs1 _ part) as [fs2|e3] eqn:Hw.
      * apply write_file_ok in Hw as (_ & _ & _ & ->).
        intros [= <- <- <-]. split_and!; [by eexists | |].
        -- intros k. destruct (decide (k = locate env (fetch_target td args t))) as [->|Hne].
           ++ right; right. split; [done|]. exists part.
              split_and!; [done | done | apply lookup_insert_eq].
           ++ rewrite lookup_insert_ne by done.
              destruct (only_dirs_added_lookup _ _ k Hdirs) as [?|?]; [by left | by right; left].
        -- intros e' fs2 [= <-] [= <-]. split_and!; [done | done | by left].
      * intros [= <- <- <-]. split_and!; [by eexists | done |].
        intros e' fs2 [= <-] [= <-]. split_and!; [done | done |].
        right. by exists part.
    + intros [= <- <- <-]. split_and!; [by eexists | done |].
      intros e' fs2 [= <-] [= <-]. split_and!; [done | done | by left].
Qed.

(** X4. A remote-fetch retrieval that raises does so at one pair of the
    file map, after the pairs before it have been fetched and before any
    later pair is touched, having requested the URL of the failing pair at
    most once.  The failing pair spares every other file: each location is
    as it was, or a directory it has created, or the target of this pair,
    which then holds what had been received when the retrieval broke off.
    Where the network raises for the URL (the directories having been
    made), its exception is the exception of the retrieval, unless the
    target could not be opened; and where the connection was never opened,
    no file has been written. *)
Theorem remote_fetch_failure_spares_other_files env td url files log args fs e fs' t :
  DownloadFirmware_get env td url files log args fs = (Raise e, fs', t) →
  ∃ pre s tn post fs1 t1 t2,
    files = pre ++ (s, tn) :: post ∧
    DownloadFirmware_get env td url pre log args fs = (Ok tt, fs1, t1) ∧
    DownloadFirmware_fetch env td url log args (s, tn) fs1 = (Raise e, fs', t2) ∧
    t = t1 ++ t2 ∧
    t2 `prefix_of` fetch_calls td url log args (s, tn) ∧
    (∀ k, fs' !! k = fs1 !! k ∨ (fs1 !! k = None ∧ fs' !! k = Some Dir) ∨
          (k = locate env (path_out args <//> td </> tn) ∧
           ∃ part, fetch env (url +:+ "/" +:+ s) = Raise e ∧
                   received env (url +:+ "/" +:+ s) = Some part ∧
                   fs' !! k = Some (File part))) ∧
    (∀ e' fs2, fetch env (url +:+ "/" +:+ s) = Raise e' →
       mkdirs fs1 [] (locate env (Path_parent (path_out args <//> td </> tn))) = Ok fs2 →
       t2 = fetch_calls td url log args (s, tn) ∧
       (received env (url +:+ "/" +:+ s) = None → fs' = fs2) ∧
       (e = e' ∨
        ∃ part, received env (url +:+ "/" +:+ s) = Some part ∧
                write_file fs2 (locate env (path_out args <//> td </> tn)) part = Raise e)).
Proof.
  unfold DownloadFirmware_get. intros Hrun.
  destruct (for_outcome _ _ _ _ _ _ Hrun)
    as [?|(pre & [s tn] & post & fs1 & t1 & e1 & t2 & -> & Hpre & Hstep & [= <-] & ->)];
    [done|].
  exists pre, s, tn, post, fs1, t1, t2.
  destruct (DownloadFirmware_fetch_raise _ _ _ _ _ _ _ _ _ _ _ Hstep) as (Hcalls & Hkeep & Hnet).
  by split_and!.
Qed.

(** A machine whose network breaks off every retrieval: before the
    connection is opened ([None]), or after [part] has arrived. *)
Definition broken_network (part : option string) (env : Env) : Env := {|
  cwd := cwd env;
  script_file := script_file env;
  euid := euid env;
  scandir := scandir env;
  fetch := λ _, Raise URLError;
  received := λ _, part;
  copy_fault := copy_fault env;
  chmod := chmod env;
  spawn := spawn env;
  mktemp := mktemp env;
|}.

Lemma remote_fetch_failure_spares_other_files_witness :
  let env := broken_network (Some "firm") (machine [] 0) in
  let td := Path_of "ath10k/WCN3990/hw1.0" in
  let url := URL_LINUX_FIRMWARE_REPO +:+ "/ath10k/WCN3990/hw1.0" in
  let files := [("firmware-5.bin", "firmware-5.bin")] in
  let run := DownloadFirmware_get env td url files log2 demo_args (store_fs []) in
  ∃ pre s tn post fs1 t1 t2,
    files = pre ++ (s, tn) :: post ∧
    DownloadFirmware_get env td url pre log2 demo_args (store_fs []) = (Ok tt, fs1, t1) ∧
    DownloadFirmware_fetch env td url log2 demo_args (s, tn) fs1 = (Raise URLError, run.1.2, t2) ∧
    run.2 = t1 ++ t2 ∧
    t2 `prefix_of` fetch_calls td url log2 demo_args (s, tn) ∧
    (∀ k, run.1.2 !! k = fs1 !! k ∨ (fs1 !! k = None ∧ run.1.2 !! k = Some Dir) ∨
          (k = locate env (path_out demo_args <//> td </> tn) ∧
           ∃ part, fetch env (url +:+ "/" +:+ s) = Raise URLError ∧
                   received env (url +:+ "/" +:+ s) = Some part ∧
                   run.1.2 !! k = Some (File part))) ∧
    (∀ e' fs2, fetch env (url +:+ "/" +:+ s) = Raise e' →
       mkdirs fs1 [] (locate env (Path_parent (path_out demo_args <//> td </> tn))) = Ok fs2 →
       t2 = fetch_calls td url log2 demo_args (s, tn) ∧
       (received env (url +:+ "/" +:+ s) = None → run.1.2 = fs2) ∧
       (URLError = e' ∨
        ∃ part, received env (url +:+ "/" +:+ s) = Some part ∧
                write_file fs2 (locate env (path_out demo_args <//> td </> tn)) part
                = Raise URLError)).
Proof.
  intros env td url files run.
  apply (remote_fetch_failure_spares_other_files env td url files log2 demo_args (store_fs [])).
  apply run_eta. vm_compute. reflexivity.
Defined.

(** ** The files a remote fetch leaves *)

Lemma DownloadFirmware_fetch_frame env td url log args s t fs fs' ev k v :
  DownloadFirmware_fetch env td url log args (s, t) fs = (Ok tt, fs', ev) →
  k ≠ locate env (path_out args <//> td </> t) →
  fs !! k = Some v → fs' !! k = Some v.
Proof.
  unfold DownloadFirmware_fetch, Path_mkdir, Logger_info, urlretrieve, bind, emit, update, lift.
  destruct (mkdirs fs [] _) as [fs1|e] eqn:Hmk; [|done].
  destruct (fetch env _) as [data|e];
    [|by destruct (received env _); [destruct (write_file fs1 _ _)|]].
  destruct (write_file fs1 _ data) as [fs2|e] eqn:Hw; [|done].
  intros [= <- _] Hne Hk. apply write_file_ok in Hw as (_ & _ & _ & ->).
  rewrite lookup_insert_ne by done.
  destruct (mkdirs_ok _ _ _ _ Hmk eq_refl) as [Hsub _]. by eapply lookup_weaken.
Qed.

Lemma DownloadFirmware_get_frame env td url log args files fs fs' t k v :
  DownloadFirmware_get env td url files log args fs = (Ok tt, fs', t) →
  Forall (λ st, k ≠ locate env (path_out args <//> td </> st.2)) files →
  fs !! k = Some v → fs' !! k = Some v.
Proof.
  unfold DownloadFirmware_get. revert fs t.
  induction files as [|[s tn] files IH]; intros fs t Hrun Hne Hk.
  - by injection Hrun as <- _.
  - apply Forall_cons in Hne as [Hne1 Hne]. cbn [for_] in Hrun.
    apply bind_ok_inv in Hrun as ([] & fs1 & t1 & t2 & Hstep & Hrest & ->).
    eapply IH; [exact Hrest | done |]. by eapply DownloadFirmware_fetch_frame.
Qed.

(** X5. After a remote-fetch retrieval that has returned, when the pairs
    of the file map have pairwise different target locations, every pair
    [(s, t)] has its file: [output/target_directory/t] holds the content
    retrieved from [source_url + "/" + s]. *)
Theorem remote_fetch_leaves_every_target env td url files log args fs fs' t :
  DownloadFirmware_get env td url files log args fs = (Ok tt, fs', t) →
  NoDup (map (λ st, locate env (path_out args <//> td </> st.2)) files) →
  ∀ s tn, (s, tn) ∈ files →
    ∃ data,
      fetch env (url +:+ "/" +:+ s) = Ok data ∧
      fs' !! locate env (path_out args <//> td </> tn) = Some (File data).
Proof.
  intros Hrun Hnd s tn Hin.
  apply list_elem_of_split in Hin as (pre & post & ->).
  unfold DownloadFirmware_get in Hrun.
  apply for_ok_split in Hrun as (fs1 & t1 & fs2 & t2 & t3 & _ & Hstep & Hpost & _).
  destruct (DownloadFirmware_fetch_ok _ _ _ _ _ _ _ _ _ _ Hstep) as (_ & data & Hfetch & Hfile & _).
  exists data. split; [done|].
  eapply DownloadFirmware_get_frame; [exact Hpost | | exact Hfile].
  rewrite map_app in Hnd. apply NoDup_app in Hnd as (_ & _ & Hnd).
  cbn [map] in Hnd. apply NoDup_cons in Hnd as [Hfresh _].
  apply Forall_forall. intros [s' t'] Hin' Heq. apply Hfresh.
  apply list_elem_of_fmap. exists (s', t'). by split.
Qed.

Lemma remote_fetch_leaves_every_target_witness :
  let env := machine [] 0 in
  let td := Path_of "qcom" in
  let url := URL_AARCH64_FIRMWARE_REPO +:+ "/qcom" in
  let files := [("a680_gmu.bin", "a680_gmu.bin"); ("a680_sqe.fw", "a680_sqe.fw")] in
  let run := DownloadFirmware_get env td url files log2 demo_args (store_fs []) in
  ∃ data,
    fetch env (url +:+ "/" +:+ "a680_gmu.bin") = Ok data ∧
    run.1.2 !! locate env (path_out demo_args <//> td </> "a680_gmu.bin") = Some (File data).
Proof.
  intros env td url files run.
  apply (remote_fetch_leaves_every_target env td url files log2 demo_args (store_fs [])
           run.1.2 run.2).
  - apply run_eta. vm_compute. reflexivity.
  - apply (bool_decide_unpack _). vm_compute. exact I.
  - apply elem_of_cons. by left.
Defined.

(** ** The patch phase *)

(** One iteration of [patch] under the logger [main] hands down. *)
Lemma patch_step env args p fs :
  (Logger_info log1 (Patch_name p) >>
   let* sub := lift (Logger_sub log1) in Patch_apply env p sub args) fs
  = ((Patch_apply env p log2 args fs).1.1, (Patch_apply env p log2 args fs).1.2,
     EvPrint (" -> " +:+ Patch_name p) :: (Patch_apply env p log2 args fs).2).
Proof.
  unfold bind, Logger_info, emit, lift. simpl.
  change (mkLogger 2 "    ") with log2.
  by destruct (Patch_apply env p log2 args fs) as [[[[]|e] fs1] t1].
Qed.

(** X6. A patch that raises ends the pipeline there: the run ends with its
    exception, on the tree it has left, and the history of the run stops
    with the events of that patch; the patches declared after it are not
    applied and the closing line is not printed. *)
Theorem patch_phase_fails_fast env args srcs pre p post fs fsg tg fsp tp e fs' t' :
  gather env log1 args srcs fs = (Ok tt, fsg, tg) →
  patch env log1 args pre fsg = (Ok tt, fsp, tp) →
  Patch_apply env p log2 args fsp = (Raise e, fs', t') →
  pipeline env args srcs (pre ++ p :: post) fs
  = (Raise e, fs',
     banner_gather :: tg ++ banner_patch :: tp ++ EvPrint (" -> " +:+ Patch_name p) :: t').
Proof.
  intros Hgather Hpre Hp. rewrite pipeline_phases, Hgather.
  assert (patch env log1 args (pre ++ p :: post) fsg
          = (Raise e, fs', tp ++ EvPrint (" -> " +:+ Patch_name p) :: t')) as ->; [|done].
  unfold patch in *. eapply for_raise; [exact Hpre|].
  rewrite patch_step. by rewrite Hp.
Qed.

Lemma patch_phase_fails_fast_witness :
  let env := machine [] 0 in
  let venus := mkPatch "venus" patch_venus_extract in
  let rest := [mkPatch "ath10k/board-2.bin" patch_ath10k_board;
               mkPatch "ath10k/firmware-5.bin" patch_ath10k_firmware;
               mkPatch "qca/bt" patch_qca_bt_symlinks] in
  let failing := Patch_apply env venus log2 demo_args (store_fs []) in
  pipeline env demo_args [] ([] ++ venus :: rest) (store_fs [])
  = (Raise FileNotFoundError, failing.1.2,
     banner_gather :: [] ++ banner_patch :: [] ++ EvPrint (" -> " +:+ Patch_name venus)
       :: failing.2).
Proof.
  intros env venus rest failing.
  apply (patch_phase_fails_fast env demo_args [] [] venus rest (store_fs []) (store_fs []) []
           (store_fs []) []); [reflexivity | reflexivity |].
  apply run_eta. vm_compute. reflexivity.
Defined.

(** X7. [gather] and [patch] derive a nested logger for every element
    they handle; a logger at the deepest level has none: with such a logger
    both raise [IndexError] at their first element, after its name has been
    printed and before its [get] or [apply] is entered. *)
Theorem deepest_logger_cannot_nest env log args s srcs p ps fs :
  (2 ≤ level log)%nat →
  Logger_sub log = Raise IndexError ∧
  gather env log args (s :: srcs) fs
  = (Raise IndexError, fs, [EvPrint (pfx log +:+ Firmware_name s)]) ∧
  patch env log args (p :: ps) fs
  = (Raise IndexError, fs, [EvPrint (pfx log +:+ Patch_name p)]).
Proof.
  intros Hlevel.
  assert (Logger_sub log = Raise IndexError) as Hsub.
  { unfold Logger_sub, Logger_init. rewrite lookup_ge_None_2; [done|]. simpl. lia. }
  split_and!; [done | |].
  - unfold gather. cbn [for_]. unfold bind, Logger_info, emit, lift. by rewrite Hsub.
  - unfold patch. cbn [for_]. unfold bind, Logger_info, emit, lift. by rewrite Hsub.
Qed.

Lemma deepest_logger_cannot_nest_witness :
  gather (machine [] 0) log2 demo_args [wlan_vendor] (store_fs [])
  = (Raise IndexError, store_fs [], [EvPrint (pfx log2 +:+ Firmware_name wlan_vendor)]).
Proof.
  destruct (deepest_logger_cannot_nest (machine [] 0) log2 demo_args wlan_vendor []
              (mkPatch "venus" patch_venus_extract) [] (store_fs [])) as (_ & H & _).
  - simpl. lia.
  - exact H.
Defined.

(** ** The history of a run that returns *)

Lemma quiet_patch_venus_extract env log args : quiet (patch_venus_extract env log args).
Proof. unfold patch_venus_extract, Path_mkdir, shutil_copy. quiet_tac. Qed.

Lemma quiet_patch_ath10k_board env log args : quiet (patch_ath10k_board env log args).
Proof.
  unfold patch_ath10k_board, write_text, shutil_rmtree.
  apply quiet_bind; [apply quiet_NamedTemporaryFile|]. intros file.
  apply quiet_bind; [quiet_tac|]. intros _.
  apply quiet_bind; [apply quiet_subprocess_call|]. intros _. quiet_tac.
Qed.

Lemma quiet_patch_ath10k_firmware env log args : quiet (patch_ath10k_firmware env log args).
Proof. unfold patch_ath10k_firmware. quiet_tac. Qed.

Lemma quiet_patch_qca_bt_symlinks env log args : quiet (patch_qca_bt_symlinks env log args).
Proof.
  unfold patch_qca_bt_symlinks. apply quiet_for. intros file.
  unfold qca_bt_link, Path_unlink, Path_symlink_to. quiet_tac.
Qed.

Lemma Patch_apply_entries env p log args fs :
  quiet (Patch_fn p env log args) →
  gets (Patch_apply env p log args fs).2 = [] ∧
  applies (Patch_apply env p log args fs).2 = [Patch_name p].
Proof.
  intros Hp. unfold Patch_apply, bind, emit. specialize (Hp fs).
  destruct (Patch_fn p env log args fs) as [[r1 fs1] t1]. simpl in *.
  destruct (quiet_gets _ Hp) as [H1 H2]. by rewrite H1, H2.
Qed.

Lemma patch_cons env args p ps fs :
  patch env log1 args (p :: ps) fs =
  bind (λ fs, ((Patch_apply env p log2 args fs).1.1, (Patch_apply env p log2 args fs).1.2,
               EvPrint (" -> " +:+ Patch_name p) :: (Patch_apply env p log2 args fs).2))
       (λ _, patch env log1 args ps) fs.
Proof.
  unfold patch. cbn [for_]. unfold bind at 1. rewrite patch_step.
  unfold bind. by destruct (Patch_apply env p log2 args fs) as [[[[]|e] fs1] t1].
Qed.

Lemma patch_entries env args (ps : list Patch) fs :
  Forall (λ p, quiet (Patch_fn p env log2 args)) ps →
  gets (patch env log1 args ps fs).2 = [] ∧
  ∀ fs' t, patch env log1 args ps fs = (Ok tt, fs', t) → applies t = map Patch_name ps.
Proof.
  revert fs. induction ps as [|p ps IH]; intros fs Hq.
  - split; [done|]. by intros fs' t [= <- <-].
  - apply Forall_cons in Hq as [Hp Hq]. rewrite patch_cons. unfold bind.
    destruct (Patch_apply_entries env p log2 args fs Hp) as [Hg Ha].
    destruct (Patch_apply env p log2 args fs) as [[[[]|e] fs1] t1]; simpl in *.
    + destruct (IH fs1 Hq) as [IHg IHa].
      destruct (patch env log1 args ps fs1) as [[r2 fs2] t2]. simpl in *. split.
      * by rewrite gets_app, Hg, IHg.
      * intros fs' t [= -> -> <-]. simpl. by rewrite applies_app, Ha, (IHa _ _ eq_refl).
    + by split.
Qed.

(** X8. In a run of the pipeline, over the patches of the script, that
    returns, every source of the registry has been got exactly once and
    every patch applied exactly once, both in the declared order, all
    sources before the first patch; the run opens with the gather line and
    closes with the closing line. *)
Theorem returning_run_handles_everything_once env args srcs fs fs' t :
  pipeline env args srcs patches fs = (Ok tt, fs', t) →
  gets t = map Firmware_name srcs ∧
  applies t = ["venus"; "ath10k/board-2.bin"; "ath10k/firmware-5.bin"; "qca/bt"] ∧
  ∃ tg tp,
    t = banner_gather :: tg ++ banner_patch :: tp ++ [banner_done] ∧
    gets tg = map Firmware_name srcs ∧ applies tg = [] ∧
    gets tp = [] ∧ applies tp = map Patch_name patches.
Proof.
  intros Hrun. rewrite pipeline_phases in Hrun.
  destruct (gather_entries env args srcs fs) as [Hga Hgg].
  destruct (gather env log1 args srcs fs) as [[[[]|e] fsg] tg] eqn:Hgather; [|done].
  assert (Forall (λ p, quiet (Patch_fn p env log2 args)) patches) as Hq.
  { repeat constructor; cbn [Patch_fn];
      auto using quiet_patch_venus_extract, quiet_patch_ath10k_board,
        quiet_patch_ath10k_firmware, quiet_patch_qca_bt_symlinks. }
  destruct (patch_entries env args patches fsg Hq) as [Hpg Hpa].
  destruct (patch env log1 args patches fsg) as [[[[]|e] fsp] tp] eqn:Hpatch; [|done].
  injection Hrun as <- <-. cbn [fst snd] in *.
  specialize (Hgg _ _ eq_refl). specialize (Hpa _ _ eq_refl).
  assert (gets [banner_done] = [] ∧ applies [banner_done] = []) as [Hdg Hda] by done.
  split_and!.
  - cbn [gets banner_gather]. rewrite gets_app. cbn [gets banner_patch].
    by rewrite gets_app, Hgg, Hpg, Hdg, !app_nil_r.
  - cbn [applies banner_gather]. rewrite applies_app. cbn [applies banner_patch].
    by rewrite applies_app, Hga, Hpa, Hda.
  - by exists tg, tp.
Qed.

(** The registry of the script, as constructed. *)
Lemma sources_registry : sources = Ok registry.
Proof. unfold registry. destruct sources as [l|e] eqn:H; [done|]. by vm_compute in H. Qed.

(** For another user than root, the script is the pipeline over its
    registry. *)
Lemma script_pipeline env srcs windows output fs :
  sources = Ok srcs → euid env ≠ 0%Z →
  (script env windows output fs).1.1
  = (pipeline env (mkArgs (Path_of windows </> PATH_WDSFR) (Path_of output)) srcs patches
       fs).1.1.
Proof.
  intros Hsrcs Heuid. unfold script, main_with, bind, lift. rewrite Hsrcs.
  destruct (Z.eqb_spec (euid env) 0) as [?|_]; [done|].
  by destruct (pipeline env _ srcs patches fs) as [[r fs'] t].
Qed.

(** On the complete machine the pipeline over the twelve sources of the
    registry returns. *)
Lemma pipeline_on_complete_machine :
  (pipeline (complete_machine 1) demo_args registry patches complete_fs).1.1 = Ok tt.
Proof.
  unfold demo_args.
  rewrite <- (script_pipeline (complete_machine 1) registry "/mnt/win" "out" complete_fs
                sources_registry).
  - exact (proj1 script_on_complete_machine).
  - change (1000 ≠ 0)%Z. discriminate.
Qed.

Lemma returning_run_handles_everything_once_witness :
  let run := pipeline (complete_machine 1) demo_args registry patches complete_fs in
  gets run.2 = map Firmware_name registry ∧
  applies run.2 = ["venus"; "ath10k/board-2.bin"; "ath10k/firmware-5.bin"; "qca/bt"] ∧
  ∃ tg tp,
    run.2 = banner_gather :: tg ++ banner_patch :: tp ++ [banner_done] ∧
    gets tg = map Firmware_name registry ∧ applies tg = [] ∧
    gets tp = [] ∧ applies tp = map Patch_name patches.
Proof.
  intros run.
  apply (returning_run_handles_everything_once (complete_machine 1) demo_args registry
           complete_fs run.1.2).
  apply run_eta. exact pipeline_on_complete_machine.
Defined.

(** ** Alias links that cannot be made *)

Lemma chain_snoc (fs : gmap (list string) node) above todo a :
  chain fs above (todo ++ [a]) =
  match chain fs above todo with
  | Ok _ =>
      match stat fs (above ++ todo) with
      | Some Dir => Ok tt
      | None => Raise FileNotFoundError
      | Some _ => Raise NotADirectoryError
      end
  | Raise e => Raise e
  end.
Proof.
  revert above. induction todo as [|c todo IH]; intros above.
  - cbn [app chain]. rewrite app_nil_r. by destruct (stat fs above) as [[]|].
  - cbn [app chain]. destruct (stat fs above) as [[]|]; try done.
    by rewrite IH, <- app_assoc.
Qed.

Lemma parents_ok_entry (fs : gmap (list string) node) d a :
  parents_ok fs (d ++ [a]) =
  match parents_ok fs d with
  | Ok _ =>
      match stat fs d with
      | Some Dir => Ok tt
      | None => Raise FileNotFoundError
      | Some _ => Raise NotADirectoryError
      end
  | Raise e => Raise e
  end.
Proof. apply chain_snoc. Qed.

Lemma qca_bt_link_no_directory env base file fs :
  plain (alias file) →
  parents_ok fs (locate env base) = Ok tt →
  stat fs (locate env base) = None →
  qca_bt_link env base file fs = (Raise FileNotFoundError, fs, link_events base [file]).
Proof.
  intros Hplain Hp Hs. rewrite qca_bt_link_run, locate_entry by done.
  assert (parents_ok fs (locate env base ++ [alias file]) = Raise FileNotFoundError) as Hpk
    by (by rewrite parents_ok_entry, Hp, Hs).
  unfold unlink_missing_ok. rewrite Hpk. unfold symlink. by rewrite Hpk.
Qed.

(** X9. Where the directory [qca] of the output tree does not exist, the
    alias-symlinking patch raises [FileNotFoundError] at its first link:
    the removal of the missing alias is tolerated, the creation of the link
    is not; the tree is left as it is and no later alias is tried. *)
Theorem alias_symlinking_needs_its_directory env log args fs :
  parents_ok fs (locate env (path_out args </> "qca")) = Ok tt →
  stat fs (locate env (path_out args </> "qca")) = None →
  patch_qca_bt_symlinks env log args fs
  = (Raise FileNotFoundError, fs,
     [EvUnlink (path_out args </> "qca" </> "crbtfw01.tlv");
      EvSymlink (path_out args </> "qca" </> "crbtfw01.tlv") "crbtfw21.tlv"]).
Proof.
  intros Hp Hs. unfold patch_qca_bt_symlinks, qca_bt_files.
  apply (for_raise [] _ "crbtfw21.tlv" _ fs fs []); [done|].
  apply qca_bt_link_no_directory; [|done|done].
  apply (bool_decide_unpack _). vm_compute. exact I.
Qed.

Lemma alias_symlinking_needs_its_directory_witness :
  patch_qca_bt_symlinks (machine [] 0) log2 demo_args empty_out_fs
  = (Raise FileNotFoundError, empty_out_fs,
     [EvUnlink (path_out demo_args </> "qca" </> "crbtfw01.tlv");
      EvSymlink (path_out demo_args </> "qca" </> "crbtfw01.tlv") "crbtfw21.tlv"]).
Proof.
  apply alias_symlinking_needs_its_directory; vm_compute; reflexivity.
Defined.

Section LinkFailures.
Context (env : Env) (base : Path).

(** Over an existing directory, the links of files none of whose aliases
    is a directory are all made. *)
Lemma links_made (l : list string) fs :
  Forall (λ f, plain (alias f)) l →
  NoDup (map alias l) →
  is_dir fs (locate env base) = true →
  Forall (λ f, fs !! link_loc env base f ≠ Some Dir) l →
  ∃ fs', for_ l (qca_bt_link env base) fs = (Ok tt, fs', link_events base l).
Proof.
  revert fs. induction l as [|f l IH]; intros fs Hplain Hnd Hdir Hfree; [by eexists|].
  apply Forall_cons in Hplain as [Hf Hplain]. cbn [map] in Hnd.
  apply NoDup_cons in Hnd as [Hfresh Hnd]. apply Forall_cons in Hfree as [Hf_free Hfree].
  apply is_dir_true in Hdir as [Hp Hs].
  assert (parents_ok fs (link_loc env base f) = Ok tt) as Hpf
    by (unfold link_loc; by rewrite parents_ok_entry, Hp, Hs).
  assert (∃ fs1, qca_bt_link env base f fs = (Ok tt, fs1, link_events base [f]) ∧
                 fs1 = <[link_loc env base f := Symlink f]> fs) as (fs1 & Hstep & ->).
  { rewrite qca_bt_link_run, locate_entry by done. fold (link_loc env base f).
    unfold unlink_missing_ok, symlink. rewrite Hpf. unfold link_loc in *. rewrite stat_entry.
    destruct (fs !! (locate env base ++ [alias f])) as [[]|] eqn:Hk; try done;
      rewrite ?parents_ok_delete, ?Hpf, ?stat_entry, ?lookup_delete_eq, ?Hk by done;
      eexists; (split; [done|]); by rewrite ?insert_delete_eq. }
  destruct (IH (<[link_loc env base f := Symlink f]> fs)) as [fs' Hrest]; [done | done | |  |].
  - unfold is_dir. rewrite parents_ok_insert, Hp by (unfold link_loc; rewrite length_app; simpl; lia).
    rewrite stat_insert_ne, Hs; [done|]. unfold link_loc. intros Heq.
    apply (f_equal length) in Heq. rewrite length_app in Heq. simpl in Heq. lia.
  - apply Forall_forall. intros g Hg. rewrite Forall_forall in Hfree.
    rewrite lookup_insert_ne; [by apply Hfree|].
    intros Heq. apply app_inj_tail in Heq as [_ Heq]. apply Hfresh. rewrite Heq.
    apply list_elem_of_fmap. by exists g.
  - exists fs'. cbn [for_]. erewrite bind_ok by exact Hstep. by rewrite Hrest.
Qed.

Lemma qca_bt_link_directory file fs :
  plain (alias file) →
  is_dir fs (locate env base) = true →
  fs !! link_loc env base file = Some Dir →
  qca_bt_link env base file fs = (Raise IsADirectoryError, fs, [EvUnlink (base </> alias file)]).
Proof.
  intros Hplain [Hp Hs]%is_dir_true Hk.
  rewrite qca_bt_link_run, locate_entry by done. fold (link_loc env base file).
  unfold unlink_missing_ok. unfold link_loc in *.
  by rewrite parents_ok_entry, Hp, Hs, stat_entry, Hk.
Qed.
End LinkFailures.

(** X10. Where an alias path is a directory, the alias-symlinking patch
    raises [IsADirectoryError] at that alias: the aliases before it in the
    list (none of them a directory) have been linked, the directory is
    left in place, nothing else in the tree has changed and no later alias
    is tried. *)
Theorem alias_symlinking_stops_at_a_directory env log args fs pre file post :
  qca_bt_files = pre ++ file :: post →
  is_dir fs (locate env (path_out args </> "qca")) = true →
  Forall (λ f, fs !! (locate env (path_out args </> "qca") ++ [replace f "21" "01"]) ≠ Some Dir)
    pre →
  fs !! (locate env (path_out args </> "qca") ++ [replace file "21" "01"]) = Some Dir →
  ∃ fs',
    patch_qca_bt_symlinks env log args fs
    = (Raise IsADirectoryError, fs',
       flat_map (λ f, [EvUnlink (path_out args </> "qca" </> replace f "21" "01");
                       EvSymlink (path_out args </> "qca" </> replace f "21" "01") f]) pre
       ++ [EvUnlink (path_out args </> "qca" </> replace file "21" "01")]) ∧
    (∀ f, f ∈ pre →
       fs' !! (locate env (path_out args </> "qca") ++ [replace f "21" "01"])
       = Some (Symlink f)) ∧
    (∀ k, (∀ f, f ∈ pre → k ≠ locate env (path_out args </> "qca") ++ [replace f "21" "01"]) →
          fs' !! k = fs !! k).
Proof.
  intros Hsplit Hdir Hfree Hk. set (base := path_out args </> "qca") in *.
  pose proof qca_bt_aliases_plain as Hplain. pose proof qca_bt_aliases_NoDup as Hnd.
  rewrite Hsplit in Hplain, Hnd.
  apply Forall_app in Hplain as [Hplain_pre [Hplain_f _]%Forall_cons].
  rewrite map_app in Hnd. apply NoDup_app in Hnd as (Hnd_pre & Hdisj & _).
  destruct (links_made env base pre fs Hplain_pre Hnd_pre Hdir Hfree) as [fs' Hpre].
  destruct (links_ok _ _ _ _ _ _ Hplain_pre Hnd_pre Hpre) as (_ & Hlinked & Hpar & Hother).
  exists fs'. split_and!.
  - unfold patch_qca_bt_symlinks. fold base. rewrite Hsplit.
    eapply for_raise; [exact Hpre|].
    apply qca_bt_link_directory; [done | |].
    + apply is_dir_true in Hdir as [Hp Hs]. unfold is_dir.
      pose proof (Hpar file) as Hpf. unfold link_loc in Hpf.
      rewrite !parents_ok_entry, Hp, Hs in Hpf.
      destruct (parents_ok fs' (locate env base)) as [[]|]; [|done].
      by destruct (stat fs' (locate env base)) as [[]|].
    + unfold link_loc. rewrite Hother; [done|].
      intros g Hg Heq. apply app_inj_tail in Heq as [_ Heq].
      apply (Hdisj (alias file)); [|by apply elem_of_cons; left].
      rewrite Heq. apply list_elem_of_fmap. by exists g.
  - intros f Hf. by apply Hlinked.
  - intros k Hne. by apply Hother.
Qed.

(** A gathered tree in which the second alias is a directory. *)
Definition blocked_fs : gmap (list string) node :=
  <[["work"; "out"; "qca"; "crnv01.b3c"] := Dir]> gathered_fs.

Lemma alias_symlinking_stops_at_a_directory_witness :
  ∃ fs',
    patch_qca_bt_symlinks (machine [] 0) log2 demo_args blocked_fs
    = (Raise IsADirectoryError, fs',
       flat_map (λ f, [EvUnlink (path_out demo_args </> "qca" </> replace f "21" "01");
                       EvSymlink (path_out demo_args </> "qca" </> replace f "21" "01") f])
         ["crbtfw21.tlv"]
       ++ [EvUnlink (path_out demo_args </> "qca" </> replace "crnv21.b3c" "21" "01")]) ∧
    (∀ f, f ∈ ["crbtfw21.tlv"] →
       fs' !! (locate (machine [] 0) (path_out demo_args </> "qca") ++ [replace f "21" "01"])
       = Some (Symlink f)) ∧
    (∀ k, (∀ f, f ∈ ["crbtfw21.tlv"] →
             k ≠ locate (machine [] 0) (path_out demo_args </> "qca") ++ [replace f "21" "01"]) →
          fs' !! k = blocked_fs !! k).
Proof.
  apply (alias_symlinking_stops_at_a_directory (machine [] 0) log2 demo_args blocked_fs
           ["crbtfw21.tlv"] "crnv21.b3c"
           ["crnv21.b44"; "crnv21.b45"; "crnv21.b46"; "crnv21.b47"; "crnv21.b71"; "crnv21.bin"]).
  - reflexivity.
  - vm_compute. reflexivity.
  - apply (bool_decide_unpack _). vm_compute. exact I.
  - vm_compute. reflexivity.
Defined.

(** ** Running the indexed re-encoding again *)

(** X11. The indexed re-encoding patch cannot be repeated: after a run
    that has returned, the boards directory is gone, and a second run on
    the tree it has left raises (at the latest when it removes the boards
    directory again), unless the encoder itself puts a directory back at
    that place. *)
Theorem board_reencoding_is_not_repeatable env log args fs fs1 t1 :
  (∀ argv fs_in fs_out status,
     spawn env argv fs_in = Ok (fs_out, status) →
     fs_in !! locate env (board_dir env args) ≠ Some Dir →
     fs_out !! locate env (board_dir env args) ≠ Some Dir) →
  patch_ath10k_board env log args fs = (Ok tt, fs1, t1) →
  ∃ e fs2 t2, patch_ath10k_board env log args fs1 = (Raise e, fs2, t2).
Proof.
  intros Htool Hrun. set (K := locate env (board_dir env args)) in *.
  assert (fs1 !! K = None) as Hgone.
  { rewrite patch_ath10k_board_run in Hrun. cbv zeta in Hrun.
    destruct (write_file fs _ "") as [fa|]; [|done].
    destruct (write_file fa _ _) as [fb|]; [|done].
    destruct (spawn env _ fb) as [[fc c]|]; [|done].
    destruct (rmtree fc _) as [fd|] eqn:Hrm; [|done].
    injection Hrun as <- _. apply unlink_ignored_missing.
    by apply (rmtree_ok _ _ _ Hrm). }
  rewrite patch_ath10k_board_run. cbv zeta. fold K.
  destruct (write_file fs1 _ "") as [fa|e] eqn:Ha; [|by eexists _, _, _].
  apply write_file_ok in Ha as (_ & _ & _ & ->).
  destruct (write_file _ _ (board_spec_text env args)) as [fb|e] eqn:Hb; [|by eexists _, _, _].
  apply write_file_ok in Hb as (_ & _ & _ & ->).
  destruct (spawn env _ _) as [[fc c]|e] eqn:Hc; [|by eexists _, _, _].
  assert (fc !! K ≠ Some Dir) as Hno.
  { eapply Htool; [exact Hc|]. fold K.
    destruct (decide (locate env (Path_of (mktemp env fs1)) = K)) as [->|Hne].
    - by rewrite lookup_insert_eq.
    - by rewrite !lookup_insert_ne, Hgone. }
  destruct (rmtree fc K) as [fd|e] eqn:Hd; [|by eexists _, _, _].
  by apply rmtree_ok in Hd as [Hd _].
Qed.

Lemma board_reencoding_is_not_repeatable_witness :
  let once := patch_ath10k_board (machine [] 0) log2 demo_args gathered_fs in
  ∃ e fs2 t2, patch_ath10k_board (machine [] 0) log2 demo_args once.1.2 = (Raise e, fs2, t2).
Proof.
  intros once.
  apply (board_reencoding_is_not_repeatable (machine [] 0) log2 demo_args gathered_fs
           once.1.2 once.2).
  - intros argv fs_in fs_out status [= <- _] H. exact H.
  - apply run_eta. vm_compute. reflexivity.
Defined.

(** ** The extraction of the venus container *)

(** X12. In a run of the container-extraction patch that returns, the
    calls are, in this order, the creation of the directory [venus-5.2]
    with its missing ancestors, the splitter on the blob with the prefix
    [venus] in that directory, and the copy of the blob; the directory
    exists when the splitter is started, and afterwards the content the
    blob has after the splitter stands at [venus.mbn] in the directory
    (or, where that path is a directory, in it under the name of the
    blob), the blob itself being left in place. *)
Theorem venus_extraction_duplicates_the_blob env log args fs fs' t :
  patch_venus_extract env log args fs = (Ok tt, fs', t) →
  let blob := path_out args </> "qcom" </> "XIAOMI/BOOK124" </> "qcvss8180.mbn" in
  let dir := path_out args </> "qcom" </> "venus-5.2" in
  let argv := ["python";
               str (PATH_THIRDPARTY env </> "qcom-mbn-tools" </> "pil-splitter.py");
               str blob; str (dir </> "venus")] in
  t = [EvMkdir dir; EvCall argv; EvCopy blob (dir </> "venus.mbn")] ∧
  ∃ fs1 fs2 status data,
    mkdirs fs [] (locate env dir) = Ok fs1 ∧
    stat fs1 (locate env dir) = Some Dir ∧
    spawn env argv fs1 = Ok (fs2, status) ∧
    fs2 !! locate env blob = Some (File data) ∧
    fs' !! locate env blob = Some (File data) ∧
    (fs' !! locate env (dir </> "venus.mbn") = Some (File data) ∨
     fs' !! locate env (dir </> "venus.mbn" </> Path_name blob) = Some (File data)).
Proof.
  intros Hrun blob dir argv.
  unfold patch_venus_extract, Path_mkdir, subprocess_call in Hrun.
  change PATH_PLATFORM with "XIAOMI/BOOK124" in Hrun.
  change PATH_VENUS with "venus-5.2" in Hrun.
  fold blob dir argv in Hrun.
  apply bind_ok_inv in Hrun as ([] & fs1 & ta & tb & Hmk & Hrun & ->).
  apply bind_ok_inv in Hrun as (status & fs2 & tc & td & Hcall & Hcopy & ->).
  apply bind_ok_inv in Hmk as ([] & fs0 & t0 & t0' & [= <- <-] & Hmk & ->).
  apply bind_ok_inv in Hcall as ([] & fs1' & t1 & t1' & [= <- <-] & Hcall & ->).
  unfold update in Hmk. destruct (mkdirs fs [] (locate env dir)) as [fsm|] eqn:Hm; [|done].
  injection Hmk as <- <-.
  destruct (spawn env argv fsm) as [[fsn st]|] eqn:Hs; [|done].
  injection Hcall as <- <- <-.
  destruct (shutil_copy_ok _ _ _ _ _ _ Hcopy) as (-> & data & Hsrc & Hsrc' & Hdst).
  split; [done|]. exists fsm, fsn, st, data.
  split_and!; [done | | done | done | done |].
  - destruct (mkdirs_ok _ _ _ _ Hm eq_refl) as [_ Hdirs].
    specialize (Hdirs (length (locate env dir))). by rewrite take_ge in Hdirs.
  - by destruct (is_dir fsn _); [right | left].
Qed.

Lemma venus_extraction_duplicates_the_blob_witness :
  let env := machine [] 0 in
  let run := patch_venus_extract env log2 demo_args gathered_fs in
  let blob := path_out demo_args </> "qcom" </> "XIAOMI/BOOK124" </> "qcvss8180.mbn" in
  let dir := path_out demo_args </> "qcom" </> "venus-5.2" in
  let argv := ["python";
               str (PATH_THIRDPARTY env </> "qcom-mbn-tools" </> "pil-splitter.py");
               str blob; str (dir </> "venus")] in
  run.2 = [EvMkdir dir; EvCall argv; EvCopy blob (dir </> "venus.mbn")] ∧
  ∃ fs1 fs2 status data,
    mkdirs gathered_fs [] (locate env dir) = Ok fs1 ∧
    stat fs1 (locate env dir) = Some Dir ∧
    spawn env argv fs1 = Ok (fs2, status) ∧
    fs2 !! locate env blob = Some (File data) ∧
    run.1.2 !! locate env blob = Some (File data) ∧
    (run.1.2 !! locate env (dir </> "venus.mbn") = Some (File data) ∨
     run.1.2 !! locate env (dir </> "venus.mbn" </> Path_name blob) = Some (File data)).
Proof.
  intros env run.
  apply (venus_extraction_duplicates_the_blob env log2 demo_args gathered_fs run.1.2 run.2).
  apply run_eta. vm_compute. reflexivity.
Defined.
